(** * NetworkManager DNS manager: a shallow embedding of
      [src/dns-manager/nm-dns-manager.c] and the properties of its
      merge engine, transaction controller, persistence backends and
      caching-plugin supervisor. *)

From Stdlib Require Import List String Ascii ZArith Bool Lia.
Import ListNotations.
Open Scope string_scope.
Open Scope list_scope.
Open Scope Z_scope.

Set Implicit Arguments.

(** ** Data model *)

(** [struct in6_addr]: the sixteen bytes [s6_addr[0..15]]. *)
Definition in6_addr := list Z.

(** The DNS part of an [NMIP4Config]. *)
Record NMIP4Config := {
  ip4_nameservers : list Z;
  ip4_domains : list string;
  ip4_searches : list string;
  ip4_dns_options : list string;
  ip4_nis_servers : list Z;
  ip4_nis_domain : option string
}.

Record NMIP6Config := {
  ip6_nameservers : list in6_addr;
  ip6_domains : list string;
  ip6_searches : list string;
  ip6_dns_options : list string
}.

(** [NMGlobalDnsConfig]; [global_default_domain] is what
    [nm_global_dns_config_lookup_domain (global_conf, "*")] finds, with
    the result of [nm_global_dns_domain_get_servers] on it. *)
Record NMGlobalDnsConfig := {
  global_searches : option (list string);
  global_options : option (list string);
  global_default_domain : option (option (list string))
}.

(** Addresses of config objects.  [NMIP4Config *] and [NMIP6Config *]
    are kept apart by their type; the [gpointer] elements of
    [priv->configs] carry the run-time type that [NM_IS_IP4_CONFIG] and
    [NM_IS_IP6_CONFIG] inspect. *)
Definition ptr := nat.

Inductive gpointer :=
| Ref4 (p : ptr)
| Ref6 (p : ptr).

Definition gpointer_eqb (a b : gpointer) : bool :=
  match a, b with
  | Ref4 p, Ref4 q => Nat.eqb p q
  | Ref6 p, Ref6 q => Nat.eqb p q
  | _, _ => false
  end.

Inductive NMDnsIPConfigType :=
| NM_DNS_IP_CONFIG_TYPE_DEFAULT
| NM_DNS_IP_CONFIG_TYPE_BEST_DEVICE
| NM_DNS_IP_CONFIG_TYPE_VPN.

Inductive NMDnsManagerResolvConfManager :=
| NM_DNS_MANAGER_RESOLV_CONF_MAN_UNKNOWN
| NM_DNS_MANAGER_RESOLV_CONF_MAN_UNMANAGED
| NM_DNS_MANAGER_RESOLV_CONF_MAN_IMMUTABLE
| NM_DNS_MANAGER_RESOLV_CONF_MAN_SYMLINK
| NM_DNS_MANAGER_RESOLV_CONF_MAN_FILE
| NM_DNS_MANAGER_RESOLV_CONF_MAN_RESOLVCONF
| NM_DNS_MANAGER_RESOLV_CONF_MAN_NETCONFIG.

Inductive SpawnResult :=
| SR_SUCCESS
| SR_NOTFOUND
| SR_ERROR.

(** The plugin classes [NM_IS_DNS_DNSMASQ] and [NM_IS_DNS_UNBOUND] tell
    apart. *)
Inductive plugin_class :=
| NM_TYPE_DNS_DNSMASQ
| NM_TYPE_DNS_UNBOUND.

Record NMDnsPlugin := {
  plugin_type : plugin_class;
  nm_dns_plugin_get_name : string;
  nm_dns_plugin_is_caching : bool
}.

Record NMResolvConfData := {
  nameservers : list string;
  searches : list string;
  options : list string;
  nis_domain : option string;
  nis_servers : list string
}.

Record plugin_ratelimit_t := {
  ts : Z;
  num_restarts : Z;
  timer : Z
}.

Record NMDnsManagerPrivate := {
  ip4_vpn_configs : list ptr;
  ip4_device_config : option ptr;
  ip6_vpn_configs : list ptr;
  ip6_device_config : option ptr;
  configs : list gpointer;
  hostname : option string;
  updates_queue : Z;
  hash : list Z;
  prev_hash : list Z;
  rc_manager : NMDnsManagerResolvConfManager;
  plugin : option NMDnsPlugin;
  dns_touched : bool;
  plugin_ratelimit : plugin_ratelimit_t
}.

Definition HASH_LEN : Z := 20.
Definition PLUGIN_RATELIMIT_INTERVAL : Z := 30.
Definition PLUGIN_RATELIMIT_BURST : Z := 5.
Definition PLUGIN_RATELIMIT_DELAY : Z := 300.

(** [guint] and [guint64] arithmetic wraps. *)
Definition guint (z : Z) : Z := z mod 2 ^ 32.
Definition guint64 (z : Z) : Z := z mod 2 ^ 64.

(** ** Functions and constants the file takes from outside

    Everything below is used by [nm-dns-manager.c] and defined elsewhere
    (libsoup, libnm-core, glib, libc, the build system).  The
    development is parametric in all of it. *)

Class Externals := {
  (** [#if WITH_LIBSOUP ... SOUP_CHECK_VERSION (2, 40, 0)]: which of the
      two [DOMAIN_IS_VALID] macros the build selects. *)
  WITH_LIBSOUP : bool;
  soup_tld_domain_is_public_suffix : string -> bool;
  nm_utils_inet4_ntop : Z -> string;
  nm_utils_inet6_ntop : in6_addr -> string;
  IN6_IS_ADDR_V4MAPPED : in6_addr -> bool;
  IN6_IS_ADDR_LINKLOCAL : in6_addr -> bool;
  (** [addr->s6_addr32[3]] *)
  s6_addr32_3 : in6_addr -> Z;
  (** [_nm_utils_dns_option_find_idx]: index of an option of the same
      name, negative when there is none. *)
  _nm_utils_dns_option_find_idx : list string -> string -> Z;
  (** [nm_utils_ipaddr_valid (AF_UNSPEC, s)] *)
  nm_utils_ipaddr_valid : string -> bool;
  nm_utils_is_specific_hostname : string -> bool;
  (** [NMRUNDIR], fixed at build time, and the two helper paths the
      build may define. *)
  NMRUNDIR : string;
  RESOLVCONF_PATH_defined : option string;
  NETCONFIG_PATH_defined : option string;
  nm_dns_dnsmasq_new : NMDnsPlugin;
  nm_dns_unbound_new : NMDnsPlugin;
  (** [GChecksum] with [G_CHECKSUM_SHA1], and the per-object hashers. *)
  GChecksum : Type;
  g_checksum_new : GChecksum;
  g_checksum_get_digest : GChecksum -> list Z;
  (** [nm_ip4_config_hash (config, sum, TRUE)] and its siblings. *)
  nm_ip4_config_hash : NMIP4Config -> GChecksum -> GChecksum;
  nm_ip6_config_hash : NMIP6Config -> GChecksum -> GChecksum;
  nm_global_dns_config_update_checksum : NMGlobalDnsConfig -> GChecksum -> GChecksum
}.

(** ** String arrays *)

(** [add_string_item]: scan for an equal string, append when none. *)
Definition add_string_item (array : list string) (str : string) : list string :=
  if existsb (fun candidate => String.eqb candidate str) array
  then array
  else array ++ [str].

(** A [GPtrArray] turned into a [char **]: [NULL] when it is empty. *)
Definition strv (array : list string) : option (list string) :=
  match array with
  | [] => None
  | _ => Some array
  end.

(** [g_strjoinv (" ", v)] *)
Definition g_strjoinv (sep : string) (v : list string) : string :=
  String.concat sep v.

(** [g_strlcat (dst, src, size)]: the result never exceeds [size - 1]
    characters. *)
Definition g_strlcat (dst src : string) (size : nat) : string :=
  let cat := (dst ++ src)%string in
  if Nat.leb (String.length dst) (size - 1)
  then substring 0 (size - 1) cat
  else dst.

(** [strchr (s, c)]: the suffix of [s] that starts at the first [c]. *)
Fixpoint strchr (s : string) (c : ascii) : option string :=
  match s with
  | EmptyString => None
  | String a rest => if Ascii.eqb a c then Some s else strchr rest c
  end.

(** [strstr (s, needle) != NULL] *)
Fixpoint strstr (s needle : string) : bool :=
  if prefix needle s then true
  else match s with
       | EmptyString => false
       | String _ rest => strstr rest needle
       end.

(** [p++] on a [const char *] that points at a character. *)
Definition next_char (s : string) : string :=
  match s with
  | EmptyString => EmptyString
  | String _ rest => rest
  end.

(** [g_slist_find], [g_slist_remove] (first match only) and
    [g_slist_append] on lists of addresses. *)
Definition g_slist_find {A} (eqb : A -> A -> bool) (l : list A) (data : A) : bool :=
  existsb (eqb data) l.

Fixpoint g_slist_remove {A} (eqb : A -> A -> bool) (l : list A) (data : A) : list A :=
  match l with
  | [] => []
  | x :: rest => if eqb x data then rest else x :: g_slist_remove eqb rest data
  end.

Definition g_slist_append {A} (l : list A) (data : A) : list A := l ++ [data].

(** ** Merge engine *)

Section MergeEngine.
Context {E : Externals}.

(** The two [DOMAIN_IS_VALID] macros. *)
Definition DOMAIN_IS_VALID (domain : string) : bool :=
  if WITH_LIBSOUP
  then negb (String.eqb domain "") && negb (soup_tld_domain_is_public_suffix domain)
  else negb (String.eqb domain "").

Definition add_dns_option_item (array : list string) (str : string) : list string :=
  if _nm_utils_dns_option_find_idx array str <? 0
  then array ++ [str]
  else array.

(** The loop shared by the search and the domain lists: skip what
    [DOMAIN_IS_VALID] rejects, [add_string_item] the rest. *)
Definition add_valid_domains (array : list string) (l : list string) : list string :=
  fold_left (fun a d => if DOMAIN_IS_VALID d then add_string_item a d else a) l array.

Definition add_string_items (array : list string) (l : list string) : list string :=
  fold_left add_string_item l array.

(** What a config offers to the search list: its searches, and its
    domains when [num_domains > 1 || !num_searches]. *)
Definition search_candidates (cfg_searches cfg_domains : list string) : list string :=
  cfg_searches ++
  (if Nat.ltb 1 (List.length cfg_domains) || Nat.eqb (List.length cfg_searches) 0
   then cfg_domains else []).

Definition merge_searches (array cfg_searches cfg_domains : list string) : list string :=
  let s1 := add_valid_domains array cfg_searches in
  if Nat.ltb 1 (List.length cfg_domains) || Nat.eqb (List.length cfg_searches) 0
  then add_valid_domains s1 cfg_domains
  else s1.

Definition merge_one_ip4_config (rc : NMResolvConfData) (src : NMIP4Config) : NMResolvConfData :=
  {| nameservers :=
       add_string_items (nameservers rc) (map nm_utils_inet4_ntop (ip4_nameservers src));
     searches := merge_searches (searches rc) (ip4_searches src) (ip4_domains src);
     options := fold_left add_dns_option_item (ip4_dns_options src) (options rc);
     nis_domain :=
       match ip4_nis_domain src, nis_domain rc with
       | Some d, None => Some d
       | _, old => old
       end;
     nis_servers :=
       add_string_items (nis_servers rc) (map nm_utils_inet4_ntop (ip4_nis_servers src)) |}.

(** The text [merge_one_ip6_config] builds in [buf] for one nameserver;
    [buf] holds [NM_UTILS_INET_ADDRSTRLEN + 50] bytes. *)
Definition NM_UTILS_INET_ADDRSTRLEN : nat := 46.

Definition ip6_nameserver_text (iface : option string) (addr : in6_addr) : string :=
  if IN6_IS_ADDR_V4MAPPED addr
  then nm_utils_inet4_ntop (s6_addr32_3 addr)
  else
    let buf := nm_utils_inet6_ntop addr in
    match iface with
    | Some ifname =>
        if IN6_IS_ADDR_LINKLOCAL addr
        then g_strlcat (g_strlcat buf "%" (NM_UTILS_INET_ADDRSTRLEN + 50))
                       ifname (NM_UTILS_INET_ADDRSTRLEN + 50)
        else buf
    | None => buf
    end.

Definition merge_one_ip6_config (iface : option string) (rc : NMResolvConfData)
    (src : NMIP6Config) : NMResolvConfData :=
  {| nameservers :=
       add_string_items (nameservers rc)
                        (map (ip6_nameserver_text iface) (ip6_nameservers src));
     searches := merge_searches (searches rc) (ip6_searches src) (ip6_domains src);
     options := fold_left add_dns_option_item (ip6_dns_options src) (options rc);
     nis_domain := nis_domain rc;
     nis_servers := nis_servers rc |}.

(** [merge_global_dns_config] for a non-NULL [global_conf]; [None] is
    the failed [g_assert (default_domain)]. *)
Definition of_strv (v : option (list string)) : list string :=
  match v with
  | Some l => l
  | None => []
  end.

Definition merge_global_dns_config (rc : NMResolvConfData) (global_conf : NMGlobalDnsConfig)
    : option NMResolvConfData :=
  let searches' := add_valid_domains (searches rc) (of_strv (global_searches global_conf)) in
  let options' := add_string_items (options rc) (of_strv (global_options global_conf)) in
  match global_default_domain global_conf with
  | None => None
  | Some servers =>
      Some {| nameservers := add_string_items (nameservers rc) (of_strv servers);
              searches := searches';
              options := options';
              nis_domain := nis_domain rc;
              nis_servers := nis_servers rc |}
  end.

(** The hostname step of [update_dns]. *)
Definition add_hostname_search (hostname : option string) (array : list string) : list string :=
  match hostname with
  | None => array
  | Some name =>
      match strchr name "."%char with
      | None => array
      | Some at_dot =>
          if nm_utils_ipaddr_valid name then array
          else
            let hostdomain := next_char at_dot in
            if DOMAIN_IS_VALID hostdomain then add_string_item array hostdomain
            else if DOMAIN_IS_VALID name then add_string_item array name
            else array
      end
  end.

(** The search-list limit of [update_dns]: [i] when the loop over
    [num = MIN (len, 6)] entries ends or breaks.  [len] is a C [int];
    it stays far below its range for names a resolver accepts and is
    an unbounded integer here. *)
Fixpoint search_limit_loop (pdata : list string) (num i : nat) (len : Z) : nat :=
  match num, pdata with
  | S num', s :: rest =>
      let len' := len + (Z.of_nat (String.length s) + 1) in
      if 256 <? len' then i
      else search_limit_loop rest num' (S i) len'
  | _, _ => i
  end.

Definition limit_searches (array : list string) : list string :=
  firstn (search_limit_loop array (Nat.min (List.length array) 6) 0 0) array.

End MergeEngine.

(** ** Persistence backends *)

(** What the backends do to the outside world, in the order they do
    it.  The [Call*] events mark a backend being entered with the
    lists it is handed; the others are the system calls that change
    something, with their outcome. *)
Inductive event :=
| EvUpdateDns (no_caching : bool)
| EvCritical (msg : string)
| EvSourceRemove (id : Z)
| EvTimeoutAddSeconds (seconds : Z) (id : Z)
| EvPluginUpdate (vpn_configs dev_configs other_configs : list gpointer)
                 (global_config : option NMGlobalDnsConfig)
                 (hostname : option string) (ok : bool)
| CallUpdateResolvConf (searches nameservers options : option (list string))
                       (rc_manager : NMDnsManagerResolvConfManager)
| CallDispatchResolvconf (searches nameservers options : option (list string))
| CallDispatchNetconfig (searches nameservers : option (list string))
                        (nis_domain : option string)
                        (nis_servers : option (list string))
| EvSetContents (path content : string) (ok : bool)
| EvFopen (path : string) (ok : bool)
| EvFprintf (path content : string) (ok : bool)
| EvFclose (path : string) (ok : bool)
| EvRename (oldpath newpath : string) (ok : bool)
| EvUnlink (path : string) (ok : bool)
| EvSymlink (target linkpath : string) (ok : bool)
| EvSpawn (cmd : string) (status : Z)
| EvPopen (cmd : string) (ok : bool)
| EvPclose (status : Z)
| EvNetconfigSpawn (pid : Z)
| EvNetconfigWrite (key value : string)
| EvSignalConfigChanged.

Inductive lstat_result :=
| LstatOk (is_lnk : bool)
| LstatENOENT
| LstatError.

Inductive unlink_result :=
| UnlinkOk
| UnlinkENOENT
| UnlinkError.

(** The answers of the operating system and of the plugin during one
    run of [update_dns]; every question is asked at most once per
    run. *)
Record Env := {
  read_link_resconf : option string;
  set_contents_resconf_ok : bool;
  fopen_tmp_ok : bool;
  fprintf_tmp_ok : bool;
  fclose_tmp_ok : bool;
  rename_my_ok : bool;
  lstat_resconf : lstat_result;
  stat_resconf_ok : bool;
  unlink_resconf_tmp : unlink_result;
  symlink_ok : bool;
  rename_resconf_ok : bool;
  resolvconf_executable : bool;
  spawn_resolvconf_status : Z;
  popen_resolvconf_ok : bool;
  fprintf_pipe_ok : bool;
  pclose_status : Z;
  netconfig_pid : Z;
  kill_child_sync_ok : bool;
  netconfig_wifexited : bool;
  netconfig_wexitstatus : Z;
  plugin_update_ok : bool;
  timeout_source_id : Z
}.

Definition _PATH_RESCONF : string := "/etc/resolv.conf".
Definition RESOLV_CONF_TMP : string := "/etc/.resolv.conf.NetworkManager".

Definition LF : string := String (ascii_of_nat 10) EmptyString.

(** [create_resolv_conf] *)
Fixpoint nameserver_lines (l : list string) (i : nat) : string :=
  match l with
  | [] => ""
  | ns :: rest =>
      ((if Nat.eqb i 3
        then "# " ++ "NOTE: the libc resolver may not support more than 3 nameservers."
             ++ LF ++ "# " ++ "The nameservers listed below may not be recognized." ++ LF
        else "")
       ++ "nameserver " ++ ns ++ LF ++ nameserver_lines rest (S i))%string
  end.

Definition create_resolv_conf (searches nameservers options : option (list string)) : string :=
  let searches_str :=
    match searches with
    | Some v => ("search " ++ g_strjoinv " " v ++ LF)%string
    | None => ""
    end in
  let options_str :=
    match options with
    | Some v => ("options " ++ g_strjoinv " " v ++ LF)%string
    | None => ""
    end in
  let nameservers_str :=
    match nameservers with
    | Some v => nameserver_lines v 0
    | None => ""
    end in
  ("# Generated by NetworkManager" ++ LF ++ searches_str ++ nameservers_str ++ options_str)%string.

Definition rc_manager_eqb (a b : NMDnsManagerResolvConfManager) : bool :=
  match a, b with
  | NM_DNS_MANAGER_RESOLV_CONF_MAN_UNKNOWN, NM_DNS_MANAGER_RESOLV_CONF_MAN_UNKNOWN
  | NM_DNS_MANAGER_RESOLV_CONF_MAN_UNMANAGED, NM_DNS_MANAGER_RESOLV_CONF_MAN_UNMANAGED
  | NM_DNS_MANAGER_RESOLV_CONF_MAN_IMMUTABLE, NM_DNS_MANAGER_RESOLV_CONF_MAN_IMMUTABLE
  | NM_DNS_MANAGER_RESOLV_CONF_MAN_SYMLINK, NM_DNS_MANAGER_RESOLV_CONF_MAN_SYMLINK
  | NM_DNS_MANAGER_RESOLV_CONF_MAN_FILE, NM_DNS_MANAGER_RESOLV_CONF_MAN_FILE
  | NM_DNS_MANAGER_RESOLV_CONF_MAN_RESOLVCONF, NM_DNS_MANAGER_RESOLV_CONF_MAN_RESOLVCONF
  | NM_DNS_MANAGER_RESOLV_CONF_MAN_NETCONFIG, NM_DNS_MANAGER_RESOLV_CONF_MAN_NETCONFIG => true
  | _, _ => false
  end.

Definition SpawnResult_eqb (a b : SpawnResult) : bool :=
  match a, b with
  | SR_SUCCESS, SR_SUCCESS | SR_NOTFOUND, SR_NOTFOUND | SR_ERROR, SR_ERROR => true
  | _, _ => false
  end.

Section Backends.
Context {E : Externals}.

Definition RESOLVCONF_PATH : string :=
  match RESOLVCONF_PATH_defined with
  | Some path => path
  | None => "/sbin/resolvconf"
  end.

Definition NETCONFIG_PATH : string :=
  match NETCONFIG_PATH_defined with
  | Some path => path
  | None => "/sbin/netconfig"
  end.

Definition MY_RESOLV_CONF : string := (NMRUNDIR ++ "/resolv.conf")%string.
Definition MY_RESOLV_CONF_TMP : string := (MY_RESOLV_CONF ++ ".tmp")%string.

(** The last part of [update_resolv_conf], reached in symlink mode
    once the private copy is in place: decide whether
    [/etc/resolv.conf] may be replaced, and replace it. *)
Definition replace_resconf_symlink (e : Env) : list event * SpawnResult :=
  if match unlink_resconf_tmp e with UnlinkError => true | _ => false end
  then ([EvUnlink RESOLV_CONF_TMP false], SR_ERROR)
  else
    let ev1 := [EvUnlink RESOLV_CONF_TMP
                  (match unlink_resconf_tmp e with UnlinkOk => true | _ => false end)] in
    if negb (symlink_ok e)
    then (ev1 ++ [EvSymlink MY_RESOLV_CONF RESOLV_CONF_TMP false], SR_ERROR)
    else
      let ev2 := ev1 ++ [EvSymlink MY_RESOLV_CONF RESOLV_CONF_TMP true] in
      if negb (rename_resconf_ok e)
      then (ev2 ++ [EvRename RESOLV_CONF_TMP _PATH_RESCONF false], SR_ERROR)
      else (ev2 ++ [EvRename RESOLV_CONF_TMP _PATH_RESCONF true], SR_SUCCESS).

Definition update_resconf_symlink (e : Env) : list event * SpawnResult :=
  match lstat_resconf e with
  | LstatError => ([], SR_ERROR)
  | LstatENOENT => replace_resconf_symlink e
  | LstatOk false => replace_resconf_symlink e
  | LstatOk true =>
      if stat_resconf_ok e
      then
        match read_link_resconf e with
        | None => ([], SR_SUCCESS)
        | Some path =>
            if negb (String.eqb path MY_RESOLV_CONF)
            then ([], SR_SUCCESS)
            else replace_resconf_symlink e
        end
      else ([], SR_SUCCESS)
  end.

(** [update_resolv_conf]; the [error] out-parameter only carries
    message text and is left out. *)
Definition update_resolv_conf (e : Env)
    (searches nameservers options : option (list string))
    (rc_manager : NMDnsManagerResolvConfManager) : list event * SpawnResult :=
  let entry := [CallUpdateResolvConf searches nameservers options rc_manager] in
  if rc_manager_eqb rc_manager NM_DNS_MANAGER_RESOLV_CONF_MAN_UNMANAGED
     && match read_link_resconf e with
        | Some path => String.eqb path MY_RESOLV_CONF
        | None => false
        end
  then (entry, SR_SUCCESS)
  else
    let content := create_resolv_conf searches nameservers options in
    let '(ev_file, write_file_result) :=
      if rc_manager_eqb rc_manager NM_DNS_MANAGER_RESOLV_CONF_MAN_FILE
      then
        if set_contents_resconf_ok e
        then ([EvSetContents _PATH_RESCONF content true], SR_SUCCESS)
        else ([EvSetContents _PATH_RESCONF content false], SR_ERROR)
      else ([], SR_SUCCESS) in
    let ev0 := entry ++ ev_file in
    if negb (fopen_tmp_ok e)
    then (ev0 ++ [EvFopen MY_RESOLV_CONF_TMP false], SR_ERROR)
    else
      let success := fprintf_tmp_ok e in
      let ev1 := ev0 ++ [EvFopen MY_RESOLV_CONF_TMP true;
                         EvFprintf MY_RESOLV_CONF_TMP content success] in
      if negb (fclose_tmp_ok e)
      then (ev1 ++ [EvFclose MY_RESOLV_CONF_TMP false], SR_ERROR)
      else
        let ev2 := ev1 ++ [EvFclose MY_RESOLV_CONF_TMP true] in
        if negb success then (ev2, SR_ERROR)
        else if negb (rename_my_ok e)
        then (ev2 ++ [EvRename MY_RESOLV_CONF_TMP MY_RESOLV_CONF false], SR_ERROR)
        else
          let ev3 := ev2 ++ [EvRename MY_RESOLV_CONF_TMP MY_RESOLV_CONF true] in
          if rc_manager_eqb rc_manager NM_DNS_MANAGER_RESOLV_CONF_MAN_FILE
          then (ev3, write_file_result)
          else if negb (rc_manager_eqb rc_manager NM_DNS_MANAGER_RESOLV_CONF_MAN_SYMLINK)
          then (ev3, SR_SUCCESS)
          else
            let '(ev_link, r) := update_resconf_symlink e in
            (ev3 ++ ev_link, r).

(** [dispatch_resolvconf] *)
Definition dispatch_resolvconf (e : Env)
    (searches nameservers options : option (list string)) : list event * SpawnResult :=
  let entry := [CallDispatchResolvconf searches nameservers options] in
  if negb (resolvconf_executable e) then (entry, SR_NOTFOUND)
  else
    match searches, nameservers with
    | None, None =>
        let cmd := (RESOLVCONF_PATH ++ " -d " ++ "NetworkManager")%string in
        (entry ++ [EvSpawn cmd (spawn_resolvconf_status e)],
         if spawn_resolvconf_status e =? 0 then SR_SUCCESS else SR_ERROR)
    | _, _ =>
        let cmd := (RESOLVCONF_PATH ++ " -a " ++ "NetworkManager")%string in
        if negb (popen_resolvconf_ok e)
        then (entry ++ [EvPopen cmd false], SR_ERROR)
        else
          let success := fprintf_pipe_ok e in
          let ev := entry ++ [EvPopen cmd true;
                              EvFprintf cmd (create_resolv_conf searches nameservers options)
                                        success;
                              EvPclose (pclose_status e)] in
          if pclose_status e <? 0 then (ev, SR_ERROR)
          else if 0 <? pclose_status e then (ev, SR_ERROR)
          else (ev, if success then SR_SUCCESS else SR_ERROR)
    end.

(** [dispatch_netconfig] *)
Definition netconfig_list (key : string) (v : option (list string)) : list event :=
  match v with
  | Some l => [EvNetconfigWrite key (g_strjoinv " " l)]
  | None => []
  end.

Definition dispatch_netconfig (e : Env)
    (searches nameservers : option (list string))
    (nis_domain : option string) (nis_servers : option (list string))
    : list event * SpawnResult :=
  let entry := [CallDispatchNetconfig searches nameservers nis_domain nis_servers;
                EvNetconfigSpawn (netconfig_pid e)] in
  if netconfig_pid e <=? 0 then (entry, SR_NOTFOUND)
  else
    let ev := entry
              ++ [EvNetconfigWrite "INTERFACE" "NetworkManager"]
              ++ netconfig_list "DNSSEARCH" searches
              ++ netconfig_list "DNSSERVERS" nameservers
              ++ match nis_domain with
                 | Some d => [EvNetconfigWrite "NISDOMAIN" d]
                 | None => []
                 end
              ++ netconfig_list "NISSERVERS" nis_servers in
    if negb (kill_child_sync_ok e) then (ev, SR_ERROR)
    else if negb (netconfig_wifexited e) || negb (netconfig_wexitstatus e =? 0)
    then (ev, SR_ERROR)
    else (ev, SR_SUCCESS).

End Backends.

(** ** The manager and the objects around it *)

(** The private data of the manager together with what it points to:
    the config objects (their DNS data and the string each carries
    under [IP_CONFIG_IFACE_TAG]), the global DNS configuration held by
    [priv->config], and the trace of what has been done so far.
    Reference counts are not part of the model. *)
Record World := {
  priv : NMDnsManagerPrivate;
  ip4_config_at : ptr -> NMIP4Config;
  ip6_config_at : ptr -> NMIP6Config;
  iface_tag : gpointer -> option string;
  global_dns_config : option NMGlobalDnsConfig;
  log : list event
}.

Definition set_priv (w : World) (p : NMDnsManagerPrivate) : World :=
  {| priv := p;
     ip4_config_at := ip4_config_at w;
     ip6_config_at := ip6_config_at w;
     iface_tag := iface_tag w;
     global_dns_config := global_dns_config w;
     log := log w |}.

Definition add_log (w : World) (evs : list event) : World :=
  {| priv := priv w;
     ip4_config_at := ip4_config_at w;
     ip6_config_at := ip6_config_at w;
     iface_tag := iface_tag w;
     global_dns_config := global_dns_config w;
     log := log w ++ evs |}.

(** [g_object_set_data (G_OBJECT (config), IP_CONFIG_IFACE_TAG, v)] *)
Definition set_iface_tag (w : World) (config : gpointer) (v : option string) : World :=
  {| priv := priv w;
     ip4_config_at := ip4_config_at w;
     ip6_config_at := ip6_config_at w;
     iface_tag := fun q => if gpointer_eqb q config then v else iface_tag w q;
     global_dns_config := global_dns_config w;
     log := log w |}.

Definition set_ip4_vpn_configs (p : NMDnsManagerPrivate) (l : list ptr) :=
  {| ip4_vpn_configs := l; ip4_device_config := ip4_device_config p;
     ip6_vpn_configs := ip6_vpn_configs p; ip6_device_config := ip6_device_config p;
     configs := configs p; hostname := hostname p; updates_queue := updates_queue p;
     hash := hash p; prev_hash := prev_hash p; rc_manager := rc_manager p;
     plugin := plugin p; dns_touched := dns_touched p;
     plugin_ratelimit := plugin_ratelimit p |}.

Definition set_ip4_device_config (p : NMDnsManagerPrivate) (d : option ptr) :=
  {| ip4_vpn_configs := ip4_vpn_configs p; ip4_device_config := d;
     ip6_vpn_configs := ip6_vpn_configs p; ip6_device_config := ip6_device_config p;
     configs := configs p; hostname := hostname p; updates_queue := updates_queue p;
     hash := hash p; prev_hash := prev_hash p; rc_manager := rc_manager p;
     plugin := plugin p; dns_touched := dns_touched p;
     plugin_ratelimit := plugin_ratelimit p |}.

Definition set_ip6_vpn_configs (p : NMDnsManagerPrivate) (l : list ptr) :=
  {| ip4_vpn_configs := ip4_vpn_configs p; ip4_device_config := ip4_device_config p;
     ip6_vpn_configs := l; ip6_device_config := ip6_device_config p;
     configs := configs p; hostname := hostname p; updates_queue := updates_queue p;
     hash := hash p; prev_hash := prev_hash p; rc_manager := rc_manager p;
     plugin := plugin p; dns_touched := dns_touched p;
     plugin_ratelimit := plugin_ratelimit p |}.

Definition set_ip6_device_config (p : NMDnsManagerPrivate) (d : option ptr) :=
  {| ip4_vpn_configs := ip4_vpn_configs p; ip4_device_config := ip4_device_config p;
     ip6_vpn_configs := ip6_vpn_configs p; ip6_device_config := d;
     configs := configs p; hostname := hostname p; updates_queue := updates_queue p;
     hash := hash p; prev_hash := prev_hash p; rc_manager := rc_manager p;
     plugin := plugin p; dns_touched := dns_touched p;
     plugin_ratelimit := plugin_ratelimit p |}.

Definition set_configs (p : NMDnsManagerPrivate) (l : list gpointer) :=
  {| ip4_vpn_configs := ip4_vpn_configs p; ip4_device_config := ip4_device_config p;
     ip6_vpn_configs := ip6_vpn_configs p; ip6_device_config := ip6_device_config p;
     configs := l; hostname := hostname p; updates_queue := updates_queue p;
     hash := hash p; prev_hash := prev_hash p; rc_manager := rc_manager p;
     plugin := plugin p; dns_touched := dns_touched p;
     plugin_ratelimit := plugin_ratelimit p |}.

Definition set_hostname (p : NMDnsManagerPrivate) (h : option string) :=
  {| ip4_vpn_configs := ip4_vpn_configs p; ip4_device_config := ip4_device_config p;
     ip6_vpn_configs := ip6_vpn_configs p; ip6_device_config := ip6_device_config p;
     configs := configs p; hostname := h; updates_queue := updates_queue p;
     hash := hash p; prev_hash := prev_hash p; rc_manager := rc_manager p;
     plugin := plugin p; dns_touched := dns_touched p;
     plugin_ratelimit := plugin_ratelimit p |}.

Definition set_updates_queue (p : NMDnsManagerPrivate) (q : Z) :=
  {| ip4_vpn_configs := ip4_vpn_configs p; ip4_device_config := ip4_device_config p;
     ip6_vpn_configs := ip6_vpn_configs p; ip6_device_config := ip6_device_config p;
     configs := configs p; hostname := hostname p; updates_queue := q;
     hash := hash p; prev_hash := prev_hash p; rc_manager := rc_manager p;
     plugin := plugin p; dns_touched := dns_touched p;
     plugin_ratelimit := plugin_ratelimit p |}.

Definition set_prev_hash (p : NMDnsManagerPrivate) (h : list Z) :=
  {| ip4_vpn_configs := ip4_vpn_configs p; ip4_device_config := ip4_device_config p;
     ip6_vpn_configs := ip6_vpn_configs p; ip6_device_config := ip6_device_config p;
     configs := configs p; hostname := hostname p; updates_queue := updates_queue p;
     hash := hash p; prev_hash := h; rc_manager := rc_manager p;
     plugin := plugin p; dns_touched := dns_touched p;
     plugin_ratelimit := plugin_ratelimit p |}.

Definition set_rc_manager_plugin (p : NMDnsManagerPrivate)
    (rcm : NMDnsManagerResolvConfManager) (plug : option NMDnsPlugin) :=
  {| ip4_vpn_configs := ip4_vpn_configs p; ip4_device_config := ip4_device_config p;
     ip6_vpn_configs := ip6_vpn_configs p; ip6_device_config := ip6_device_config p;
     configs := configs p; hostname := hostname p; updates_queue := updates_queue p;
     hash := hash p; prev_hash := prev_hash p; rc_manager := rcm;
     plugin := plug; dns_touched := dns_touched p;
     plugin_ratelimit := plugin_ratelimit p |}.

Definition set_hash (p : NMDnsManagerPrivate) (h : list Z) :=
  {| ip4_vpn_configs := ip4_vpn_configs p; ip4_device_config := ip4_device_config p;
     ip6_vpn_configs := ip6_vpn_configs p; ip6_device_config := ip6_device_config p;
     configs := configs p; hostname := hostname p; updates_queue := updates_queue p;
     hash := h; prev_hash := prev_hash p; rc_manager := rc_manager p;
     plugin := plugin p; dns_touched := dns_touched p;
     plugin_ratelimit := plugin_ratelimit p |}.

Definition set_plugin_ratelimit (p : NMDnsManagerPrivate) (r : plugin_ratelimit_t) :=
  {| ip4_vpn_configs := ip4_vpn_configs p; ip4_device_config := ip4_device_config p;
     ip6_vpn_configs := ip6_vpn_configs p; ip6_device_config := ip6_device_config p;
     configs := configs p; hostname := hostname p; updates_queue := updates_queue p;
     hash := hash p; prev_hash := prev_hash p; rc_manager := rc_manager p;
     plugin := plugin p; dns_touched := dns_touched p;
     plugin_ratelimit := r |}.

(** What [update_dns] itself writes into [priv]: the cleared timer,
    [dns_touched] and the fresh hash. *)
Definition set_update_dns_fields (p : NMDnsManagerPrivate) (touched : bool) (h : list Z) :=
  {| ip4_vpn_configs := ip4_vpn_configs p; ip4_device_config := ip4_device_config p;
     ip6_vpn_configs := ip6_vpn_configs p; ip6_device_config := ip6_device_config p;
     configs := configs p; hostname := hostname p; updates_queue := updates_queue p;
     hash := h; prev_hash := prev_hash p; rc_manager := rc_manager p;
     plugin := plugin p; dns_touched := touched;
     plugin_ratelimit := {| ts := ts (plugin_ratelimit p);
                            num_restarts := num_restarts (plugin_ratelimit p);
                            timer := 0 |} |}.

(** [NM_IN_SET (iter->data, priv->ip4_device_config, priv->ip6_device_config)] *)
Definition is_device_config (p : NMDnsManagerPrivate) (data : gpointer) : bool :=
  match data with
  | Ref4 a =>
      match ip4_device_config p with
      | Some d => Nat.eqb a d
      | None => false
      end
  | Ref6 a =>
      match ip6_device_config p with
      | Some d => Nat.eqb a d
      | None => false
      end
  end.

Definition opt_list {A} (o : option A) : list A :=
  match o with
  | Some x => [x]
  | None => []
  end.

(** The configs of [priv->configs] that are not a device config. *)
Definition other_configs (p : NMDnsManagerPrivate) : list gpointer :=
  filter (fun data => negb (is_device_config p data)) (configs p).

(** The order in which [update_dns] and [compute_hash] walk the
    configs. *)
Definition walk_order (p : NMDnsManagerPrivate) : list gpointer :=
  map Ref4 (ip4_vpn_configs p)
  ++ map Ref4 (opt_list (ip4_device_config p))
  ++ map Ref6 (ip6_vpn_configs p)
  ++ map Ref6 (opt_list (ip6_device_config p))
  ++ other_configs p.

Section Manager.
Context {E : Externals}.

Definition hash_one (w : World) (sum : GChecksum) (data : gpointer) : GChecksum :=
  match data with
  | Ref4 a => nm_ip4_config_hash (ip4_config_at w a) sum
  | Ref6 a => nm_ip6_config_hash (ip6_config_at w a) sum
  end.

(** [compute_hash] *)
Definition compute_hash (w : World) (global : option NMGlobalDnsConfig) : list Z :=
  let p := priv w in
  let sum0 := g_checksum_new in
  let sum1 :=
    match global with
    | Some g => nm_global_dns_config_update_checksum g sum0
    | None => sum0
    end in
  let sum2 := fold_left (fun s a => nm_ip4_config_hash (ip4_config_at w a) s)
                        (ip4_vpn_configs p) sum1 in
  let sum3 :=
    match ip4_device_config p with
    | Some a => nm_ip4_config_hash (ip4_config_at w a) sum2
    | None => sum2
    end in
  let sum4 := fold_left (fun s a => nm_ip6_config_hash (ip6_config_at w a) s)
                        (ip6_vpn_configs p) sum3 in
  let sum5 :=
    match ip6_device_config p with
    | Some a => nm_ip6_config_hash (ip6_config_at w a) sum4
    | None => sum4
    end in
  let sum6 := fold_left (fun s data => if is_device_config p data then s
                                       else hash_one w s data)
                        (configs p) sum5 in
  g_checksum_get_digest sum6.

(** [build_plugin_config_lists] *)
Definition build_plugin_config_lists (p : NMDnsManagerPrivate)
    : list gpointer * list gpointer * list gpointer :=
  (map Ref4 (ip4_vpn_configs p) ++ map Ref6 (ip6_vpn_configs p),
   map Ref4 (opt_list (ip4_device_config p)) ++ map Ref6 (opt_list (ip6_device_config p)),
   fold_left (fun out data => if negb (is_device_config p data)
                              then g_slist_append out data else out)
             (configs p) []).

Definition merge_one (w : World) (rc : NMResolvConfData) (data : gpointer) : NMResolvConfData :=
  match data with
  | Ref4 a => merge_one_ip4_config rc (ip4_config_at w a)
  | Ref6 a => merge_one_ip6_config (iface_tag w (Ref6 a)) rc (ip6_config_at w a)
  end.

Definition rc_empty : NMResolvConfData :=
  {| nameservers := []; searches := []; options := [];
     nis_domain := None; nis_servers := [] |}.

(** The merge of [update_dns] up to the hostname step: the global
    configuration alone when there is one, else every config in turn. *)
Definition merge_configs (w : World) : option NMResolvConfData :=
  let p := priv w in
  match global_dns_config w with
  | Some global_config => merge_global_dns_config rc_empty global_config
  | None =>
      let rc1 := fold_left (fun rc a => merge_one_ip4_config rc (ip4_config_at w a))
                           (ip4_vpn_configs p) rc_empty in
      let rc2 :=
        match ip4_device_config p with
        | Some a => merge_one_ip4_config rc1 (ip4_config_at w a)
        | None => rc1
        end in
      let rc3 := fold_left (fun rc a => merge_one_ip6_config (iface_tag w (Ref6 a)) rc
                                                              (ip6_config_at w a))
                           (ip6_vpn_configs p) rc2 in
      let rc4 :=
        match ip6_device_config p with
        | Some a => merge_one_ip6_config (iface_tag w (Ref6 a)) rc3 (ip6_config_at w a)
        | None => rc3
        end in
      Some (fold_left (fun rc data => if is_device_config p data then rc
                                      else merge_one w rc data)
                      (configs p) rc4)
  end.

(** The plugin part of [update_dns]: the events, and [caching]. *)
Definition update_plugin (e : Env) (no_caching : bool) (w : World) : list event * bool :=
  let p := priv w in
  match plugin p with
  | None => ([], false)
  | Some plug =>
      if nm_dns_plugin_is_caching plug && no_caching then ([], false)
      else
        let caching := nm_dns_plugin_is_caching plug in
        let '(vpn_configs, dev_configs, others) :=
          match global_dns_config w with
          | None => build_plugin_config_lists p
          | Some _ => ([], [], [])
          end in
        ([EvPluginUpdate vpn_configs dev_configs others (global_dns_config w)
                         (hostname p) (plugin_update_ok e)],
         if plugin_update_ok e then caching else false)
  end.

(** The backend part of [update_dns] when [update] is set: events,
    [result] and [resolv_conf_updated]; [None] is
    [g_assert_not_reached]. *)
Definition dispatch_backend (e : Env) (rcm : NMDnsManagerResolvConfManager)
    (searches nameservers options : option (list string))
    (nis_domain : option string) (nis_servers : option (list string))
    : option (list event * SpawnResult * bool) :=
  let first :=
    match rcm with
    | NM_DNS_MANAGER_RESOLV_CONF_MAN_SYMLINK
    | NM_DNS_MANAGER_RESOLV_CONF_MAN_FILE =>
        let '(ev, r) := update_resolv_conf e searches nameservers options rcm in
        Some (ev, r, true)
    | NM_DNS_MANAGER_RESOLV_CONF_MAN_RESOLVCONF =>
        let '(ev, r) := dispatch_resolvconf e searches nameservers options in
        Some (ev, r, false)
    | NM_DNS_MANAGER_RESOLV_CONF_MAN_NETCONFIG =>
        let '(ev, r) := dispatch_netconfig e searches nameservers nis_domain nis_servers in
        Some (ev, r, false)
    | _ => None
    end in
  match first with
  | None => None
  | Some (ev, r, updated) =>
      if SpawnResult_eqb r SR_NOTFOUND
      then
        let '(ev', r') := update_resolv_conf e searches nameservers options
                                             NM_DNS_MANAGER_RESOLV_CONF_MAN_SYMLINK in
        Some (ev ++ ev', r', true)
      else Some (ev, r, updated)
  end.

(** [update_dns]; the result is its return value and the new world,
    [None] when an assertion aborts the process. *)
Definition update_dns (e : Env) (no_caching : bool) (w : World) : option (bool * World) :=
  let p := priv w in
  let ev_timer :=
    if timer (plugin_ratelimit p) =? 0 then []
    else [EvSourceRemove (timer (plugin_ratelimit p))] in
  let update :=
    negb (rc_manager_eqb (rc_manager p) NM_DNS_MANAGER_RESOLV_CONF_MAN_UNMANAGED
          || rc_manager_eqb (rc_manager p) NM_DNS_MANAGER_RESOLV_CONF_MAN_IMMUTABLE) in
  let touched := if update then true else dns_touched p in
  let p' := set_update_dns_fields p touched (compute_hash w (global_dns_config w)) in
  match merge_configs w with
  | None => None
  | Some rc =>
      let rc_searches := limit_searches (add_hostname_search (hostname p) (searches rc)) in
      let searches := strv rc_searches in
      let options := strv (options rc) in
      let nameservers := strv (nameservers rc) in
      let nis_servers := strv (nis_servers rc) in
      let nis_domain := nis_domain rc in
      let '(ev_plugin, caching) := update_plugin e no_caching w in
      let nameservers := if caching then Some ["127.0.0.1"] else nameservers in
      let backend :=
        if update
        then dispatch_backend e (rc_manager p) searches nameservers options
                              nis_domain nis_servers
        else Some ([], SR_ERROR, false) in
      match backend with
      | None => None
      | Some (ev_backend, result, resolv_conf_updated) =>
          let ev_private :=
            if resolv_conf_updated then []
            else fst (update_resolv_conf e searches nameservers options
                                         NM_DNS_MANAGER_RESOLV_CONF_MAN_UNMANAGED) in
          let ev_signal :=
            if update && SpawnResult_eqb result SR_SUCCESS
            then [EvSignalConfigChanged] else [] in
          Some (negb update || SpawnResult_eqb result SR_SUCCESS,
                add_log (set_priv w p')
                        ([EvUpdateDns no_caching] ++ ev_timer ++ ev_plugin
                         ++ ev_backend ++ ev_private ++ ev_signal))
      end
  end.

End Manager.

(** ** Entry points *)

Section EntryPoints.
Context {E : Externals}.

(** The statement every mutating entry point ends with:
    [if (!priv->updates_queue && !update_dns (self, FALSE, &error)) warn]. *)
Definition commit_unless_queued (e : Env) (w : World) : option World :=
  if updates_queue (priv w) =? 0
  then match update_dns e false w with
       | Some (_, w') => Some w'
       | None => None
       end
  else Some w.

(** The [switch (cfg_type)] of the two [add] functions, on the list of
    VPN configs, the device config and [priv->configs]. *)
Definition nm_dns_manager_add_ip4_config (e : Env) (iface : option string)
    (config : option ptr) (cfg_type : NMDnsIPConfigType) (w : World)
    : option (bool * World) :=
  match config with
  | None => Some (false, add_log w [EvCritical "config != NULL"])
  | Some c =>
      let w1 := set_iface_tag w (Ref4 c) iface in
      let p := priv w1 in
      let p' :=
        match cfg_type with
        | NM_DNS_IP_CONFIG_TYPE_VPN =>
            if g_slist_find Nat.eqb (ip4_vpn_configs p) c then p
            else set_ip4_vpn_configs p (g_slist_append (ip4_vpn_configs p) c)
        | NM_DNS_IP_CONFIG_TYPE_BEST_DEVICE =>
            let pd := set_ip4_device_config p (Some c) in
            if g_slist_find gpointer_eqb (configs pd) (Ref4 c) then pd
            else set_configs pd (g_slist_append (configs pd) (Ref4 c))
        | NM_DNS_IP_CONFIG_TYPE_DEFAULT =>
            if g_slist_find gpointer_eqb (configs p) (Ref4 c) then p
            else set_configs p (g_slist_append (configs p) (Ref4 c))
        end in
      match commit_unless_queued e (set_priv w1 p') with
      | Some w2 => Some (true, w2)
      | None => None
      end
  end.

Definition nm_dns_manager_remove_ip4_config (e : Env) (config : option ptr) (w : World)
    : option (bool * World) :=
  match config with
  | None => Some (false, add_log w [EvCritical "config != NULL"])
  | Some c =>
      let p := priv w in
      let removed :=
        if g_slist_find gpointer_eqb (configs p) (Ref4 c)
        then
          let p1 := set_configs p (g_slist_remove gpointer_eqb (configs p) (Ref4 c)) in
          Some (match ip4_device_config p1 with
                | Some d => if Nat.eqb c d then set_ip4_device_config p1 None else p1
                | None => p1
                end)
        else if g_slist_find Nat.eqb (ip4_vpn_configs p) c
        then Some (set_ip4_vpn_configs p (g_slist_remove Nat.eqb (ip4_vpn_configs p) c))
        else None in
      match removed with
      | None => Some (false, w)
      | Some p' =>
          match commit_unless_queued e (set_priv w p') with
          | Some w2 => Some (true, set_iface_tag w2 (Ref4 c) None)
          | None => None
          end
      end
  end.

Definition nm_dns_manager_add_ip6_config (e : Env) (iface : option string)
    (config : option ptr) (cfg_type : NMDnsIPConfigType) (w : World)
    : option (bool * World) :=
  match config with
  | None => Some (false, add_log w [EvCritical "config != NULL"])
  | Some c =>
      let w1 := set_iface_tag w (Ref6 c) iface in
      let p := priv w1 in
      let p' :=
        match cfg_type with
        | NM_DNS_IP_CONFIG_TYPE_VPN =>
            if g_slist_find Nat.eqb (ip6_vpn_configs p) c then p
            else set_ip6_vpn_configs p (g_slist_append (ip6_vpn_configs p) c)
        | NM_DNS_IP_CONFIG_TYPE_BEST_DEVICE =>
            let pd := set_ip6_device_config p (Some c) in
            if g_slist_find gpointer_eqb (configs pd) (Ref6 c) then pd
            else set_configs pd (g_slist_append (configs pd) (Ref6 c))
        | NM_DNS_IP_CONFIG_TYPE_DEFAULT =>
            if g_slist_find gpointer_eqb (configs p) (Ref6 c) then p
            else set_configs p (g_slist_append (configs p) (Ref6 c))
        end in
      match commit_unless_queued e (set_priv w1 p') with
      | Some w2 => Some (true, w2)
      | None => None
      end
  end.

Definition nm_dns_manager_remove_ip6_config (e : Env) (config : option ptr) (w : World)
    : option (bool * World) :=
  match config with
  | None => Some (false, add_log w [EvCritical "config != NULL"])
  | Some c =>
      let p := priv w in
      let removed :=
        if g_slist_find gpointer_eqb (configs p) (Ref6 c)
        then
          let p1 := set_configs p (g_slist_remove gpointer_eqb (configs p) (Ref6 c)) in
          Some (match ip6_device_config p1 with
                | Some d => if Nat.eqb c d then set_ip6_device_config p1 None else p1
                | None => p1
                end)
        else if g_slist_find Nat.eqb (ip6_vpn_configs p) c
        then Some (set_ip6_vpn_configs p (g_slist_remove Nat.eqb (ip6_vpn_configs p) c))
        else None in
      match removed with
      | None => Some (false, w)
      | Some p' =>
          match commit_unless_queued e (set_priv w p') with
          | Some w2 => Some (true, set_iface_tag w2 (Ref6 c) None)
          | None => None
          end
      end
  end.

Definition nm_dns_manager_set_initial_hostname (name : option string) (w : World) : World :=
  set_priv w (set_hostname (priv w) name).

(** The filter of [nm_dns_manager_set_hostname]. *)
Definition filter_hostname (name : option string) : option string :=
  match name with
  | None => None
  | Some h =>
      if nm_utils_is_specific_hostname h
         && negb (strstr h ".in-addr.arpa")
         && match strchr h "."%char with Some _ => true | None => false end
      then Some h
      else None
  end.

Definition nm_dns_manager_set_hostname (e : Env) (name : option string) (w : World)
    : option World :=
  let filtered := filter_hostname name in
  let same :=
    match hostname (priv w), filtered with
    | None, None => true
    | Some old, Some new => String.eqb old new
    | _, _ => false
    end in
  if same then Some w
  else commit_unless_queued e (set_priv w (set_hostname (priv w) filtered)).

Definition nm_dns_manager_begin_updates (w : World) : World :=
  let p := priv w in
  let p1 := if updates_queue p =? 0 then set_prev_hash p (hash p) else p in
  set_priv w (set_updates_queue p1 (guint (updates_queue p1 + 1))).

(** [memcmp (new, priv->prev_hash, sizeof (new)) != 0] *)
Definition hash_differs (a b : list Z) : bool :=
  if list_eq_dec Z.eq_dec a b then false else true.

Definition zero_hash : list Z := repeat 0 (Z.to_nat HASH_LEN).

Definition nm_dns_manager_end_updates (e : Env) (w : World) : option World :=
  let p := priv w in
  if negb (0 <? updates_queue p)
  then Some (add_log w [EvCritical "priv->updates_queue > 0"])
  else
    let new := compute_hash w (global_dns_config w) in
    let changed := hash_differs new (prev_hash p) in
    let w1 := set_priv w (set_updates_queue p (updates_queue p - 1)) in
    if (0 <? updates_queue (priv w1)) || negb changed
    then Some w1
    else
      match update_dns e false w1 with
      | None => None
      | Some (_, w2) => Some (set_priv w2 (set_prev_hash (priv w2) zero_hash))
      end.

(** ** Plugin supervision *)

Definition plugin_failed (e : Env) (plug : NMDnsPlugin) (w : World) : option World :=
  if negb (nm_dns_plugin_is_caching plug) then Some w
  else match update_dns e true w with
       | Some (_, w') => Some w'
       | None => None
       end.

Definition plugin_child_quit_update_dns (e : Env) (w : World) : option World :=
  match update_dns e false w with
  | Some (_, w') => Some w'
  | None => None
  end.

(** [plugin_child_quit]; [now] is what
    [nm_utils_get_monotonic_timestamp_ms] returns.  The difference
    [ts - priv->plugin_ratelimit.ts] is taken in [guint64]. *)
Definition plugin_child_quit (e : Env) (now : Z) (w : World) : option World :=
  let p := priv w in
  let rl := plugin_ratelimit p in
  if (ts rl =? 0) || (PLUGIN_RATELIMIT_INTERVAL <? guint64 (now - ts rl) / 1000)
  then
    plugin_child_quit_update_dns e
      (set_priv w (set_plugin_ratelimit p
         {| ts := guint64 now; num_restarts := 0; timer := timer rl |}))
  else
    let n := guint (num_restarts rl + 1) in
    if PLUGIN_RATELIMIT_BURST <? n
    then
      Some (add_log
              (set_priv w (set_plugin_ratelimit p
                 {| ts := ts rl; num_restarts := n; timer := timeout_source_id e |}))
              [EvTimeoutAddSeconds PLUGIN_RATELIMIT_DELAY (timeout_source_id e)])
    else
      plugin_child_quit_update_dns e
        (set_priv w (set_plugin_ratelimit p
           {| ts := ts rl; num_restarts := n; timer := timer rl |})).

(** ** Construction *)

Definition _get_resolv_conf_manager_default : NMDnsManagerResolvConfManager :=
  match RESOLVCONF_PATH_defined, NETCONFIG_PATH_defined with
  | Some _, _ => NM_DNS_MANAGER_RESOLV_CONF_MAN_RESOLVCONF
  | None, Some _ => NM_DNS_MANAGER_RESOLV_CONF_MAN_NETCONFIG
  | None, None => NM_DNS_MANAGER_RESOLV_CONF_MAN_SYMLINK
  end.

(** [_get_resolv_conf_manager]; [man] is what
    [nm_config_data_get_rc_manager] returns. *)
Definition _get_resolv_conf_manager (man : option string) : NMDnsManagerResolvConfManager :=
  match man with
  | None => _get_resolv_conf_manager_default
  | Some m =>
      if String.eqb m "symlink" || String.eqb m "none"
      then NM_DNS_MANAGER_RESOLV_CONF_MAN_SYMLINK
      else if String.eqb m "file" then NM_DNS_MANAGER_RESOLV_CONF_MAN_FILE
      else if String.eqb m "resolvconf" then NM_DNS_MANAGER_RESOLV_CONF_MAN_RESOLVCONF
      else if String.eqb m "netconfig" then NM_DNS_MANAGER_RESOLV_CONF_MAN_NETCONFIG
      else if String.eqb m "unmanaged" then NM_DNS_MANAGER_RESOLV_CONF_MAN_UNMANAGED
      else NM_DNS_MANAGER_RESOLV_CONF_MAN_UNKNOWN
  end.

Definition nm_streq0 (a : option string) (b : string) : bool :=
  match a with
  | Some s => String.eqb s b
  | None => false
  end.

(** [init_resolv_conf_mode]; [mode] is the configured DNS mode and
    [immutable] what [_get_resconf_immutable] finds. *)
Definition init_resolv_conf_mode (mode man : option string) (immutable : bool) (w : World)
    : World :=
  let p := priv w in
  let rcm :=
    if nm_streq0 mode "none" then NM_DNS_MANAGER_RESOLV_CONF_MAN_UNMANAGED
    else if immutable then NM_DNS_MANAGER_RESOLV_CONF_MAN_IMMUTABLE
    else
      match _get_resolv_conf_manager man with
      | NM_DNS_MANAGER_RESOLV_CONF_MAN_UNKNOWN => _get_resolv_conf_manager_default
      | r => r
      end in
  let '(plug, plugin_changed) :=
    if nm_streq0 mode "dnsmasq"
    then match plugin p with
         | Some {| plugin_type := NM_TYPE_DNS_DNSMASQ |} => (plugin p, false)
         | _ => (Some nm_dns_dnsmasq_new, true)
         end
    else if nm_streq0 mode "unbound"
    then match plugin p with
         | Some {| plugin_type := NM_TYPE_DNS_UNBOUND |} => (plugin p, false)
         | _ => (Some nm_dns_unbound_new, true)
         end
    else match plugin p with
         | Some _ => (None, true)
         | None => (None, false)
         end in
  if plugin_changed || negb (rc_manager_eqb (rc_manager p) rcm)
  then set_priv w (set_rc_manager_plugin p rcm plug)
  else set_priv w (set_rc_manager_plugin p (rc_manager p) plug).

(** The private data as [g_type_class_add_private] hands it out:
    all zero. *)
Definition priv_zero : NMDnsManagerPrivate :=
  {| ip4_vpn_configs := []; ip4_device_config := None;
     ip6_vpn_configs := []; ip6_device_config := None;
     configs := []; hostname := None; updates_queue := 0;
     hash := zero_hash; prev_hash := zero_hash;
     rc_manager := NM_DNS_MANAGER_RESOLV_CONF_MAN_UNKNOWN;
     plugin := None; dns_touched := false;
     plugin_ratelimit := {| ts := 0; num_restarts := 0; timer := 0 |} |}.

(** [nm_dns_manager_init]: the initial hash is computed with a NULL
    global configuration, whatever [priv->config] holds. *)
Definition nm_dns_manager_init (global : option NMGlobalDnsConfig)
    (mode man : option string) (immutable : bool)
    (ip4_at : ptr -> NMIP4Config) (ip6_at : ptr -> NMIP6Config) : World :=
  let w0 := {| priv := priv_zero; ip4_config_at := ip4_at; ip6_config_at := ip6_at;
               iface_tag := fun _ => None; global_dns_config := global; log := [] |} in
  init_resolv_conf_mode mode man immutable
    (set_priv w0 (set_hash priv_zero (compute_hash w0 None))).

(** ** Runs of calls *)

Inductive call :=
| BeginUpdates
| EndUpdates (e : Env)
| AddIP4 (e : Env) (iface : option string) (config : ptr) (cfg_type : NMDnsIPConfigType)
| RemoveIP4 (e : Env) (config : ptr)
| AddIP6 (e : Env) (iface : option string) (config : ptr) (cfg_type : NMDnsIPConfigType)
| RemoveIP6 (e : Env) (config : ptr)
| SetHostname (e : Env) (name : option string)
| SetInitialHostname (name : option string).

Definition drop_result {A} (r : option (A * World)) : option World :=
  match r with
  | Some (_, w) => Some w
  | None => None
  end.

Definition do_call (c : call) (w : World) : option World :=
  match c with
  | BeginUpdates => Some (nm_dns_manager_begin_updates w)
  | EndUpdates e => nm_dns_manager_end_updates e w
  | AddIP4 e iface config t =>
      drop_result (nm_dns_manager_add_ip4_config e iface (Some config) t w)
  | RemoveIP4 e config => drop_result (nm_dns_manager_remove_ip4_config e (Some config) w)
  | AddIP6 e iface config t =>
      drop_result (nm_dns_manager_add_ip6_config e iface (Some config) t w)
  | RemoveIP6 e config => drop_result (nm_dns_manager_remove_ip6_config e (Some config) w)
  | SetHostname e name => nm_dns_manager_set_hostname e name w
  | SetInitialHostname name => Some (nm_dns_manager_set_initial_hostname name w)
  end.

Fixpoint run (cs : list call) (w : World) : option World :=
  match cs with
  | [] => Some w
  | c :: rest =>
      match do_call c w with
      | Some w' => run rest w'
      | None => None
      end
  end.

(** The child of the plugin dying at the given times, one after the
    other. *)
Fixpoint child_deaths (deaths : list (Env * Z)) (w : World) : option World :=
  match deaths with
  | [] => Some w
  | (e, now) :: rest =>
      match plugin_child_quit e now w with
      | Some w' => child_deaths rest w'
      | None => None
      end
  end.

End EntryPoints.

(** ** Introspection, reconfiguration and disposal *)

(** [_rc_manager_to_string]; the default case of the lookup (a warning
    and NULL) is for values outside the enum. *)
Definition _rc_manager_to_string (m : NMDnsManagerResolvConfManager) : string :=
  match m with
  | NM_DNS_MANAGER_RESOLV_CONF_MAN_UNKNOWN => "unknown"
  | NM_DNS_MANAGER_RESOLV_CONF_MAN_UNMANAGED => "unmanaged"
  | NM_DNS_MANAGER_RESOLV_CONF_MAN_IMMUTABLE => "immutable"
  | NM_DNS_MANAGER_RESOLV_CONF_MAN_SYMLINK => "symlink"
  | NM_DNS_MANAGER_RESOLV_CONF_MAN_FILE => "file"
  | NM_DNS_MANAGER_RESOLV_CONF_MAN_RESOLVCONF => "resolvconf"
  | NM_DNS_MANAGER_RESOLV_CONF_MAN_NETCONFIG => "netconfig"
  end.

Definition set_dns_touched (p : NMDnsManagerPrivate) (touched : bool) :=
  {| ip4_vpn_configs := ip4_vpn_configs p; ip4_device_config := ip4_device_config p;
     ip6_vpn_configs := ip6_vpn_configs p; ip6_device_config := ip6_device_config p;
     configs := configs p; hostname := hostname p; updates_queue := updates_queue p;
     hash := hash p; prev_hash := prev_hash p; rc_manager := rc_manager p;
     plugin := plugin p; dns_touched := touched;
     plugin_ratelimit := plugin_ratelimit p |}.

(** [NM_FLAGS_ANY (flags, check)] *)
Definition NM_FLAGS_ANY (flags check : Z) : bool := negb (Z.land flags check =? 0).

Section Lifecycle.
Context {E : Externals}.

(** [nm_dns_manager_get_resolv_conf_explicit] *)
Definition nm_dns_manager_get_resolv_conf_explicit (w : World) : bool :=
  let p := priv w in
  if rc_manager_eqb (rc_manager p) NM_DNS_MANAGER_RESOLV_CONF_MAN_UNMANAGED
     || rc_manager_eqb (rc_manager p) NM_DNS_MANAGER_RESOLV_CONF_MAN_IMMUTABLE
     || match plugin p with Some _ => true | None => false end
  then false
  else true.

(** [_clear_plugin]; the signal handlers it disconnects are not part
    of the model. *)
Definition _clear_plugin (p : NMDnsManagerPrivate) : bool * NMDnsManagerPrivate :=
  match plugin p with
  | Some _ => (true, set_rc_manager_plugin p (rc_manager p) None)
  | None => (false, p)
  end.

(** The [NMConfigChangeFlags] bits [config_changed_cb] tests; their
    values are given in [nm-config.h]. *)
Variables NM_CONFIG_CHANGE_SIGHUP NM_CONFIG_CHANGE_SIGUSR1 : Z.
Variables NM_CONFIG_CHANGE_DNS_MODE NM_CONFIG_CHANGE_RC_MANAGER : Z.
Variable NM_CONFIG_CHANGE_GLOBAL_DNS_CONFIG : Z.

(** [config_changed_cb]; the world holds the new configuration data,
    [mode], [man] and [immutable] are what [init_resolv_conf_mode]
    reads from it and from the file system. *)
Definition config_changed_cb (e : Env) (changes : Z) (mode man : option string)
    (immutable : bool) (w : World) : option World :=
  let w1 :=
    if NM_FLAGS_ANY changes
         (Z.lor (Z.lor NM_CONFIG_CHANGE_DNS_MODE NM_CONFIG_CHANGE_RC_MANAGER)
                NM_CONFIG_CHANGE_SIGHUP)
    then init_resolv_conf_mode mode man immutable w
    else w in
  if NM_FLAGS_ANY changes
       (Z.lor (Z.lor (Z.lor (Z.lor NM_CONFIG_CHANGE_SIGHUP NM_CONFIG_CHANGE_SIGUSR1)
                            NM_CONFIG_CHANGE_DNS_MODE)
                     NM_CONFIG_CHANGE_RC_MANAGER)
              NM_CONFIG_CHANGE_GLOBAL_DNS_CONFIG)
  then drop_result (update_dns e false w1)
  else Some w1.

(** [dispose], up to the call of the parent class: the plugin goes
    first, then a last commit with caching off if DNS was ever
    touched, then the three lists.  The release of [priv->config]
    in between is not part of the model. *)
Definition dispose (e : Env) (w : World) : option World :=
  let w1 := set_priv w (snd (_clear_plugin (priv w))) in
  let committed :=
    if dns_touched (priv w1)
    then match update_dns e true w1 with
         | Some (true, w2) => Some w2
         | Some (false, w2) => Some (set_priv w2 (set_dns_touched (priv w2) false))
         | None => None
         end
    else Some w1 in
  match committed with
  | Some w3 =>
      Some (set_priv w3
              (set_ip6_vpn_configs (set_ip4_vpn_configs (set_configs (priv w3) []) []) []))
  | None => None
  end.

End Lifecycle.

(** ** A concrete instance

    Stand-ins for the outside functions, so that the model runs on
    concrete inputs.  The digest is the sequence of bytes fed to the
    checksum, which never collides; addresses are printed from their
    bytes in memory order. *)

Module Concrete.

Definition digit_text (n : nat) : string :=
  String (ascii_of_nat (48 + n)) EmptyString.

Fixpoint decimal_text_fuel (fuel n : nat) : string :=
  match fuel with
  | O => ""
  | S fuel' =>
      if Nat.ltb n 10 then digit_text n
      else (decimal_text_fuel fuel' (Nat.div n 10) ++ digit_text (Nat.modulo n 10))%string
  end.

Definition decimal_text (z : Z) : string := decimal_text_fuel 20 (Z.to_nat z).

Definition inet4_text (a : Z) : string :=
  (decimal_text (a mod 256) ++ "." ++ decimal_text ((a / 256) mod 256) ++ "."
   ++ decimal_text ((a / 65536) mod 256) ++ "." ++ decimal_text ((a / 16777216) mod 256))%string.

Definition inet6_text (a : in6_addr) : string :=
  String.concat ":" (map decimal_text a).

Definition is_v4mapped (a : in6_addr) : bool :=
  if list_eq_dec Z.eq_dec (firstn 12 a) [0; 0; 0; 0; 0; 0; 0; 0; 0; 0; 255; 255]
  then true else false.

Definition is_linklocal (a : in6_addr) : bool :=
  (nth 0 a 0 =? 254) && (Z.land (nth 1 a 0) 192 =? 128).

Definition last_word (a : in6_addr) : Z :=
  nth 12 a 0 + 256 * nth 13 a 0 + 65536 * nth 14 a 0 + 16777216 * nth 15 a 0.

Fixpoint find_idx (array : list string) (str : string) (i : Z) : Z :=
  match array with
  | [] => -1
  | x :: rest => if String.eqb x str then i else find_idx rest str (i + 1)
  end.

Definition public_suffixes : list string :=
  ["com"; "org"; "net"; "uk"; "co.uk"; "s3.amazonaws.com"].

Definition is_public_suffix (d : string) : bool :=
  existsb (String.eqb d) public_suffixes.

Definition looks_like_address (s : string) : bool :=
  match strchr s ":"%char with
  | Some _ => true
  | None =>
      forallb (fun c => (Nat.leb 48 (nat_of_ascii c) && Nat.leb (nat_of_ascii c) 57)
                        || Ascii.eqb c "."%char)
              (list_ascii_of_string s)
  end.

Definition is_specific_hostname (name : string) : bool :=
  negb (existsb (String.eqb name)
          ["(none)"; "localhost"; "localhost6"; "localhost.localdomain";
           "localhost6.localdomain6"]).

Definition bytes_of (s : string) : list Z :=
  map (fun c => Z.of_nat (nat_of_ascii c)) (list_ascii_of_string s).

Definition feed_strings (l : list string) (sum : list Z) : list Z :=
  fold_left (fun acc s => acc ++ bytes_of s ++ [0]) l sum.

Definition ip4_hash (c : NMIP4Config) (sum : list Z) : list Z :=
  feed_strings (ip4_dns_options c)
    (feed_strings (ip4_searches c)
       (feed_strings (ip4_domains c) (sum ++ ip4_nameservers c))).

Definition ip6_hash (c : NMIP6Config) (sum : list Z) : list Z :=
  feed_strings (ip6_dns_options c)
    (feed_strings (ip6_searches c)
       (feed_strings (ip6_domains c) (sum ++ List.concat (ip6_nameservers c)))).

Definition of_opt_strv (o : option (list string)) : list string :=
  match o with
  | Some l => l
  | None => []
  end.

Definition global_hash (g : NMGlobalDnsConfig) (sum : list Z) : list Z :=
  feed_strings
    (match global_default_domain g with
     | Some servers => "*" :: of_opt_strv servers
     | None => []
     end)
    (feed_strings (of_opt_strv (global_options g))
       (feed_strings (of_opt_strv (global_searches g)) sum)).

Definition externals (with_libsoup : bool) : Externals :=
  {| WITH_LIBSOUP := with_libsoup;
     soup_tld_domain_is_public_suffix := is_public_suffix;
     nm_utils_inet4_ntop := inet4_text;
     nm_utils_inet6_ntop := inet6_text;
     IN6_IS_ADDR_V4MAPPED := is_v4mapped;
     IN6_IS_ADDR_LINKLOCAL := is_linklocal;
     s6_addr32_3 := last_word;
     _nm_utils_dns_option_find_idx := fun array str => find_idx array str 0;
     nm_utils_ipaddr_valid := looks_like_address;
     nm_utils_is_specific_hostname := is_specific_hostname;
     NMRUNDIR := "/var/run/NetworkManager";
     RESOLVCONF_PATH_defined := None;
     NETCONFIG_PATH_defined := None;
     nm_dns_dnsmasq_new := {| plugin_type := NM_TYPE_DNS_DNSMASQ;
                              nm_dns_plugin_get_name := "dnsmasq";
                              nm_dns_plugin_is_caching := true |};
     nm_dns_unbound_new := {| plugin_type := NM_TYPE_DNS_UNBOUND;
                              nm_dns_plugin_get_name := "unbound";
                              nm_dns_plugin_is_caching := true |};
     GChecksum := list Z;
     g_checksum_new := [];
     g_checksum_get_digest := fun sum => sum;
     nm_ip4_config_hash := ip4_hash;
     nm_ip6_config_hash := ip6_hash;
     nm_global_dns_config_update_checksum := global_hash |}.

(** An environment in which every system call and the plugin
    succeed, and [/etc/resolv.conf] does not exist yet. *)
Definition env_ok : Env :=
  {| read_link_resconf := None;
     set_contents_resconf_ok := true;
     fopen_tmp_ok := true;
     fprintf_tmp_ok := true;
     fclose_tmp_ok := true;
     rename_my_ok := true;
     lstat_resconf := LstatENOENT;
     stat_resconf_ok := false;
     unlink_resconf_tmp := UnlinkENOENT;
     symlink_ok := true;
     rename_resconf_ok := true;
     resolvconf_executable := true;
     spawn_resolvconf_status := 0;
     popen_resolvconf_ok := true;
     fprintf_pipe_ok := true;
     pclose_status := 0;
     netconfig_pid := 4242;
     kill_child_sync_ok := true;
     netconfig_wifexited := true;
     netconfig_wexitstatus := 0;
     plugin_update_ok := true;
     timeout_source_id := 77 |}.

Definition ip4_none : NMIP4Config :=
  {| ip4_nameservers := []; ip4_domains := []; ip4_searches := [];
     ip4_dns_options := []; ip4_nis_servers := []; ip4_nis_domain := None |}.

Definition ip6_none : NMIP6Config :=
  {| ip6_nameservers := []; ip6_domains := []; ip6_searches := [];
     ip6_dns_options := [] |}.

End Concrete.

(** * Notions used in the statements *)

(** What "no duplicates, first occurrence wins, first-seen order"
    denotes, written without reference to the code. *)
Fixpoint first_occurrences (l : list string) : list string :=
  match l with
  | [] => []
  | x :: rest => x :: filter (fun y => negb (String.eqb y x)) (first_occurrences rest)
  end.

(** The test in the loop of [add_string_item]. *)
Definition mem_string (array : list string) (x : string) : bool :=
  existsb (fun candidate => String.eqb candidate x) array.

(** An event [carries s n o] when it is none of a commit mark, a
    timer being set or a failed precondition and, if it marks a backend
    being entered, the lists handed over are the searches [s], the
    nameservers [n] and (where the backend takes options) the options
    [o]. *)
Definition carries (s n o : option (list string)) (ev : event) : Prop :=
  match ev with
  | CallUpdateResolvConf s' n' o' _ => s' = s /\ n' = n /\ o' = o
  | CallDispatchResolvconf s' n' o' => s' = s /\ n' = n /\ o' = o
  | CallDispatchNetconfig s' n' _ _ => s' = s /\ n' = n
  | EvUpdateDns _ | EvTimeoutAddSeconds _ _ | EvCritical _ => False
  | _ => True
  end.

(** The events that mark a backend being entered, and the one that
    marks a commit. *)
Definition is_backend_call (ev : event) : bool :=
  match ev with
  | CallUpdateResolvConf _ _ _ _ | CallDispatchResolvconf _ _ _
  | CallDispatchNetconfig _ _ _ _ => true
  | _ => false
  end.

Definition is_commit (ev : event) : bool :=
  match ev with
  | EvUpdateDns _ => true
  | _ => false
  end.

(** The number of commits in a trace. *)
Definition commits (evs : list event) : nat := List.length (filter is_commit evs).

(** The events a step appended to the trace. *)
Definition new_events (w w' : World) : list event := skipn (List.length (log w)) (log w').

(** The assertions of [update_dns] hold in a world: the backend is a
    known one and a global configuration has its default domain. *)
Definition asserts_hold (w : World) : Prop :=
  rc_manager (priv w) <> NM_DNS_MANAGER_RESOLV_CONF_MAN_UNKNOWN
  /\ forall g, global_dns_config w = Some g -> global_default_domain g <> None.

(** The characters a search list costs: each entry and one separator. *)
Definition budget (l : list string) : Z :=
  fold_right (fun s acc => Z.of_nat (String.length s) + 1 + acc) 0 l.

(** If the event marks a backend being entered, the backend is
    handed these searches, these nameservers, these options. *)
Definition hands_searches (s : option (list string)) (ev : event) : Prop :=
  match ev with
  | CallUpdateResolvConf s' _ _ _ | CallDispatchResolvconf s' _ _
  | CallDispatchNetconfig s' _ _ _ => s' = s
  | _ => True
  end.

Definition hands_nameservers (n : option (list string)) (ev : event) : Prop :=
  match ev with
  | CallUpdateResolvConf _ n' _ _ | CallDispatchResolvconf _ n' _
  | CallDispatchNetconfig _ n' _ _ => n' = n
  | _ => True
  end.

Definition hands_options (o : option (list string)) (ev : event) : Prop :=
  match ev with
  | CallUpdateResolvConf _ _ o' _ | CallDispatchResolvconf _ _ o' => o' = o
  | _ => True
  end.

(** If the event marks a backend being entered, every search handed
    to the backend is among [allowed]. *)
Definition searches_within (allowed : list string) (ev : event) : Prop :=
  match ev with
  | CallUpdateResolvConf s _ _ _ | CallDispatchResolvconf s _ _
  | CallDispatchNetconfig s _ _ _ => incl (of_strv s) allowed
  | _ => True
  end.

(** The event of a deferred retry being scheduled. *)
Definition is_timeout (ev : event) : bool :=
  match ev with
  | EvTimeoutAddSeconds _ _ => true
  | _ => false
  end.

(** The number of deferred retries scheduled in a trace. *)
Definition timeouts (evs : list event) : nat := List.length (filter is_timeout evs).

(** The times of death lie in the window opened at [t0]: not before
    it, and less than 31 whole seconds after it. *)
Definition in_window (t0 : Z) (deaths : list (Env * Z)) : Prop :=
  Forall (fun d => t0 <= snd d < t0 + 31000) deaths.

Section Notions.
Context {E : Externals}.

(** The searches, nameservers and options [update_dns] computes for
    the backends. *)
Definition commit_searches (w : World) (rc : NMResolvConfData) : option (list string) :=
  strv (limit_searches (add_hostname_search (hostname (priv w)) (searches rc))).

Definition commit_nameservers (e : Env) (no_caching : bool) (w : World)
    (rc : NMResolvConfData) : option (list string) :=
  if snd (update_plugin e no_caching w) then Some ["127.0.0.1"]
  else strv (nameservers rc).

(** The nameserver texts and the search candidates one config
    offers. *)
Definition config_nameservers (w : World) (data : gpointer) : list string :=
  match data with
  | Ref4 a => map nm_utils_inet4_ntop (ip4_nameservers (ip4_config_at w a))
  | Ref6 a => map (ip6_nameserver_text (iface_tag w (Ref6 a)))
                  (ip6_nameservers (ip6_config_at w a))
  end.

Definition config_search_candidates (w : World) (data : gpointer) : list string :=
  match data with
  | Ref4 a => search_candidates (ip4_searches (ip4_config_at w a))
                                (ip4_domains (ip4_config_at w a))
  | Ref6 a => search_candidates (ip6_searches (ip6_config_at w a))
                                (ip6_domains (ip6_config_at w a))
  end.

(** The search domains the sources contribute: what the global
    configuration lists or, without one, what the configs offer in
    [walk_order], as far as [DOMAIN_IS_VALID] accepts it. *)
Definition contributed_searches (w : World) : list string :=
  filter DOMAIN_IS_VALID
    (match global_dns_config w with
     | Some g => of_strv (global_searches g)
     | None => flat_map (config_search_candidates w) (walk_order (priv w))
     end).

(** The order C5 states: every VPN config of either family, then the
    device configs, then the rest. *)
Definition vpn_first_order (p : NMDnsManagerPrivate) : list gpointer :=
  map Ref4 (ip4_vpn_configs p)
  ++ map Ref6 (ip6_vpn_configs p)
  ++ map Ref4 (opt_list (ip4_device_config p))
  ++ map Ref6 (opt_list (ip6_device_config p))
  ++ other_configs p.

(** C5 as stated: without a global configuration, the merged
    nameservers and searches are the first occurrences of what the
    configs offer when walked in [vpn_first_order]. *)
Definition merges_vpn_first : Prop :=
  forall w : World,
    global_dns_config w = None ->
    exists rc,
      merge_configs w = Some rc
      /\ nameservers rc
         = first_occurrences (flat_map (config_nameservers w) (vpn_first_order (priv w)))
      /\ searches rc
         = first_occurrences
             (filter DOMAIN_IS_VALID
                (flat_map (config_search_candidates w) (vpn_first_order (priv w)))).

(** The last part of C6 as stated: a hostname that is a public
    suffix adds nothing to the search list. *)
Definition public_suffix_hostname_adds_nothing : Prop :=
  forall (name : string) (array : list string),
    soup_tld_domain_is_public_suffix name = true ->
    add_hostname_search (Some name) array = array.

(** The outcome of a commit as seen from outside: its return value
    and the events it appends. *)
Definition commit_outcome (e : Env) (no_caching : bool) (w : World)
    : option (bool * list event) :=
  match update_dns e no_caching w with
  | Some (r, w') => Some (r, new_events w w')
  | None => None
  end.

(** C7 as stated, for the search list: with a global configuration,
    whatever a commit hands over as searches comes from the global
    search list. *)
Definition global_searches_only : Prop :=
  forall e no_caching w r w' g,
    global_dns_config w = Some g ->
    update_dns e no_caching w = Some (r, w') ->
    Forall (searches_within (of_strv (global_searches g))) (new_events w w').

(** [/etc/resolv.conf] is a symlink that is not the manager's: its
    target cannot be reached, or it can and the link does not read
    [MY_RESOLV_CONF]. *)
Definition foreign_symlink (e : Env) : Prop :=
  lstat_resconf e = LstatOk true
  /\ (stat_resconf_ok e = false
      \/ (stat_resconf_ok e = true
          /\ match read_link_resconf e with
             | Some path => String.eqb path MY_RESOLV_CONF = false
             | None => True
             end)).

(** The private copy can be written: the temporary file opens, takes
    the text, closes, and is renamed. *)
Definition private_copy_written (e : Env) : bool :=
  fopen_tmp_ok e && fprintf_tmp_ok e && fclose_tmp_ok e && rename_my_ok e.

(** No unlink, no symlink, and no rename other than that of the
    private copy. *)
Definition leaves_resconf (ev : event) : Prop :=
  match ev with
  | EvUnlink _ _ | EvSymlink _ _ _ | EvSetContents _ _ _ => False
  | EvRename oldpath newpath _ => oldpath = MY_RESOLV_CONF_TMP /\ newpath = MY_RESOLV_CONF
  | _ => True
  end.

(** C8 as stated: in symlink mode, before a foreign symlink,
    [update_resolv_conf] returns success. *)
Definition foreign_symlink_succeeds : Prop :=
  forall e s n o,
    foreign_symlink e ->
    snd (update_resolv_conf e s n o NM_DNS_MANAGER_RESOLV_CONF_MAN_SYMLINK) = SR_SUCCESS.

(** The comparison of [nm_dns_manager_set_hostname]: both NULL, or
    both set and [strcmp] finds them equal. *)
Definition option_string_eqb (a b : option string) : bool :=
  match a, b with
  | None, None => true
  | Some x, Some y => String.eqb x y
  | _, _ => false
  end.

(** C4 as stated, for the burst: six deaths within ten seconds of a
    closed window end in one deferred retry and fewer than six
    commits. *)
Definition six_deaths_defer : Prop :=
  forall w deaths w' t0,
    asserts_hold w ->
    ts (plugin_ratelimit (priv w)) = 0 ->
    List.length deaths = 6%nat ->
    0 < t0 ->
    Forall (fun d => t0 <= snd d < t0 + 10000) deaths ->
    child_deaths deaths w = Some w' ->
    timeouts (new_events w w') = 1%nat /\ (commits (new_events w w') < 6)%nat.

(** A call closes a transaction with a change: it is an
    [end_updates] that finds the counter at 1 and a fingerprint other
    than the saved one. *)
Definition closes_changed (c : call) (w : World) : bool :=
  match c with
  | EndUpdates _ =>
      (updates_queue (priv w) =? 1)
      && hash_differs (compute_hash w (global_dns_config w)) (prev_hash (priv w))
  | _ => false
  end.

(** Every call of the run leaves the counter above zero. *)
Fixpoint stays_inside (cs : list call) (w : World) : Prop :=
  match cs with
  | [] => True
  | c :: rest =>
      match do_call c w with
      | Some w' => 0 < updates_queue (priv w') /\ stays_inside rest w'
      | None => False
      end
  end.

(** C1 as stated, for the idle transaction: begin, begin, end, end
    from outside a transaction commits nothing. *)
Definition idle_transaction_is_silent : Prop :=
  forall w e1 e2 w',
    updates_queue (priv w) = 0 ->
    run [BeginUpdates; BeginUpdates; EndUpdates e1; EndUpdates e2] w = Some w' ->
    commits (new_events w w') = 0%nat.

(** What stays the same across a call that does not commit. *)
Definition same_transaction (w w' : World) : Prop :=
  log w' = log w
  /\ prev_hash (priv w') = prev_hash (priv w)
  /\ rc_manager (priv w') = rc_manager (priv w)
  /\ global_dns_config w' = global_dns_config w.

End Notions.

(** * Notions used in the further properties *)

(** The first value of a list of optional values that is set. *)
Fixpoint first_some {A} (l : list (option A)) : option A :=
  match l with
  | [] => None
  | Some x :: _ => Some x
  | None :: rest => first_some rest
  end.

(** The NIS domain one config offers; only IPv4 configs carry one. *)
Definition config_nis_domain (w : World) (data : gpointer) : option string :=
  match data with
  | Ref4 a => ip4_nis_domain (ip4_config_at w a)
  | Ref6 _ => None
  end.

(** If the event marks a backend being entered, neither the searches
    nor the nameservers handed over hold an entry twice. *)
Definition hands_distinct (ev : event) : Prop :=
  match ev with
  | CallUpdateResolvConf s n _ _ | CallDispatchResolvconf s n _
  | CallDispatchNetconfig s n _ _ => NoDup (of_strv s) /\ NoDup (of_strv n)
  | _ => True
  end.

(** Lines put one after the other. *)
Fixpoint lines_text (l : list string) : string :=
  match l with
  | [] => ""
  | x :: rest => (x ++ lines_text rest)%string
  end.

(** One nameserver line of [resolv.conf], and the remark that goes
    before the fourth. *)
Definition nameserver_line (ns : string) : string := ("nameserver " ++ ns ++ LF)%string.

Definition resolver_note : string :=
  ("# NOTE: the libc resolver may not support more than 3 nameservers." ++ LF
   ++ "# The nameservers listed below may not be recognized." ++ LF)%string.

(** The events only a persistence backend emits: its entry mark and
    its system calls. *)
Definition from_backend (ev : event) : bool :=
  match ev with
  | EvUpdateDns _ | EvCritical _ | EvSourceRemove _ | EvTimeoutAddSeconds _ _
  | EvPluginUpdate _ _ _ _ _ _ | EvSignalConfigChanged => false
  | _ => true
  end.

(** The manager manages [/etc/resolv.conf]: [update] in [update_dns]. *)
Definition manages_resolv_conf (p : NMDnsManagerPrivate) : bool :=
  negb (rc_manager_eqb (rc_manager p) NM_DNS_MANAGER_RESOLV_CONF_MAN_UNMANAGED
        || rc_manager_eqb (rc_manager p) NM_DNS_MANAGER_RESOLV_CONF_MAN_IMMUTABLE).

(** No helper program is run. *)
Definition runs_no_helper (ev : event) : Prop :=
  match ev with
  | EvSpawn _ _ | EvPopen _ _ | EvPclose _ | EvNetconfigWrite _ _ => False
  | _ => True
  end.

(** What is attached: [priv->configs], the two lists of VPN configs
    and the two device configs. *)
Definition attachments (p : NMDnsManagerPrivate) :=
  (configs p, ip4_vpn_configs p, ip6_vpn_configs p,
   ip4_device_config p, ip6_device_config p).

(** No list holds a config twice, and a device config is in
    [priv->configs]. *)
Definition attachments_consistent (p : NMDnsManagerPrivate) : Prop :=
  NoDup (configs p) /\ NoDup (ip4_vpn_configs p) /\ NoDup (ip6_vpn_configs p)
  /\ (forall d, ip4_device_config p = Some d -> In (Ref4 d) (configs p))
  /\ (forall d, ip6_device_config p = Some d -> In (Ref6 d) (configs p)).

(** The event that marks [update_resolv_conf] being entered. *)
Definition is_update_resolv_conf (ev : event) : bool :=
  match ev with
  | CallUpdateResolvConf _ _ _ _ => true
  | _ => false
  end.

Section FurtherNotions.
Context {E : Externals}.

(** [/etc/resolv.conf] may be replaced by the manager's symlink: it
    does not exist, or is no symlink, or is a symlink to
    [MY_RESOLV_CONF] whose target can be reached. *)
Definition replaceable (e : Env) : Prop :=
  lstat_resconf e = LstatENOENT
  \/ lstat_resconf e = LstatOk false
  \/ (lstat_resconf e = LstatOk true /\ stat_resconf_ok e = true
      /\ read_link_resconf e = Some MY_RESOLV_CONF).

(** What a commit may do when the manager does not manage
    [/etc/resolv.conf]: enter [update_resolv_conf] for the private
    copy, and nothing that reaches [/etc/resolv.conf], a helper
    program or the listeners of the change signal. *)
Definition private_only (ev : event) : Prop :=
  match ev with
  | CallUpdateResolvConf _ _ _ m => m = NM_DNS_MANAGER_RESOLV_CONF_MAN_UNMANAGED
  | CallDispatchResolvconf _ _ _ | CallDispatchNetconfig _ _ _ _ => False
  | EvSetContents _ _ _ | EvUnlink _ _ | EvSymlink _ _ _ => False
  | EvSpawn _ _ | EvPopen _ _ | EvPclose _ | EvNetconfigSpawn _ | EvNetconfigWrite _ _ => False
  | EvRename oldpath newpath _ => oldpath = MY_RESOLV_CONF_TMP /\ newpath = MY_RESOLV_CONF
  | EvSignalConfigChanged => False
  | _ => True
  end.

(** The NIS server texts one config offers. *)
Definition config_nis_servers (w : World) (data : gpointer) : list string :=
  match data with
  | Ref4 a => map nm_utils_inet4_ntop (ip4_nis_servers (ip4_config_at w a))
  | Ref6 _ => []
  end.

End FurtherNotions.

(** * Concrete worlds *)

Module Examples.
Import Concrete.

Definition E_soup : Externals := externals true.
Definition E_plain : Externals := externals false.

Definition dnsmasq : NMDnsPlugin :=
  {| plugin_type := NM_TYPE_DNS_DNSMASQ;
     nm_dns_plugin_get_name := "dnsmasq";
     nm_dns_plugin_is_caching := true |}.

(** 1.1.1.1 and 8.8.8.8 in network byte order on a little-endian
    host. *)
Definition ip4_lan : NMIP4Config :=
  {| ip4_nameservers := [16843009; 134744072];
     ip4_domains := ["lan.example.org"];
     ip4_searches := [];
     ip4_dns_options := ["ndots:2"];
     ip4_nis_servers := [];
     ip4_nis_domain := None |}.

Definition ip4_searches_of_eight : list string :=
  ["a1.example.org"; "a2.example.org"; "a3.example.org"; "a4.example.org";
   "a5.example.org"; "a6.example.org"; "a7.example.org"; "a8.example.org"].

Definition ip4_eight : NMIP4Config :=
  {| ip4_nameservers := [16843009];
     ip4_domains := [];
     ip4_searches := ip4_searches_of_eight;
     ip4_dns_options := [];
     ip4_nis_servers := [];
     ip4_nis_domain := None |}.

Definition ip6_vpn : NMIP6Config :=
  {| ip6_nameservers := [[253; 0; 0; 0; 0; 0; 0; 0; 0; 0; 0; 0; 0; 0; 0; 1]];
     ip6_domains := ["vpn.example.net"];
     ip6_searches := [];
     ip6_dns_options := [] |}.

Definition ip4_objects (p : ptr) : NMIP4Config :=
  match p with
  | 1%nat => ip4_lan
  | 2%nat => ip4_eight
  | _ => ip4_none
  end.

Definition ip6_objects (p : ptr) : NMIP6Config :=
  match p with
  | 1%nat => ip6_vpn
  | _ => ip6_none
  end.

Definition global_corp : NMGlobalDnsConfig :=
  {| global_searches := Some ["corp.example"];
     global_options := Some ["rotate"];
     global_default_domain := Some (Some ["10.0.0.53"]) |}.

(** A freshly constructed manager in symlink mode, with and without a
    global configuration, and one with dnsmasq. *)
Definition fresh (E : Externals) : World :=
  @nm_dns_manager_init E None None (Some "symlink") false ip4_objects ip6_objects.

Definition fresh_global (E : Externals) : World :=
  @nm_dns_manager_init E (Some global_corp) None (Some "symlink") false
                       ip4_objects ip6_objects.

Definition fresh_dnsmasq (E : Externals) : World :=
  @nm_dns_manager_init E None (Some "dnsmasq") (Some "symlink") false
                       ip4_objects ip6_objects.

Definition unwrap (o : option World) (default : World) : World :=
  match o with
  | Some w => w
  | None => default
  end.

(** The IPv4 best device attached first, then an IPv6 VPN. *)
Definition device_then_vpn : World :=
  unwrap (@run E_soup
            [AddIP4 env_ok (Some "eth0") 1%nat NM_DNS_IP_CONFIG_TYPE_BEST_DEVICE;
             AddIP6 env_ok (Some "tun0") 1%nat NM_DNS_IP_CONFIG_TYPE_VPN]
            (fresh E_soup))
         (fresh E_soup).

End Examples.

Module GlobalExample.
Import Concrete Examples.

(** A manager with the global configuration [global_corp] whose
    hostname is "host.example.com". *)
Definition named_global : World :=
  @nm_dns_manager_set_initial_hostname (Some "host.example.com") (fresh_global E_soup).

End GlobalExample.

Module PluginExample.
Import Concrete Examples.

(** A manager running dnsmasq with one device config attached. *)
Definition dnsmasq_lan : World :=
  unwrap (@run E_soup
            [AddIP4 env_ok (Some "eth0") 1%nat NM_DNS_IP_CONFIG_TYPE_BEST_DEVICE]
            (fresh_dnsmasq E_soup))
         (fresh_dnsmasq E_soup).

(** Every system call succeeds, but the plugin reports that its
    update failed. *)
Definition env_update_fails : Env :=
  {| read_link_resconf := None;
     set_contents_resconf_ok := true;
     fopen_tmp_ok := true;
     fprintf_tmp_ok := true;
     fclose_tmp_ok := true;
     rename_my_ok := true;
     lstat_resconf := LstatENOENT;
     stat_resconf_ok := false;
     unlink_resconf_tmp := UnlinkENOENT;
     symlink_ok := true;
     rename_resconf_ok := true;
     resolvconf_executable := true;
     spawn_resolvconf_status := 0;
     popen_resolvconf_ok := true;
     fprintf_pipe_ok := true;
     pclose_status := 0;
     netconfig_pid := 4242;
     kill_child_sync_ok := true;
     netconfig_wifexited := true;
     netconfig_wexitstatus := 0;
     plugin_update_ok := false;
     timeout_source_id := 77 |}.

(** A manager running dnsmasq with nothing attached. *)
Definition dnsmasq_idle : World := fresh_dnsmasq E_soup.

End PluginExample.

Module SymlinkExample.
Import Concrete.

(** [/etc/resolv.conf] is a symlink to a file of systemd-resolved;
    the run directory cannot be written. *)
Definition env_foreign_readonly : Env :=
  {| read_link_resconf := Some "/run/systemd/resolve/resolv.conf";
     set_contents_resconf_ok := true;
     fopen_tmp_ok := false;
     fprintf_tmp_ok := true;
     fclose_tmp_ok := true;
     rename_my_ok := true;
     lstat_resconf := LstatOk true;
     stat_resconf_ok := true;
     unlink_resconf_tmp := UnlinkENOENT;
     symlink_ok := true;
     rename_resconf_ok := true;
     resolvconf_executable := true;
     spawn_resolvconf_status := 0;
     popen_resolvconf_ok := true;
     fprintf_pipe_ok := true;
     pclose_status := 0;
     netconfig_pid := 4242;
     kill_child_sync_ok := true;
     netconfig_wifexited := true;
     netconfig_wexitstatus := 0;
     plugin_update_ok := true;
     timeout_source_id := 77 |}.

(** The same symlink with a writable run directory. *)
Definition env_foreign : Env :=
  {| read_link_resconf := Some "/run/systemd/resolve/resolv.conf";
     set_contents_resconf_ok := true;
     fopen_tmp_ok := true;
     fprintf_tmp_ok := true;
     fclose_tmp_ok := true;
     rename_my_ok := true;
     lstat_resconf := LstatOk true;
     stat_resconf_ok := true;
     unlink_resconf_tmp := UnlinkENOENT;
     symlink_ok := true;
     rename_resconf_ok := true;
     resolvconf_executable := true;
     spawn_resolvconf_status := 0;
     popen_resolvconf_ok := true;
     fprintf_pipe_ok := true;
     pclose_status := 0;
     netconfig_pid := 4242;
     kill_child_sync_ok := true;
     netconfig_wifexited := true;
     netconfig_wexitstatus := 0;
     plugin_update_ok := true;
     timeout_source_id := 77 |}.

End SymlinkExample.

Module RestartExample.
Import Concrete Examples.

(** Six deaths, one second apart. *)
Definition six_deaths : list (Env * Z) :=
  [(env_ok, 1000); (env_ok, 2000); (env_ok, 3000);
   (env_ok, 4000); (env_ok, 5000); (env_ok, 6000)].

End RestartExample.

Module TransactionExample.
Import Concrete Examples.

(** The fresh manager with config 1 attached inside a transaction. *)
Definition attached : World :=
  unwrap (drop_result
            (@nm_dns_manager_add_ip4_config E_soup env_ok (Some "eth0") (Some 1%nat)
               NM_DNS_IP_CONFIG_TYPE_DEFAULT
               (nm_dns_manager_begin_updates (fresh E_soup))))
         (fresh E_soup).

End TransactionExample.

Module SearchExample.
Import Concrete Examples.

(** A manager whose one config lists eight searches. *)
Definition eight_searches : World :=
  unwrap (@run E_soup
            [AddIP4 env_ok (Some "eth0") 2%nat NM_DNS_IP_CONFIG_TYPE_DEFAULT]
            (fresh E_soup))
         (fresh E_soup).

End SearchExample.

Module NisExample.
Import Concrete Examples.

(** Two IPv4 configs that both name a NIS domain. *)
Definition ip4_office : NMIP4Config :=
  {| ip4_nameservers := [16843009];
     ip4_domains := [];
     ip4_searches := [];
     ip4_dns_options := [];
     ip4_nis_servers := [16843009];
     ip4_nis_domain := Some "office" |}.

Definition ip4_lab : NMIP4Config :=
  {| ip4_nameservers := [134744072];
     ip4_domains := [];
     ip4_searches := [];
     ip4_dns_options := [];
     ip4_nis_servers := [16843009; 134744072];
     ip4_nis_domain := Some "lab" |}.

Definition nis_objects (p : ptr) : NMIP4Config :=
  match p with
  | 1%nat => ip4_office
  | 2%nat => ip4_lab
  | _ => ip4_none
  end.

Definition fresh_nis : World :=
  @nm_dns_manager_init E_soup None None (Some "netconfig") false nis_objects ip6_objects.

(** The lab config attached first, the office config attached second
    as the best device. *)
Definition lab_then_office : World :=
  unwrap (@run E_soup
            [AddIP4 env_ok (Some "eth1") 2%nat NM_DNS_IP_CONFIG_TYPE_DEFAULT;
             AddIP4 env_ok (Some "eth0") 1%nat NM_DNS_IP_CONFIG_TYPE_BEST_DEVICE]
            fresh_nis)
         fresh_nis.

End NisExample.

Module ReloadExample.
Import Concrete Examples.

(** A dnsmasq plugin that is not the value the constructor of the
    concrete instance returns: it goes by another name. *)
Definition dnsmasq_running : NMDnsPlugin :=
  {| plugin_type := NM_TYPE_DNS_DNSMASQ;
     nm_dns_plugin_get_name := "dnsmasq (running)";
     nm_dns_plugin_is_caching := true |}.

(** A manager in symlink mode with that plugin in place. *)
Definition with_running : World :=
  set_priv (fresh E_soup)
    (set_rc_manager_plugin (priv (fresh E_soup)) NM_DNS_MANAGER_RESOLV_CONF_MAN_SYMLINK
       (Some dnsmasq_running)).

End ReloadExample.

Module OwnLinkExample.
Import Concrete.

(** [/etc/resolv.conf] is a symlink to the private copy and every
    system call succeeds. *)
Definition env_own_link : Env :=
  {| read_link_resconf := Some "/var/run/NetworkManager/resolv.conf";
     set_contents_resconf_ok := true;
     fopen_tmp_ok := true;
     fprintf_tmp_ok := true;
     fclose_tmp_ok := true;
     rename_my_ok := true;
     lstat_resconf := LstatOk true;
     stat_resconf_ok := true;
     unlink_resconf_tmp := UnlinkENOENT;
     symlink_ok := true;
     rename_resconf_ok := true;
     resolvconf_executable := true;
     spawn_resolvconf_status := 0;
     popen_resolvconf_ok := true;
     fprintf_pipe_ok := true;
     pclose_status := 0;
     netconfig_pid := 4242;
     kill_child_sync_ok := true;
     netconfig_wifexited := true;
     netconfig_wexitstatus := 0;
     plugin_update_ok := true;
     timeout_source_id := 77 |}.

End OwnLinkExample.

Module RetryExample.
Import Concrete Examples.

(** The dnsmasq manager after seven deaths of the child, one second
    apart: the seventh has scheduled the deferred retry. *)
Definition deferred : World :=
  unwrap (@child_deaths E_soup (RestartExample.six_deaths ++ [(env_ok, 7000)])
            (fresh_dnsmasq E_soup))
         (fresh_dnsmasq E_soup).

End RetryExample.

Module HelperExample.
Import Concrete Examples.

(** A manager set up for [resolvconf], and an environment in which
    the program is not installed. *)
Definition fresh_resolvconf : World :=
  @nm_dns_manager_init E_soup None None (Some "resolvconf") false ip4_objects ip6_objects.

Definition env_no_helper : Env :=
  {| read_link_resconf := None;
     set_contents_resconf_ok := true;
     fopen_tmp_ok := true;
     fprintf_tmp_ok := true;
     fclose_tmp_ok := true;
     rename_my_ok := true;
     lstat_resconf := LstatENOENT;
     stat_resconf_ok := false;
     unlink_resconf_tmp := UnlinkENOENT;
     symlink_ok := true;
     rename_resconf_ok := true;
     resolvconf_executable := false;
     spawn_resolvconf_status := 0;
     popen_resolvconf_ok := true;
     fprintf_pipe_ok := true;
     pclose_status := 0;
     netconfig_pid := 0;
     kill_child_sync_ok := true;
     netconfig_wifexited := true;
     netconfig_wexitstatus := 0;
     plugin_update_ok := true;
     timeout_source_id := 77 |}.

(** A manager told not to manage [/etc/resolv.conf]. *)
Definition fresh_unmanaged : World :=
  @nm_dns_manager_init E_soup None (Some "none") None false ip4_objects ip6_objects.

End HelperExample.

Module DetachExample.
Import Concrete Examples.

(** The IPv6 config attached as a VPN config and then once more as a
    plain one. *)
Definition vpn_and_default : World :=
  unwrap (@run E_soup
            [AddIP6 env_ok (Some "tun0") 1%nat NM_DNS_IP_CONFIG_TYPE_VPN;
             AddIP6 env_ok (Some "tun0") 1%nat NM_DNS_IP_CONFIG_TYPE_DEFAULT]
            (fresh E_soup))
         (fresh E_soup).

End DetachExample.

(** * Properties *)

(** ** First-occurrence lists *)

Lemma mem_string_In (array : list string) (x : string) :
  mem_string array x = true <-> In x array.
Proof.
  unfold mem_string. rewrite existsb_exists. split.
  - intros [y [Hy Heq]]. apply String.eqb_eq in Heq. now subst.
  - intros H. exists x. split; [assumption | apply String.eqb_refl].
Qed.

Lemma filter_filter {A} (p q : A -> bool) (l : list A) :
  filter p (filter q l) = filter (fun y => q y && p y) l.
Proof.
  induction l as [|a l IH]; simpl; [reflexivity|].
  destruct (q a); simpl; [destruct (p a)|]; now rewrite IH.
Qed.

Lemma first_occurrences_filter (p : string -> bool) (l : list string) :
  first_occurrences (filter p l) = filter p (first_occurrences l).
Proof.
  induction l as [|x l IH]; simpl; [reflexivity|].
  destruct (p x) eqn:Hpx; simpl; rewrite ?Hpx.
  - f_equal. rewrite IH, !filter_filter. apply filter_ext.
    intros y. apply andb_comm.
  - rewrite IH, filter_filter. apply filter_ext_in.
    intros y _. destruct (String.eqb y x) eqn:Hyx; simpl.
    + apply String.eqb_eq in Hyx. subst. now rewrite Hpx.
    + now destruct (p y).
Qed.

Lemma first_occurrences_In (l : list string) (x : string) :
  In x (first_occurrences l) <-> In x l.
Proof.
  induction l as [|a l IH]; simpl; [tauto|].
  rewrite filter_In, IH. split.
  - intros [H | [H _]]; auto.
  - intros [H | H]; auto.
    destruct (String.eqb x a) eqn:Hxa.
    + apply String.eqb_eq in Hxa. auto.
    + right. split; [assumption | reflexivity].
Qed.

Lemma first_occurrences_NoDup (l : list string) : NoDup (first_occurrences l).
Proof.
  induction l as [|a l IH]; simpl; constructor.
  - rewrite filter_In. intros [_ H]. now rewrite String.eqb_refl in H.
  - now apply NoDup_filter.
Qed.

Lemma add_string_items_app (array l1 l2 : list string) :
  add_string_items array (l1 ++ l2) = add_string_items (add_string_items array l1) l2.
Proof. apply fold_left_app. Qed.

(** The loop of [add_string_item] calls, described from outside:
    it appends, in order, the first occurrences of the strings that
    the array does not hold yet. *)
Lemma add_string_items_spec (l array : list string) :
  add_string_items array l
  = array ++ first_occurrences (filter (fun x => negb (mem_string array x)) l).
Proof.
  revert array. induction l as [|x l IH]; intros array; simpl.
  - now rewrite app_nil_r.
  - unfold add_string_items in *. simpl. unfold add_string_item at 2.
    fold (mem_string array x). destruct (mem_string array x) eqn:Hm; simpl.
    + apply IH.
    + rewrite IH, <- app_assoc. simpl. do 2 f_equal.
      rewrite <- first_occurrences_filter, filter_filter. f_equal.
      apply filter_ext. intros y. unfold mem_string.
      rewrite existsb_app. simpl. rewrite orb_false_r, negb_orb.
      now rewrite (String.eqb_sym x y).
Qed.

Lemma add_string_items_nil (l : list string) :
  add_string_items [] l = first_occurrences l.
Proof.
  rewrite add_string_items_spec. simpl. f_equal.
  induction l as [|x l IH]; simpl; [reflexivity | now rewrite IH].
Qed.

Lemma add_string_item_In (array : list string) (x y : string) :
  In y (add_string_item array x) <-> In y array \/ y = x.
Proof.
  unfold add_string_item. fold (mem_string array x).
  destruct (mem_string array x) eqn:Hm.
  - apply mem_string_In in Hm. split; [auto | intros [H | ->]; assumption].
  - rewrite in_app_iff. simpl. intuition congruence.
Qed.

Lemma add_string_item_prefix (array : list string) (x : string) :
  exists tail, add_string_item array x = array ++ tail.
Proof.
  unfold add_string_item. destruct (existsb _ array).
  - exists []. now rewrite app_nil_r.
  - now exists [x].
Qed.

Section MergeFacts.
Context {E : Externals}.

Lemma add_valid_domains_filter (l array : list string) :
  add_valid_domains array l = add_string_items array (filter DOMAIN_IS_VALID l).
Proof.
  revert array. unfold add_valid_domains, add_string_items.
  induction l as [|d l IH]; intros array; simpl; [reflexivity|].
  destruct (DOMAIN_IS_VALID d); simpl; apply IH.
Qed.

Lemma merge_searches_candidates (array s d : list string) :
  merge_searches array s d
  = add_string_items array (filter DOMAIN_IS_VALID (search_candidates s d)).
Proof.
  unfold merge_searches, search_candidates.
  destruct (Nat.ltb 1 (List.length d) || Nat.eqb (List.length s) 0).
  - now rewrite filter_app, add_string_items_app, !add_valid_domains_filter.
  - now rewrite app_nil_r, add_valid_domains_filter.
Qed.

End MergeFacts.

(** ** What a commit hands to the backends *)

Lemma new_events_app (w w' : World) (evs : list event) :
  log w' = log w ++ evs -> new_events w w' = evs.
Proof.
  unfold new_events. intros ->.
  rewrite skipn_app, skipn_all, Nat.sub_diag. reflexivity.
Qed.

Lemma commits_app (a b : list event) : commits (a ++ b) = (commits a + commits b)%nat.
Proof. unfold commits. now rewrite filter_app, length_app. Qed.

Lemma carries_no_commit s n o (evs : list event) :
  Forall (carries s n o) evs -> commits evs = 0%nat.
Proof.
  unfold commits. induction 1 as [|ev evs Hev _ IH]; simpl; [reflexivity|].
  destruct ev; simpl in *; try assumption. contradiction.
Qed.

Ltac break_if :=
  match goal with
  | |- context [if ?b then _ else _] => destruct b eqn:?; cbv beta iota
  | |- context [match ?x with _ => _ end] => destruct x eqn:?; cbv beta iota
  end.

Ltac carry_list :=
  repeat first [apply Forall_nil | apply Forall_cons | apply Forall_app; split];
  simpl; auto.

Section CommitFacts.
Context {E : Externals}.

Lemma update_resconf_symlink_carries e s n o :
  Forall (carries s n o) (fst (update_resconf_symlink e)).
Proof.
  unfold update_resconf_symlink, replace_resconf_symlink.
  repeat break_if; simpl; carry_list.
Qed.

Lemma update_resolv_conf_carries e s n o rcm :
  Forall (carries s n o) (fst (update_resolv_conf e s n o rcm))
  /\ Exists (fun ev => is_backend_call ev = true) (fst (update_resolv_conf e s n o rcm)).
Proof.
  pose proof (update_resconf_symlink_carries e s n o) as Hl.
  unfold update_resolv_conf.
  destruct (update_resconf_symlink e) as [l r]. simpl in Hl.
  split; repeat break_if; simpl;
    try (apply Exists_cons_hd; reflexivity); carry_list.
Qed.

Lemma dispatch_resolvconf_carries e s n o :
  Forall (carries s n o) (fst (dispatch_resolvconf e s n o))
  /\ Exists (fun ev => is_backend_call ev = true) (fst (dispatch_resolvconf e s n o)).
Proof.
  unfold dispatch_resolvconf.
  split; repeat break_if; simpl;
    try (apply Exists_cons_hd; reflexivity); carry_list.
Qed.

Lemma dispatch_netconfig_carries e s n o nd ns :
  Forall (carries s n o) (fst (dispatch_netconfig e s n nd ns))
  /\ Exists (fun ev => is_backend_call ev = true) (fst (dispatch_netconfig e s n nd ns)).
Proof.
  unfold dispatch_netconfig, netconfig_list.
  split; repeat break_if; simpl;
    try (apply Exists_cons_hd; reflexivity); carry_list.
Qed.

Ltac name_backend_runs e s n o nd ns :=
  let F := fresh "F" in
  let X := fresh "X" in
  pose proof (update_resolv_conf_carries e s n o NM_DNS_MANAGER_RESOLV_CONF_MAN_SYMLINK)
    as [F X];
  let F := fresh "F" in
  let X := fresh "X" in
  pose proof (update_resolv_conf_carries e s n o NM_DNS_MANAGER_RESOLV_CONF_MAN_FILE)
    as [F X];
  let F := fresh "F" in
  let X := fresh "X" in
  pose proof (dispatch_resolvconf_carries e s n o) as [F X];
  let F := fresh "F" in
  let X := fresh "X" in
  pose proof (dispatch_netconfig_carries e s n o nd ns) as [F X];
  destruct (update_resolv_conf e s n o NM_DNS_MANAGER_RESOLV_CONF_MAN_SYMLINK);
  destruct (update_resolv_conf e s n o NM_DNS_MANAGER_RESOLV_CONF_MAN_FILE);
  destruct (dispatch_resolvconf e s n o);
  destruct (dispatch_netconfig e s n nd ns);
  simpl in *.

Lemma dispatch_backend_carries e rcm s n o nd ns ev r upd :
  dispatch_backend e rcm s n o nd ns = Some (ev, r, upd) ->
  Forall (carries s n o) ev /\ Exists (fun x => is_backend_call x = true) ev.
Proof.
  unfold dispatch_backend. intros H.
  destruct rcm; try discriminate; name_backend_runs e s n o nd ns;
    match type of H with
    | context [SpawnResult_eqb ?x _] => destruct x; simpl in H
    end;
    inversion H; subst; clear H; split;
    try assumption;
    try (apply Forall_app; split; assumption);
    apply Exists_app; left; assumption.
Qed.

Lemma dispatch_backend_some e rcm s n o nd ns :
  rcm <> NM_DNS_MANAGER_RESOLV_CONF_MAN_UNKNOWN ->
  rc_manager_eqb rcm NM_DNS_MANAGER_RESOLV_CONF_MAN_UNMANAGED = false ->
  rc_manager_eqb rcm NM_DNS_MANAGER_RESOLV_CONF_MAN_IMMUTABLE = false ->
  exists x, dispatch_backend e rcm s n o nd ns = Some x.
Proof.
  unfold dispatch_backend. intros H1 H2 H3.
  destruct rcm; try congruence; try discriminate; name_backend_runs e s n o nd ns;
    match goal with
    | |- context [SpawnResult_eqb ?x _] => destruct x; simpl
    end; eauto.
Qed.

Lemma update_plugin_carries e nc w s n o :
  Forall (carries s n o) (fst (update_plugin e nc w)).
Proof.
  unfold update_plugin. repeat break_if; simpl; carry_list.
Qed.

Lemma merge_configs_some w :
  asserts_hold w -> exists rc, merge_configs w = Some rc.
Proof.
  intros [_ Hg]. unfold merge_configs, merge_global_dns_config.
  destruct (global_dns_config w) as [g|] eqn:Hgc; [|eauto].
  specialize (Hg g eq_refl). destruct (global_default_domain g); [eauto | congruence].
Qed.

(** [update_dns] returns when its assertions hold. *)
Lemma update_dns_returns e nc w :
  asserts_hold w -> exists r w', update_dns e nc w = Some (r, w').
Proof.
  intros Hw. destruct (merge_configs_some Hw) as [rc Hrc].
  destruct Hw as [Hk _]. unfold update_dns. rewrite Hrc.
  destruct (update_plugin e nc w) as [evp caching].
  destruct (negb _) eqn:Hupd.
  - apply negb_true_iff, orb_false_iff in Hupd. destruct Hupd as [Hu Hi].
    match goal with
    | |- context [dispatch_backend ?a ?b ?c ?d ?f ?g ?h] =>
        destruct (@dispatch_backend_some a b c d f g h Hk Hu Hi) as [[[ev r] upd] ->]
    end. eauto.
  - eauto.
Qed.

(** The shape of a commit: its mark, then events among which every
    backend entered is handed the same three lists, and at least one
    backend is entered. *)
Lemma update_dns_hands e nc w r w' :
  update_dns e nc w = Some (r, w') ->
  exists rc evs,
    merge_configs w = Some rc
    /\ log w' = log w ++ EvUpdateDns nc :: evs
    /\ Forall (carries (commit_searches w rc) (commit_nameservers e nc w rc)
                       (strv (options rc))) evs
    /\ Exists (fun ev => is_backend_call ev = true) evs
    /\ exists before after, evs = before ++ fst (update_plugin e nc w) ++ after.
Proof.
  unfold update_dns, commit_searches, commit_nameservers. intros H.
  destruct (merge_configs w) as [rc|]; [|discriminate].
  pose proof (update_plugin_carries e nc w) as Hp.
  destruct (update_plugin e nc w) as [evp caching]. simpl fst in *. simpl snd in *.
  set (s := strv (limit_searches _)) in *.
  set (n := if caching then _ else _) in *.
  set (o := strv (options rc)) in *.
  specialize (Hp s n o).
  pose proof (update_resolv_conf_carries e s n o NM_DNS_MANAGER_RESOLV_CONF_MAN_UNMANAGED)
    as [Fp Xp].
  assert (Ft : forall b id, Forall (carries s n o)
                              (if b : bool then [] else [EvSourceRemove id])).
  { intros [] id; carry_list. }
  assert (Fs : forall b : bool, Forall (carries s n o)
                                  (if b then [EvSignalConfigChanged] else [])).
  { intros []; carry_list. }
  exists rc.
  destruct (negb _) eqn:Hupd.
  - destruct (dispatch_backend _ _ _ _ _ _ _) as [[[evb res] upd]|] eqn:Hb; [|discriminate].
    apply dispatch_backend_carries in Hb. destruct Hb as [Fb Xb].
    inversion H; subst; clear H. simpl.
    eexists. split; [reflexivity|]. split; [reflexivity|]. split; [|split].
    + repeat (apply Forall_app; split); auto.
      destruct upd; [constructor | assumption].
    + apply Exists_app. right. apply Exists_app. right. apply Exists_app. now left.
    + eauto.
  - inversion H; subst; clear H. simpl.
    eexists. split; [reflexivity|]. split; [reflexivity|]. split; [|split].
    + repeat (apply Forall_app; split); auto.
    + apply Exists_app. right. apply Exists_app. right. simpl.
      rewrite app_nil_r. assumption.
    + eauto.
Qed.

Lemma carries_hands s n o ev :
  carries s n o ev -> hands_searches s ev /\ hands_nameservers n ev /\ hands_options o ev.
Proof. destruct ev; simpl; tauto. Qed.

(** Every backend a commit enters is handed the searches, the
    nameservers and the options the commit computed, and it enters at
    least one. *)
Lemma update_dns_lists e nc w r w' :
  update_dns e nc w = Some (r, w') ->
  exists rc,
    merge_configs w = Some rc
    /\ Forall (hands_searches (commit_searches w rc)) (new_events w w')
    /\ Forall (hands_nameservers (commit_nameservers e nc w rc)) (new_events w w')
    /\ Forall (hands_options (strv (options rc))) (new_events w w')
    /\ Exists (fun ev => is_backend_call ev = true) (new_events w w').
Proof.
  intros Hu.
  destruct (update_dns_hands _ _ _ Hu) as (rc & evs & Hrc & Hlog & Hcar & Hex & _).
  exists rc. rewrite (new_events_app _ _ _ Hlog).
  split; [exact Hrc|].
  repeat split;
    try (constructor; [exact I|];
         eapply Forall_impl; [|exact Hcar];
         intros ev Hev; apply (carries_hands _ _ _ _ Hev)).
  now apply Exists_cons_tl.
Qed.

(** What [update_dns] leaves of the private data: everything but the
    hash, [dns_touched] and the retry timer. *)
Lemma update_dns_priv e nc w r w' :
  update_dns e nc w = Some (r, w') ->
  priv w' = set_update_dns_fields (priv w)
              (if negb (rc_manager_eqb (rc_manager (priv w))
                                       NM_DNS_MANAGER_RESOLV_CONF_MAN_UNMANAGED
                        || rc_manager_eqb (rc_manager (priv w))
                                          NM_DNS_MANAGER_RESOLV_CONF_MAN_IMMUTABLE)
               then true else dns_touched (priv w))
              (compute_hash w (global_dns_config w))
  /\ ip4_config_at w' = ip4_config_at w
  /\ ip6_config_at w' = ip6_config_at w
  /\ iface_tag w' = iface_tag w
  /\ global_dns_config w' = global_dns_config w.
Proof.
  unfold update_dns. intros H.
  destruct (merge_configs w); [|discriminate].
  destruct (update_plugin e nc w).
  destruct (if negb _ then _ else _) as [[[evb res] upd]|]; [|discriminate].
  inversion H; subst; clear H. simpl. auto.
Qed.

End CommitFacts.

(** ** The merge, source by source *)

Lemma fold_left_map_fun {A B C} (f : A -> B -> A) (g : C -> B) (l : list C) (a : A) :
  fold_left f (map g l) a = fold_left (fun acc x => f acc (g x)) l a.
Proof. revert a. induction l as [|x l IH]; intros a; simpl; [reflexivity | apply IH]. Qed.

Lemma fold_left_skip {A B} (f : A -> B -> A) (skip : B -> bool) (l : list B) (a : A) :
  fold_left (fun acc x => if skip x then acc else f acc x) l a
  = fold_left f (filter (fun x => negb (skip x)) l) a.
Proof.
  revert a. induction l as [|x l IH]; intros a; simpl; [reflexivity|].
  destruct (skip x); simpl; apply IH.
Qed.

Section WalkFacts.
Context {E : Externals}.

Lemma merge_configs_walk (w : World) :
  global_dns_config w = None ->
  merge_configs w = Some (fold_left (merge_one w) (walk_order (priv w)) rc_empty).
Proof.
  intros Hg. unfold merge_configs, walk_order, other_configs. rewrite Hg. f_equal.
  rewrite !fold_left_app, !fold_left_map_fun, fold_left_skip.
  destruct (ip4_device_config (priv w)), (ip6_device_config (priv w)); reflexivity.
Qed.

Lemma fold_merge_one_nameservers (w : World) (l : list gpointer) (rc : NMResolvConfData) :
  nameservers (fold_left (merge_one w) l rc)
  = add_string_items (nameservers rc) (flat_map (config_nameservers w) l).
Proof.
  revert rc. induction l as [|d l IH]; intros rc; simpl; [reflexivity|].
  rewrite IH, add_string_items_app. f_equal. now destruct d.
Qed.

Lemma fold_merge_one_searches (w : World) (l : list gpointer) (rc : NMResolvConfData) :
  searches (fold_left (merge_one w) l rc)
  = add_string_items (searches rc)
      (filter DOMAIN_IS_VALID (flat_map (config_search_candidates w) l)).
Proof.
  revert rc. induction l as [|d l IH]; intros rc; simpl; [reflexivity|].
  rewrite IH, filter_app, add_string_items_app. f_equal.
  destruct d; simpl; apply merge_searches_candidates.
Qed.

(** Without a global configuration the merged nameservers and
    searches are the first occurrences of what the configs offer,
    taken in [walk_order]. *)
Lemma merge_configs_first_occurrences (w : World) :
  global_dns_config w = None ->
  exists rc,
    merge_configs w = Some rc
    /\ nameservers rc
       = first_occurrences (flat_map (config_nameservers w) (walk_order (priv w)))
    /\ searches rc
       = first_occurrences
           (filter DOMAIN_IS_VALID
              (flat_map (config_search_candidates w) (walk_order (priv w)))).
Proof.
  intros Hg. eexists. split; [apply (merge_configs_walk _ Hg)|].
  rewrite fold_merge_one_nameservers, fold_merge_one_searches. simpl.
  now rewrite !add_string_items_nil.
Qed.

(** With a global configuration the merge is made of its lists
    alone. *)
Lemma merge_configs_global (w : World) g servers :
  global_dns_config w = Some g ->
  global_default_domain g = Some servers ->
  merge_configs w
  = Some {| nameservers := first_occurrences (of_strv servers);
            searches := first_occurrences
                          (filter DOMAIN_IS_VALID (of_strv (global_searches g)));
            options := first_occurrences (of_strv (global_options g));
            nis_domain := None;
            nis_servers := [] |}.
Proof.
  intros Hg Hd. unfold merge_configs, merge_global_dns_config. rewrite Hg, Hd. simpl.
  now rewrite add_valid_domains_filter, !add_string_items_nil.
Qed.

Lemma merged_searches_contributed (w : World) (rc : NMResolvConfData) :
  merge_configs w = Some rc ->
  searches rc = first_occurrences (contributed_searches w).
Proof.
  intros Hrc. unfold contributed_searches.
  destruct (global_dns_config w) as [g|] eqn:Hg.
  - destruct (global_default_domain g) as [servers|] eqn:Hd.
    + rewrite (merge_configs_global _ Hg Hd) in Hrc. now inversion Hrc.
    + unfold merge_configs, merge_global_dns_config in Hrc. rewrite Hg, Hd in Hrc.
      discriminate Hrc.
  - destruct (merge_configs_first_occurrences _ Hg) as (rc' & Hrc' & _ & Hs).
    rewrite Hrc in Hrc'. inversion Hrc'; subst rc'. exact Hs.
Qed.

End WalkFacts.

(** ** The search-list limit *)

Lemma budget_app (a b : list string) : budget (a ++ b) = budget a + budget b.
Proof. induction a as [|x a IH]; simpl; [reflexivity | rewrite IH; ring]. Qed.

Lemma budget_nonneg (l : list string) : 0 <= budget l.
Proof. induction l as [|x l IH]; simpl; lia. Qed.

Lemma filter_all {A} (p : A -> bool) (l : list A) :
  Forall (fun x => p x = true) l -> filter p l = l.
Proof. induction 1 as [|x l Hx _ IH]; simpl; [reflexivity | now rewrite Hx, IH]. Qed.

Lemma first_occurrences_NoDup_id (l : list string) :
  NoDup l -> first_occurrences l = l.
Proof.
  induction 1 as [|x l Hx _ IH]; simpl; [reflexivity|].
  rewrite IH. f_equal. apply filter_all, Forall_forall.
  intros y Hy. apply negb_true_iff, String.eqb_neq. congruence.
Qed.

Lemma search_limit_loop_shift (pdata : list string) (num i : nat) (len : Z) :
  search_limit_loop pdata num i len = (i + search_limit_loop pdata num 0 len)%nat.
Proof.
  revert pdata i len. induction num as [|num IH]; intros [|s rest] i len; simpl; try lia.
  destruct (256 <? _); [lia|].
  rewrite (IH rest (S i)), (IH rest 1%nat). lia.
Qed.

Lemma search_limit_loop_bounds (pdata : list string) (num : nat) (len : Z) :
  let c := search_limit_loop pdata num 0 len in
  (c <= num)%nat
  /\ (c <= List.length pdata)%nat
  /\ (len <= 256 -> len + budget (firstn c pdata) <= 256)
  /\ (forall next, nth_error pdata c = Some next -> (c < num)%nat ->
        256 < len + budget (firstn c pdata) + (Z.of_nat (String.length next) + 1))
  /\ ((num <= List.length pdata)%nat -> len + budget (firstn num pdata) <= 256 -> c = num).
Proof.
  revert pdata len. induction num as [|num IH]; intros [|s rest] len; simpl.
  - repeat split; try lia; intros; lia.
  - repeat split; try lia; intros; lia.
  - repeat split; try lia. intros next H. discriminate.
  - destruct (256 <? len + (Z.of_nat (String.length s) + 1)) eqn:Hcmp.
    + apply Z.ltb_lt in Hcmp. simpl. repeat split; try lia.
      * intros next H _. inversion H; subst. lia.
      * intros _ H. pose proof (budget_nonneg (firstn num rest)). lia.
    + apply Z.ltb_ge in Hcmp. rewrite search_limit_loop_shift.
      destruct (IH rest (len + (Z.of_nat (String.length s) + 1)))
        as (H1 & H2 & H3 & H4 & H5).
      simpl. repeat split; try lia.
      intros next Hn Hlt. specialize (H4 next Hn). lia.
Qed.

Lemma limit_searches_spec (array : list string) :
  let kept := limit_searches array in
  (List.length kept <= 6)%nat
  /\ (exists dropped, array = kept ++ dropped)
  /\ budget kept <= 256
  /\ (forall next rest, array = kept ++ next :: rest -> (List.length kept < 6)%nat ->
        256 < budget (kept ++ [next])).
Proof.
  unfold limit_searches.
  destruct (search_limit_loop_bounds array (Nat.min (List.length array) 6) 0)
    as (H1 & H2 & H3 & H4 & _).
  set (c := search_limit_loop _ _ _ _) in *.
  assert (Hlen : List.length (firstn c array) = c) by (rewrite length_firstn; lia).
  rewrite Hlen. repeat split.
  - lia.
  - exists (skipn c array). symmetry. apply firstn_skipn.
  - lia.
  - intros next rest Heq Hlt.
    assert (Hn : nth_error array c = Some next).
    { rewrite Heq at 1. rewrite nth_error_app2 by lia. now rewrite Hlen, Nat.sub_diag. }
    assert (Hc : (c < List.length array)%nat).
    { apply nth_error_Some. congruence. }
    specialize (H4 next Hn). rewrite budget_app. simpl. lia.
Qed.

Lemma limit_searches_first_six (array : list string) :
  (6 <= List.length array)%nat -> budget (firstn 6 array) <= 256 ->
  limit_searches array = firstn 6 array.
Proof.
  intros Hlen Hb. unfold limit_searches.
  destruct (search_limit_loop_bounds array (Nat.min (List.length array) 6) 0)
    as (_ & _ & _ & _ & H5).
  replace (Nat.min (List.length array) 6) with 6%nat in * by lia.
  rewrite H5; [reflexivity | lia | lia].
Qed.

Section SearchLimit.
Context {E : Externals}.

Lemma add_hostname_search_prefix (h : option string) (array : list string) :
  exists tail, add_hostname_search h array = array ++ tail.
Proof.
  unfold add_hostname_search.
  repeat break_if; try apply add_string_item_prefix; exists []; now rewrite app_nil_r.
Qed.

(** C2. Every commit hands the backends a search list [kept] that is
    a prefix of the merged list (insertion order), has at most six
    entries and costs at most 256 characters, entries and separators
    counted; the first entry that would not fit and whatever follows
    it are dropped.  When the sources contribute eight distinct
    domains of which the first six fit, exactly those six are kept. *)
Theorem search_list_limit (e : Env) (no_caching : bool) (w : World) :
  asserts_hold w ->
  exists r w' rc,
    update_dns e no_caching w = Some (r, w')
    /\ merge_configs w = Some rc
    /\ let merged := add_hostname_search (hostname (priv w)) (searches rc) in
       let kept := limit_searches merged in
       Forall (hands_searches (strv kept)) (new_events w w')
       /\ Exists (fun ev => is_backend_call ev = true) (new_events w w')
       /\ (List.length kept <= 6)%nat
       /\ (exists dropped, merged = kept ++ dropped)
       /\ budget kept <= 256
       /\ (forall next rest, merged = kept ++ next :: rest ->
             (List.length kept < 6)%nat -> 256 < budget (kept ++ [next]))
       /\ (List.length (contributed_searches w) = 8%nat ->
           NoDup (contributed_searches w) ->
           budget (firstn 6 (contributed_searches w)) <= 256 ->
           kept = firstn 6 (contributed_searches w)).
Proof.
  intros Hw. destruct (update_dns_returns e no_caching Hw) as (r & w' & Hu).
  destruct (update_dns_lists _ _ _ Hu) as (rc & Hrc & Hs & _ & _ & Hex).
  exists r, w', rc. split; [assumption|]. split; [assumption|]. cbv zeta.
  destruct (limit_searches_spec (add_hostname_search (hostname (priv w)) (searches rc)))
    as (H1 & H2 & H3 & H4).
  repeat split; try assumption.
  intros Hlen Hnd Hb. clear Hs.
  rewrite (merged_searches_contributed _ Hrc), (first_occurrences_NoDup_id Hnd).
  destruct (add_hostname_search_prefix (hostname (priv w)) (contributed_searches w))
    as [tail ->].
  rewrite limit_searches_first_six.
  - rewrite firstn_app. rewrite Hlen. simpl. now rewrite app_nil_r.
  - rewrite length_app. lia.
  - rewrite firstn_app, Hlen. simpl. now rewrite app_nil_r.
Qed.

End SearchLimit.

(** ** Order of the merge *)

Section MergeOrder.
Context {E : Externals}.

(** C5, amended.  Without a global configuration the walk is: the
    IPv4 VPN configs, the IPv4 device config, the IPv6 VPN configs,
    the IPv6 device config, then the other configs in the order they
    were attached.  The merged nameservers and the merged searches
    are the first occurrences, in that order, of what the configs
    offer; neither repeats a string.  The backends get the nameservers
    as they are (unless a caching plugin replaces them) and the
    searches after the hostname step and the limit. *)
Theorem merge_order (w : World) :
  global_dns_config w = None ->
  walk_order (priv w)
  = map Ref4 (ip4_vpn_configs (priv w))
    ++ map Ref4 (opt_list (ip4_device_config (priv w)))
    ++ map Ref6 (ip6_vpn_configs (priv w))
    ++ map Ref6 (opt_list (ip6_device_config (priv w)))
    ++ filter (fun data => negb (is_device_config (priv w) data)) (configs (priv w))
  /\ exists rc,
       merge_configs w = Some rc
       /\ nameservers rc
          = first_occurrences (flat_map (config_nameservers w) (walk_order (priv w)))
       /\ searches rc
          = first_occurrences
              (filter DOMAIN_IS_VALID
                 (flat_map (config_search_candidates w) (walk_order (priv w))))
       /\ NoDup (nameservers rc)
       /\ NoDup (searches rc)
       /\ forall e no_caching,
            asserts_hold w ->
            exists r w',
              update_dns e no_caching w = Some (r, w')
              /\ Forall (hands_nameservers
                           (if snd (update_plugin e no_caching w) then Some ["127.0.0.1"]
                            else strv (nameservers rc)))
                        (new_events w w')
              /\ Forall (hands_searches
                           (strv (limit_searches
                                    (add_hostname_search (hostname (priv w))
                                                         (searches rc)))))
                        (new_events w w').
Proof.
  intros Hg. split; [reflexivity|].
  destruct (merge_configs_first_occurrences _ Hg) as (rc & Hrc & Hn & Hs).
  exists rc. split; [exact Hrc|]. split; [exact Hn|]. split; [exact Hs|].
  split; [rewrite Hn; apply first_occurrences_NoDup|].
  split; [rewrite Hs; apply first_occurrences_NoDup|].
  intros e no_caching Hw.
  destruct (update_dns_returns e no_caching Hw) as (r & w' & Hu).
  destruct (update_dns_lists _ _ _ Hu) as (rc' & Hrc' & Hss & Hns & _).
  rewrite Hrc in Hrc'. inversion Hrc'; subst rc'.
  exists r, w'. split; [exact Hu|]. split; [exact Hns | exact Hss].
Qed.

End MergeOrder.

(** Witness of [merge_order]: the world with the IPv4 device and the
    IPv6 VPN. *)
Lemma merge_order_witness :
  global_dns_config Examples.device_then_vpn = None
  /\ exists rc,
       @merge_configs Examples.E_soup Examples.device_then_vpn = Some rc
       /\ nameservers rc = ["1.1.1.1"; "8.8.8.8"; "253:0:0:0:0:0:0:0:0:0:0:0:0:0:0:1"].
Proof.
  split; [reflexivity|].
  destruct (@merge_order Examples.E_soup Examples.device_then_vpn eq_refl)
    as (_ & rc & Hrc & Hn & _).
  exists rc. split; [exact Hrc|]. rewrite Hn. reflexivity.
Defined.

(** Counterexample to C5 as stated: with the IPv4 device config
    carrying 1.1.1.1 and 8.8.8.8 and an IPv6 VPN config carrying one
    server, the device's servers come first in the merged list, the
    VPN's last. *)
Lemma merges_vpn_first_fails : ~ @merges_vpn_first Examples.E_soup.
Proof.
  intros H. destruct (H Examples.device_then_vpn eq_refl) as (rc & Hrc & Hn & _).
  vm_compute in Hrc. inversion Hrc; subst rc; clear Hrc.
  vm_compute in Hn. discriminate Hn.
Qed.

(** ** The hostname step *)

Lemma limit_searches_fits (array : list string) :
  (List.length array <= 6)%nat -> budget array <= 256 -> limit_searches array = array.
Proof.
  intros Hlen Hb. unfold limit_searches.
  destruct (search_limit_loop_bounds array (Nat.min (List.length array) 6) 0)
    as (_ & _ & _ & _ & H5).
  replace (Nat.min (List.length array) 6) with (List.length array) in * by lia.
  rewrite firstn_all in H5. rewrite H5; [apply firstn_all | lia | lia].
Qed.

Section HostnameStep.
Context {E : Externals}.

(** C6, amended.  A domain is valid when it is not empty and, in a
    build with libsoup, not a public suffix.  For a hostname with a
    dot that is not a literal address, the part after the first dot is
    added to the merged search list when valid, else the whole hostname
    when valid, else nothing; any other hostname adds nothing.  The
    addition precedes the limit of six entries and 256 characters:
    with "host.example.com" and "example.com" valid the merged list
    holds "example.com", and so does the final list when five entries
    or fewer precede it and it fits the budget.  A hostname that is a
    public suffix adds nothing when the part after its first dot is
    empty or a public suffix as well. *)
Theorem hostname_search (name : string) (array : list string) :
  (forall d, DOMAIN_IS_VALID d = true <->
             d <> "" /\ (WITH_LIBSOUP = true -> soup_tld_domain_is_public_suffix d = false))
  /\ (forall at_dot,
        strchr name "."%char = Some at_dot -> nm_utils_ipaddr_valid name = false ->
        add_hostname_search (Some name) array
        = if DOMAIN_IS_VALID (next_char at_dot)
          then add_string_item array (next_char at_dot)
          else if DOMAIN_IS_VALID name then add_string_item array name
          else array)
  /\ (strchr name "."%char = None \/ nm_utils_ipaddr_valid name = true ->
      add_hostname_search (Some name) array = array)
  /\ add_hostname_search None array = array
  /\ (name = "host.example.com" -> nm_utils_ipaddr_valid name = false ->
      DOMAIN_IS_VALID "example.com" = true ->
      In "example.com" (add_hostname_search (Some name) array)
      /\ ((List.length array < 6)%nat -> budget array + 12 <= 256 ->
          In "example.com" (limit_searches (add_hostname_search (Some name) array))))
  /\ (forall at_dot,
        strchr name "."%char = Some at_dot ->
        WITH_LIBSOUP = true ->
        soup_tld_domain_is_public_suffix name = true ->
        next_char at_dot = "" \/ soup_tld_domain_is_public_suffix (next_char at_dot) = true ->
        add_hostname_search (Some name) array = array)
  /\ (forall e no_caching w,
        asserts_hold w ->
        exists r w' rc,
          update_dns e no_caching w = Some (r, w')
          /\ merge_configs w = Some rc
          /\ Forall (hands_searches
                       (strv (limit_searches
                                (add_hostname_search (hostname (priv w)) (searches rc)))))
                    (new_events w w')).
Proof.
  assert (Hvalid : forall d, DOMAIN_IS_VALID d = true <->
             d <> "" /\ (WITH_LIBSOUP = true -> soup_tld_domain_is_public_suffix d = false)).
  { intros d. unfold DOMAIN_IS_VALID.
    destruct WITH_LIBSOUP; rewrite ?andb_true_iff, !negb_true_iff, String.eqb_neq.
    - intuition.
    - intuition discriminate. }
  split; [exact Hvalid|].
  split.
  { intros at_dot Hdot Hip. unfold add_hostname_search. now rewrite Hdot, Hip. }
  split.
  { intros [Hdot | Hip]; unfold add_hostname_search.
    - now rewrite Hdot.
    - rewrite Hip. now destruct (strchr name "."%char). }
  split; [reflexivity|].
  split.
  { intros -> Hip Hv.
    assert (Hadd : add_hostname_search (Some "host.example.com") array
                   = add_string_item array "example.com").
    { unfold add_hostname_search. simpl. rewrite Hip. simpl. now rewrite Hv. }
    rewrite Hadd. split.
    - apply add_string_item_In. now right.
    - intros Hlen Hb. rewrite limit_searches_fits.
      + apply add_string_item_In. now right.
      + unfold add_string_item. destruct (existsb _ array); [lia|].
        rewrite length_app. simpl. lia.
      + unfold add_string_item. destruct (existsb _ array).
        * lia.
        * rewrite budget_app. simpl. lia. }
  split.
  { intros at_dot Hdot Hsoup Hps Hsuffix. unfold add_hostname_search. rewrite Hdot.
    destruct (nm_utils_ipaddr_valid name); [reflexivity|].
    assert (H1 : DOMAIN_IS_VALID (next_char at_dot) = false).
    { apply not_true_iff_false. rewrite Hvalid. intros [Hne Hs].
      destruct Hsuffix as [He | Hp]; [contradiction|].
      rewrite (Hs Hsoup) in Hp. discriminate. }
    assert (H2 : DOMAIN_IS_VALID name = false).
    { apply not_true_iff_false. rewrite Hvalid. intros [_ Hs].
      rewrite (Hs Hsoup) in Hps. discriminate. }
    now rewrite H1, H2. }
  intros e no_caching w Hw.
  destruct (update_dns_returns e no_caching Hw) as (r & w' & Hu).
  destruct (update_dns_lists _ _ _ Hu) as (rc & Hrc & Hss & _).
  exists r, w', rc. split; [exact Hu|]. split; assumption.
Qed.

End HostnameStep.

(** Witness of [hostname_search]: "host.example.com" on an empty
    list. *)
Lemma hostname_search_witness :
  @nm_utils_ipaddr_valid Examples.E_soup "host.example.com" = false
  /\ @DOMAIN_IS_VALID Examples.E_soup "example.com" = true
  /\ In "example.com"
        (limit_searches (@add_hostname_search Examples.E_soup (Some "host.example.com") [])).
Proof.
  split; [reflexivity|]. split; [reflexivity|].
  destruct (@hostname_search Examples.E_soup "host.example.com" [])
    as (_ & _ & _ & _ & H & _).
  destruct (H eq_refl eq_refl eq_refl) as [_ Hfinal].
  apply Hfinal; simpl; lia.
Defined.

(** Counterexample to C6 as stated.  With libsoup, "s3.amazonaws.com"
    is a public suffix whose parent "amazonaws.com" is none: the parent
    is added.  Without libsoup nothing is checked against the suffix
    list: "co.uk" adds "uk". *)
Lemma public_suffix_hostname_adds :
  ~ @public_suffix_hostname_adds_nothing Examples.E_soup
  /\ ~ @public_suffix_hostname_adds_nothing Examples.E_plain
  /\ @add_hostname_search Examples.E_soup (Some "s3.amazonaws.com") [] = ["amazonaws.com"]
  /\ @add_hostname_search Examples.E_plain (Some "co.uk") [] = ["uk"].
Proof.
  split; [|split; [|split; reflexivity]].
  - intros H. specialize (H "s3.amazonaws.com" [] eq_refl). discriminate H.
  - intros H. specialize (H "co.uk" [] eq_refl). discriminate H.
Qed.

(** ** The global configuration *)

Section GlobalOverride.
Context {E : Externals}.

Lemma update_plugin_global e nc w1 w2 :
  global_dns_config w1 = global_dns_config w2 ->
  global_dns_config w1 <> None ->
  plugin (priv w1) = plugin (priv w2) ->
  hostname (priv w1) = hostname (priv w2) ->
  update_plugin e nc w1 = update_plugin e nc w2.
Proof.
  intros Hg Hsome Hp Hh. unfold update_plugin. rewrite <- Hg, <- Hp, <- Hh.
  destruct (global_dns_config w1); [reflexivity | contradiction].
Qed.

Lemma commit_outcome_agree e nc w1 w2 :
  merge_configs w1 = merge_configs w2 ->
  update_plugin e nc w1 = update_plugin e nc w2 ->
  hostname (priv w1) = hostname (priv w2) ->
  rc_manager (priv w1) = rc_manager (priv w2) ->
  timer (plugin_ratelimit (priv w1)) = timer (plugin_ratelimit (priv w2)) ->
  commit_outcome e nc w1 = commit_outcome e nc w2.
Proof.
  intros Hm Hp Hh Hr Ht. unfold commit_outcome, update_dns.
  rewrite <- Hm, <- Hp, <- Hh, <- Hr, <- Ht.
  destruct (merge_configs w1); [|reflexivity].
  destruct (update_plugin e nc w1).
  destruct (if negb _ then _ else _) as [[[evb res] upd]|]; [|reflexivity].
  f_equal. f_equal. unfold new_events. simpl.
  now rewrite !skipn_app, !skipn_all, !Nat.sub_diag.
Qed.

(** C7, amended.  With a global configuration the merge takes its
    nameservers from the servers of the default domain, its options
    from the global options and its searches from the valid global
    searches, first occurrences in order, and nothing from any attached
    config: two managers that agree on the global configuration, the
    hostname, the plugin, the backend and the pending timer commit
    alike, whatever configs are attached to either.  The search list
    still passes the hostname step, so the hostname can add one entry
    that the global configuration does not list. *)
Theorem global_override (w : World) (g : NMGlobalDnsConfig) (servers : option (list string)) :
  global_dns_config w = Some g ->
  global_default_domain g = Some servers ->
  merge_configs w
  = Some {| nameservers := first_occurrences (of_strv servers);
            searches := first_occurrences
                          (filter DOMAIN_IS_VALID (of_strv (global_searches g)));
            options := first_occurrences (of_strv (global_options g));
            nis_domain := None;
            nis_servers := [] |}
  /\ (forall e no_caching w2,
        global_dns_config w2 = Some g ->
        hostname (priv w2) = hostname (priv w) ->
        plugin (priv w2) = plugin (priv w) ->
        rc_manager (priv w2) = rc_manager (priv w) ->
        timer (plugin_ratelimit (priv w2)) = timer (plugin_ratelimit (priv w)) ->
        commit_outcome e no_caching w2 = commit_outcome e no_caching w)
  /\ (forall e no_caching,
        rc_manager (priv w) <> NM_DNS_MANAGER_RESOLV_CONF_MAN_UNKNOWN ->
        exists r w',
        update_dns e no_caching w = Some (r, w')
        /\ Forall (hands_searches
                  (strv (limit_searches
                           (add_hostname_search (hostname (priv w))
                              (first_occurrences
                                 (filter DOMAIN_IS_VALID (of_strv (global_searches g))))))))
               (new_events w w')
        /\ Forall (hands_nameservers
                     (if snd (update_plugin e no_caching w) then Some ["127.0.0.1"]
                      else strv (first_occurrences (of_strv servers))))
                  (new_events w w')
        /\ Forall (hands_options (strv (first_occurrences (of_strv (global_options g)))))
                  (new_events w w')).
Proof.
  intros Hg Hd.
  assert (Hm : forall w0, global_dns_config w0 = Some g ->
            merge_configs w0
            = Some {| nameservers := first_occurrences (of_strv servers);
                      searches := first_occurrences
                                    (filter DOMAIN_IS_VALID (of_strv (global_searches g)));
                      options := first_occurrences (of_strv (global_options g));
                      nis_domain := None;
                      nis_servers := [] |}).
  { intros w0 H0. exact (merge_configs_global _ H0 Hd). }
  split; [apply Hm, Hg|]. split.
  - intros e nc w2 Hg2 Hh Hp Hr Ht. apply commit_outcome_agree; try assumption.
    + now rewrite (Hm _ Hg), (Hm _ Hg2).
    + apply update_plugin_global; congruence.
  - intros e nc Hk.
    assert (Hw : asserts_hold w).
    { split; [exact Hk|]. intros g0 Hg0. rewrite Hg in Hg0. inversion Hg0; subst g0.
      rewrite Hd. discriminate. }
    destruct (update_dns_returns e nc Hw) as (r & w' & Hu).
    destruct (update_dns_lists _ _ _ Hu) as (rc & Hrc & Hss & Hns & Hos & _).
    rewrite (Hm _ Hg) in Hrc. inversion Hrc; subst rc; clear Hrc.
    exists r, w'. split; [exact Hu|]. split; [exact Hss|]. split; [exact Hns | exact Hos].
Qed.

End GlobalOverride.

(** Witness of [global_override]: the manager with [global_corp]. *)
Lemma global_override_witness :
  global_dns_config GlobalExample.named_global = Some Examples.global_corp
  /\ global_default_domain Examples.global_corp = Some (Some ["10.0.0.53"])
  /\ @merge_configs Examples.E_soup GlobalExample.named_global
     = Some {| nameservers := ["10.0.0.53"]; searches := ["corp.example"];
               options := ["rotate"]; nis_domain := None; nis_servers := [] |}.
Proof.
  split; [reflexivity|]. split; [reflexivity|].
  destruct (@global_override Examples.E_soup GlobalExample.named_global
              Examples.global_corp (Some ["10.0.0.53"]) eq_refl eq_refl) as [H _].
  exact H.
Defined.

(** Counterexample to C7 as stated: the global configuration lists
    the one search "corp.example", the hostname is
    "host.example.com", and the commit hands over "corp.example" and
    "example.com". *)
Lemma global_searches_only_fails : ~ @global_searches_only Examples.E_soup.
Proof.
  intros H.
  destruct (@update_dns Examples.E_soup Concrete.env_ok false GlobalExample.named_global)
    as [[r w']|] eqn:Hu; [|vm_compute in Hu; discriminate Hu].
  specialize (H Concrete.env_ok false GlobalExample.named_global r w'
                Examples.global_corp eq_refl Hu).
  vm_compute in Hu. inversion Hu; subst; clear Hu.
  vm_compute in H.
  apply Forall_inv_tail, Forall_inv in H.
  destruct (H "example.com" (or_intror (or_introl eq_refl))) as [Habs | []].
  discriminate Habs.
Qed.

(** ** The caching plugin *)

Section CachingPlugin.
Context {E : Externals}.

Lemma update_dns_keeps_plugin e nc w r w' :
  update_dns e nc w = Some (r, w') -> plugin (priv w') = plugin (priv w).
Proof. intros H. apply update_dns_priv in H. destruct H as [-> _]. reflexivity. Qed.

(** C3. With a caching plugin and caching not suppressed: when the
    plugin's update succeeds, every backend entered by the commit is
    handed the one nameserver "127.0.0.1", whatever was merged; when
    the update fails, every backend is handed the merged nameservers
    themselves, or no array at all when nothing was merged; in both
    cases the plugin stays in place. *)
Theorem caching_plugin_nameservers (e : Env) (w : World) (plug : NMDnsPlugin) :
  asserts_hold w ->
  plugin (priv w) = Some plug ->
  nm_dns_plugin_is_caching plug = true ->
  exists r w' rc,
    update_dns e false w = Some (r, w')
    /\ merge_configs w = Some rc
    /\ Exists (fun ev => is_backend_call ev = true) (new_events w w')
    /\ (exists vpn dev other,
          In (EvPluginUpdate vpn dev other (global_dns_config w) (hostname (priv w))
                             (plugin_update_ok e))
             (new_events w w'))
    /\ plugin (priv w') = Some plug
    /\ (plugin_update_ok e = true ->
        Forall (hands_nameservers (Some ["127.0.0.1"])) (new_events w w'))
    /\ (plugin_update_ok e = false ->
        (nameservers rc <> [] ->
         Forall (hands_nameservers (Some (nameservers rc))) (new_events w w'))
        /\ (nameservers rc = [] ->
            Forall (hands_nameservers None) (new_events w w'))).
Proof.
  intros Hw Hp Hc.
  destruct (update_dns_returns e false Hw) as (r & w' & Hu).
  destruct (update_dns_hands _ _ _ Hu) as (rc & evs & Hrc & Hlog & Hcar & Hex & Hplug).
  exists r, w', rc. rewrite (new_events_app _ _ _ Hlog). simpl.
  assert (Hsnd : snd (update_plugin e false w) = plugin_update_ok e).
  { unfold update_plugin. rewrite Hp, Hc. simpl.
    destruct (global_dns_config w); [|destruct (build_plugin_config_lists (priv w)) as [[? ?] ?]];
      simpl; now destruct (plugin_update_ok e). }
  unfold commit_nameservers in Hcar. rewrite Hsnd in Hcar.
  repeat split; try assumption.
  - now apply Exists_cons_tl.
  - destruct Hplug as (before & after & ->).
    assert (Hfst : exists vpn dev other,
               fst (update_plugin e false w)
               = [EvPluginUpdate vpn dev other (global_dns_config w) (hostname (priv w))
                                 (plugin_update_ok e)]).
    { unfold update_plugin. rewrite Hp, Hc. simpl.
      destruct (global_dns_config w);
        [|destruct (build_plugin_config_lists (priv w)) as [[? ?] ?]]; simpl; eauto. }
    destruct Hfst as (vpn & dev & other & ->). exists vpn, dev, other.
    right. rewrite in_app_iff. right. now left.
  - rewrite (update_dns_keeps_plugin _ _ _ Hu). assumption.
  - intros Hok. rewrite Hok in Hcar. constructor; [exact I|].
    eapply Forall_impl; [|exact Hcar].
    intros ev Hev. apply (carries_hands _ _ _ _ Hev).
  - intros Hns.
    match goal with Hok : plugin_update_ok e = false |- _ => rewrite Hok in Hcar end.
    replace (strv (nameservers rc)) with (Some (nameservers rc)) in Hcar
      by (destruct (nameservers rc); [now elim Hns | reflexivity]).
    constructor; [exact I|].
    eapply Forall_impl; [|exact Hcar].
    intros ev Hev. apply (carries_hands _ _ _ _ Hev).
  - intros Hns.
    match goal with Hok : plugin_update_ok e = false |- _ => rewrite Hok, Hns in Hcar end.
    simpl strv in Hcar.
    constructor; [exact I|].
    eapply Forall_impl; [|exact Hcar].
    intros ev Hev. apply (carries_hands _ _ _ _ Hev).
Qed.

End CachingPlugin.

(** Witness of [caching_plugin_nameservers]: dnsmasq with the device
    config attached.  With the plugin update succeeding the backends
    get the loopback address; with the update failing they get the two
    nameservers of the config; with the update failing and nothing
    attached they get no array. *)
Lemma caching_plugin_nameservers_witness :
  @asserts_hold PluginExample.dnsmasq_lan
  /\ plugin (priv PluginExample.dnsmasq_lan) = Some Examples.dnsmasq
  /\ nm_dns_plugin_is_caching Examples.dnsmasq = true
  /\ (exists r w',
        @update_dns Examples.E_soup Concrete.env_ok false PluginExample.dnsmasq_lan
        = Some (r, w')
        /\ Forall (hands_nameservers (Some ["127.0.0.1"]))
                  (new_events PluginExample.dnsmasq_lan w')
        /\ plugin (priv w') = Some Examples.dnsmasq)
  /\ (exists r w',
        @update_dns Examples.E_soup PluginExample.env_update_fails false
           PluginExample.dnsmasq_lan
        = Some (r, w')
        /\ Forall (hands_nameservers (Some ["1.1.1.1"; "8.8.8.8"]))
                  (new_events PluginExample.dnsmasq_lan w')
        /\ Exists (fun ev => is_backend_call ev = true)
                  (new_events PluginExample.dnsmasq_lan w')
        /\ plugin (priv w') = Some Examples.dnsmasq)
  /\ (exists r w',
        @update_dns Examples.E_soup PluginExample.env_update_fails false
           PluginExample.dnsmasq_idle
        = Some (r, w')
        /\ Forall (hands_nameservers None) (new_events PluginExample.dnsmasq_idle w')).
Proof.
  assert (Hw : @asserts_hold PluginExample.dnsmasq_lan).
  { split; [discriminate | intros g Hg; discriminate Hg]. }
  assert (Hi : @asserts_hold PluginExample.dnsmasq_idle).
  { split; [discriminate | intros g Hg; discriminate Hg]. }
  split; [exact Hw|]. split; [reflexivity|]. split; [reflexivity|].
  split; [|split].
  - destruct (@caching_plugin_nameservers Examples.E_soup Concrete.env_ok
                PluginExample.dnsmasq_lan Examples.dnsmasq Hw eq_refl eq_refl)
      as (r & w' & rc & Hu & _ & _ & _ & Hp & Hok & _).
    exists r, w'. split; [exact Hu|]. split; [exact (Hok eq_refl) | exact Hp].
  - destruct (@caching_plugin_nameservers Examples.E_soup PluginExample.env_update_fails
                PluginExample.dnsmasq_lan Examples.dnsmasq Hw eq_refl eq_refl)
      as (r & w' & rc & Hu & Hrc & Hex & _ & Hp & _ & Hfail).
    exists r, w'. split; [exact Hu|].
    assert (Hrc' : @merge_configs Examples.E_soup PluginExample.dnsmasq_lan
                   = Some {| nameservers := ["1.1.1.1"; "8.8.8.8"];
                             searches := ["lan.example.org"];
                             options := ["ndots:2"]; nis_domain := None;
                             nis_servers := [] |})
      by (vm_compute; reflexivity).
    rewrite Hrc' in Hrc. inversion Hrc; subst rc.
    split; [|split; [exact Hex | exact Hp]].
    apply (Hfail eq_refl). discriminate.
  - destruct (@caching_plugin_nameservers Examples.E_soup PluginExample.env_update_fails
                PluginExample.dnsmasq_idle Examples.dnsmasq Hi eq_refl eq_refl)
      as (r & w' & rc & Hu & Hrc & _ & _ & _ & _ & Hfail).
    exists r, w'. split; [exact Hu|].
    assert (Hrc' : @merge_configs Examples.E_soup PluginExample.dnsmasq_idle
                   = Some {| nameservers := []; searches := []; options := [];
                             nis_domain := None; nis_servers := [] |})
      by (vm_compute; reflexivity).
    rewrite Hrc' in Hrc. inversion Hrc; subst rc.
    apply (Hfail eq_refl). reflexivity.
Defined.

(** ** Symlink mode and a foreign symlink *)

Section ForeignSymlink.
Context {E : Externals}.

(** C8, amended.  In symlink mode, when [/etc/resolv.conf] is a
    foreign symlink, [update_resolv_conf] never unlinks, symlinks or
    renames anything but its private copy.  When the private copy can
    be written it is written, that is all that happens, and the result
    is success; when it cannot, the result is an error.  A commit of a
    manager in symlink mode behaves accordingly. *)
Theorem foreign_symlink_untouched (e : Env) (s n o : option (list string)) :
  foreign_symlink e ->
  Forall leaves_resconf
         (fst (update_resolv_conf e s n o NM_DNS_MANAGER_RESOLV_CONF_MAN_SYMLINK))
  /\ (private_copy_written e = true ->
      update_resolv_conf e s n o NM_DNS_MANAGER_RESOLV_CONF_MAN_SYMLINK
      = ([CallUpdateResolvConf s n o NM_DNS_MANAGER_RESOLV_CONF_MAN_SYMLINK;
          EvFopen MY_RESOLV_CONF_TMP true;
          EvFprintf MY_RESOLV_CONF_TMP (create_resolv_conf s n o) true;
          EvFclose MY_RESOLV_CONF_TMP true;
          EvRename MY_RESOLV_CONF_TMP MY_RESOLV_CONF true],
         SR_SUCCESS))
  /\ (private_copy_written e = false ->
      snd (update_resolv_conf e s n o NM_DNS_MANAGER_RESOLV_CONF_MAN_SYMLINK) = SR_ERROR)
  /\ (forall no_caching w,
        asserts_hold w ->
        rc_manager (priv w) = NM_DNS_MANAGER_RESOLV_CONF_MAN_SYMLINK ->
        exists r w',
          update_dns e no_caching w = Some (r, w')
          /\ Forall leaves_resconf (new_events w w')
          /\ r = private_copy_written e).
Proof.
  intros [Hl Hs].
  assert (Hlink : update_resconf_symlink e = ([], SR_SUCCESS)).
  { unfold update_resconf_symlink. rewrite Hl.
    destruct Hs as [-> | [-> Hr]]; [reflexivity|].
    destruct (read_link_resconf e); [now rewrite Hr | reflexivity]. }
  assert (Hall : Forall leaves_resconf
                   (fst (update_resolv_conf e s n o NM_DNS_MANAGER_RESOLV_CONF_MAN_SYMLINK))
                 /\ snd (update_resolv_conf e s n o NM_DNS_MANAGER_RESOLV_CONF_MAN_SYMLINK)
                    = (if private_copy_written e then SR_SUCCESS else SR_ERROR)).
  { unfold update_resolv_conf, private_copy_written. rewrite Hlink. simpl.
    destruct (fopen_tmp_ok e), (fprintf_tmp_ok e), (fclose_tmp_ok e), (rename_my_ok e);
      simpl; split; try reflexivity; repeat constructor. }
  destruct Hall as [Hf Hr].
  split; [exact Hf|]. split; [|split].
  - intros Hp. unfold update_resolv_conf. rewrite Hlink. simpl.
    unfold private_copy_written in Hp. rewrite !andb_true_iff in Hp.
    destruct Hp as [[[-> ->] ->] ->]. reflexivity.
  - intros Hp. now rewrite Hr, Hp.
  - intros nc w Hw Hrc.
    destruct (update_dns_returns e nc Hw) as (r & w' & Hu).
    exists r, w'. split; [exact Hu|].
    unfold update_dns in Hu. rewrite Hrc in Hu. simpl in Hu.
    destruct (merge_configs w) as [rc|]; [|discriminate].
    pose proof (update_plugin_carries e nc w) as Hpc.
    assert (Hplug : Forall leaves_resconf (fst (update_plugin e nc w))).
    { unfold update_plugin. repeat break_if; simpl; repeat constructor. }
    destruct (update_plugin e nc w) as [evp caching]. simpl in Hplug.
    unfold dispatch_backend in Hu.
    set (s' := strv (limit_searches _)) in *.
    set (n' := if caching then _ else _) in *.
    set (o' := strv (options rc)) in *.
    assert (Hall' : Forall leaves_resconf
               (fst (update_resolv_conf e s' n' o' NM_DNS_MANAGER_RESOLV_CONF_MAN_SYMLINK))
             /\ snd (update_resolv_conf e s' n' o' NM_DNS_MANAGER_RESOLV_CONF_MAN_SYMLINK)
                = (if private_copy_written e then SR_SUCCESS else SR_ERROR)).
    { unfold update_resolv_conf, private_copy_written. rewrite Hlink. simpl.
      destruct (fopen_tmp_ok e), (fprintf_tmp_ok e), (fclose_tmp_ok e), (rename_my_ok e);
        simpl; split; try reflexivity; repeat constructor. }
    destruct Hall' as [Hf' Hr'].
    destruct (update_resolv_conf e s' n' o' NM_DNS_MANAGER_RESOLV_CONF_MAN_SYMLINK)
      as [evb res]. simpl in Hf', Hr'. subst res.
    destruct (private_copy_written e); simpl in Hu;
      inversion Hu; subst; clear Hu;
      (split; [|reflexivity]);
      unfold new_events; simpl; rewrite skipn_app, skipn_all, Nat.sub_diag; simpl;
      constructor; simpl; auto;
      repeat (apply Forall_app; split); auto;
      try (destruct (timer (plugin_ratelimit (priv w)) =? 0); repeat constructor);
      repeat constructor.
Qed.

End ForeignSymlink.

(** Witness of [foreign_symlink_untouched]: a symlink to the file of
    systemd-resolved, the run directory writable. *)
Lemma foreign_symlink_untouched_witness :
  @foreign_symlink Examples.E_soup SymlinkExample.env_foreign
  /\ snd (@update_resolv_conf Examples.E_soup SymlinkExample.env_foreign
            (Some ["example.org"]) (Some ["1.1.1.1"]) None
            NM_DNS_MANAGER_RESOLV_CONF_MAN_SYMLINK) = SR_SUCCESS.
Proof.
  assert (Hf : @foreign_symlink Examples.E_soup SymlinkExample.env_foreign).
  { split; [reflexivity|]. right. split; reflexivity. }
  split; [exact Hf|].
  destruct (@foreign_symlink_untouched Examples.E_soup SymlinkExample.env_foreign
              (Some ["example.org"]) (Some ["1.1.1.1"]) None Hf) as (_ & H & _).
  rewrite (H eq_refl). reflexivity.
Defined.

(** Counterexample to C8 as stated: the symlink is foreign and the
    temporary file of the private copy cannot be opened;
    [update_resolv_conf] returns [SR_ERROR]. *)
Lemma foreign_symlink_may_fail : ~ @foreign_symlink_succeeds Examples.E_soup.
Proof.
  intros H.
  assert (Hf : @foreign_symlink Examples.E_soup SymlinkExample.env_foreign_readonly).
  { split; [reflexivity|]. right. split; reflexivity. }
  specialize (H SymlinkExample.env_foreign_readonly None None None Hf).
  discriminate H.
Qed.

(** ** Detaching what is not attached *)

Lemma g_slist_find_false {A} (eqb : A -> A -> bool) (l : list A) (x : A) :
  (forall a b, eqb a b = true <-> a = b) ->
  ~ In x l -> g_slist_find eqb l x = false.
Proof.
  intros Heqb Hn. unfold g_slist_find. apply not_true_iff_false.
  rewrite existsb_exists. intros [y [Hy Hxy]]. apply Heqb in Hxy. now subst.
Qed.

Lemma gpointer_eqb_eq (a b : gpointer) : gpointer_eqb a b = true <-> a = b.
Proof.
  destruct a, b; simpl; rewrite ?Nat.eqb_eq; split; intros H;
    try discriminate; try congruence.
Qed.

Section Detach.
Context {E : Externals}.

(** C9. Removing an IPv4 (IPv6) config that is neither in
    [priv->configs] nor among the IPv4 (IPv6) VPN configs returns
    FALSE and leaves the world as it was: no list, no device config,
    no other field of the manager changes, nothing is logged and no
    commit runs. *)
Theorem remove_unattached (e : Env) (c : ptr) (w : World) :
  (~ In (Ref4 c) (configs (priv w)) -> ~ In c (ip4_vpn_configs (priv w)) ->
   nm_dns_manager_remove_ip4_config e (Some c) w = Some (false, w))
  /\ (~ In (Ref6 c) (configs (priv w)) -> ~ In c (ip6_vpn_configs (priv w)) ->
      nm_dns_manager_remove_ip6_config e (Some c) w = Some (false, w)).
Proof.
  split; intros H1 H2.
  - unfold nm_dns_manager_remove_ip4_config.
    rewrite (@g_slist_find_false _ _ _ _ gpointer_eqb_eq H1).
    now rewrite (@g_slist_find_false _ _ _ _ Nat.eqb_eq H2).
  - unfold nm_dns_manager_remove_ip6_config.
    rewrite (@g_slist_find_false _ _ _ _ gpointer_eqb_eq H1).
    now rewrite (@g_slist_find_false _ _ _ _ Nat.eqb_eq H2).
Qed.

End Detach.

(** Witness of [remove_unattached]: config 7 was never attached to
    the manager that holds the device config 1. *)
Lemma remove_unattached_witness :
  ~ In (Ref4 7%nat) (configs (priv PluginExample.dnsmasq_lan))
  /\ ~ In 7%nat (ip4_vpn_configs (priv PluginExample.dnsmasq_lan))
  /\ @nm_dns_manager_remove_ip4_config Examples.E_soup Concrete.env_ok (Some 7%nat)
       PluginExample.dnsmasq_lan
     = Some (false, PluginExample.dnsmasq_lan).
Proof.
  assert (H1 : ~ In (Ref4 7%nat) (configs (priv PluginExample.dnsmasq_lan))).
  { simpl. intros [H | []]. discriminate H. }
  assert (H2 : ~ In 7%nat (ip4_vpn_configs (priv PluginExample.dnsmasq_lan))).
  { simpl. intros []. }
  split; [exact H1|]. split; [exact H2|].
  exact (proj1 (@remove_unattached Examples.E_soup Concrete.env_ok 7%nat
                  PluginExample.dnsmasq_lan) H1 H2).
Defined.

(** ** The two hostname setters *)

Section Hostname.
Context {E : Externals}.

Lemma update_dns_commits e nc w r w' :
  update_dns e nc w = Some (r, w') -> commits (new_events w w') = 1%nat.
Proof.
  intros Hu. destruct (update_dns_hands _ _ _ Hu) as (rc & evs & _ & Hlog & Hcar & _).
  rewrite (new_events_app _ _ _ Hlog). unfold commits. simpl.
  fold (commits evs). now rewrite (carries_no_commit Hcar).
Qed.

Lemma option_string_eqb_eq (a b : option string) :
  option_string_eqb a b = true <-> a = b.
Proof.
  destruct a, b; simpl; rewrite ?String.eqb_eq; split; intros H;
    try discriminate; congruence.
Qed.

(** C10. [nm_dns_manager_set_initial_hostname] stores its argument as
    it is, whatever the filter would say, and logs nothing, in or out
    of a transaction.  [nm_dns_manager_set_hostname] keeps a name only
    if it is specific, has no ".in-addr.arpa" in it and has a dot, and
    takes NULL otherwise; when the filtered value is the stored one it
    returns with the world unchanged; otherwise it stores the filtered
    value and, outside a transaction, commits once at once; inside a
    transaction it commits nothing. *)
Theorem hostname_setters (e : Env) (name : option string) (w : World) :
  (hostname (priv (nm_dns_manager_set_initial_hostname name w)) = name
   /\ log (nm_dns_manager_set_initial_hostname name w) = log w
   /\ updates_queue (priv (nm_dns_manager_set_initial_hostname name w))
      = updates_queue (priv w)
   /\ hash (priv (nm_dns_manager_set_initial_hostname name w)) = hash (priv w))
  /\ (forall h,
        filter_hostname (Some h)
        = if nm_utils_is_specific_hostname h
             && negb (strstr h ".in-addr.arpa")
             && match strchr h "."%char with Some _ => true | None => false end
          then Some h else None)
  /\ filter_hostname None = None
  /\ (hostname (priv w) = filter_hostname name ->
      nm_dns_manager_set_hostname e name w = Some w)
  /\ (hostname (priv w) <> filter_hostname name ->
      updates_queue (priv w) <> 0 ->
      nm_dns_manager_set_hostname e name w
      = Some (set_priv w (set_hostname (priv w) (filter_hostname name))))
  /\ (hostname (priv w) <> filter_hostname name ->
      updates_queue (priv w) = 0 ->
      asserts_hold w ->
      exists r w',
        update_dns e false (set_priv w (set_hostname (priv w) (filter_hostname name)))
        = Some (r, w')
        /\ nm_dns_manager_set_hostname e name w = Some w'
        /\ hostname (priv w') = filter_hostname name
        /\ commits (new_events w w') = 1%nat).
Proof.
  assert (Hsame : (match hostname (priv w), filter_hostname name with
                   | None, None => true
                   | Some old, Some new => String.eqb old new
                   | _, _ => false
                   end) = option_string_eqb (hostname (priv w)) (filter_hostname name))
    by reflexivity.
  split; [repeat split|]. split; [reflexivity|]. split; [reflexivity|].
  split; [|split].
  - intros Heq. unfold nm_dns_manager_set_hostname. rewrite Hsame.
    apply option_string_eqb_eq in Heq. now rewrite Heq.
  - intros Hne Hq. unfold nm_dns_manager_set_hostname. rewrite Hsame.
    destruct (option_string_eqb _ _) eqn:Heq.
    + apply option_string_eqb_eq in Heq. contradiction.
    + unfold commit_unless_queued. simpl.
      apply Z.eqb_neq in Hq. now rewrite Hq.
  - intros Hne Hq Hw.
    set (w1 := set_priv w (set_hostname (priv w) (filter_hostname name))).
    assert (Hw1 : asserts_hold w1) by exact Hw.
    destruct (update_dns_returns e false Hw1) as (r & w' & Hu).
    exists r, w'. split; [exact Hu|]. split; [|split].
    + unfold nm_dns_manager_set_hostname. rewrite Hsame.
      destruct (option_string_eqb _ _) eqn:Heq.
      * apply option_string_eqb_eq in Heq. contradiction.
      * unfold commit_unless_queued. fold w1.
        replace (updates_queue (priv w1)) with (updates_queue (priv w)) by reflexivity.
        rewrite Hq. simpl. now rewrite Hu.
    + destruct (update_dns_priv _ _ _ Hu) as [-> _]. reflexivity.
    + exact (update_dns_commits _ _ _ Hu).
Qed.

End Hostname.

(** Witness of [hostname_setters]: "localhost" is stored by the
    initial setter on a fresh manager, and setting "host.example.com"
    afterwards commits once. *)
Lemma hostname_setters_witness :
  hostname (priv (nm_dns_manager_set_initial_hostname (Some "localhost")
                    (Examples.fresh Examples.E_soup)))
  = Some "localhost"
  /\ @filter_hostname Examples.E_soup (Some "localhost") = None
  /\ exists w',
       @nm_dns_manager_set_hostname Examples.E_soup Concrete.env_ok
         (Some "host.example.com") (Examples.fresh Examples.E_soup) = Some w'
       /\ hostname (priv w') = Some "host.example.com"
       /\ commits (new_events (Examples.fresh Examples.E_soup) w') = 1%nat.
Proof.
  split; [reflexivity|]. split; [reflexivity|].
  destruct (@hostname_setters Examples.E_soup Concrete.env_ok (Some "host.example.com")
              (Examples.fresh Examples.E_soup)) as (_ & _ & _ & _ & _ & H).
  assert (Hne : hostname (priv (Examples.fresh Examples.E_soup))
                <> @filter_hostname Examples.E_soup (Some "host.example.com")).
  { discriminate. }
  assert (Hw : @asserts_hold (Examples.fresh Examples.E_soup)).
  { split; [discriminate | intros g Hg; discriminate Hg]. }
  destruct (H Hne eq_refl Hw) as (r & w' & _ & Hset & Hh & Hc).
  exists w'. split; [exact Hset|]. split; [exact Hh | exact Hc].
Defined.

(** ** Restarting the plugin's child *)

Lemma timeouts_app (a b : list event) : timeouts (a ++ b) = (timeouts a + timeouts b)%nat.
Proof. unfold timeouts. now rewrite filter_app, length_app. Qed.

Lemma carries_no_timeout s n o (evs : list event) :
  Forall (carries s n o) evs -> timeouts evs = 0%nat.
Proof.
  unfold timeouts. induction 1 as [|ev evs Hev _ IH]; simpl; [reflexivity|].
  destruct ev; simpl in *; try assumption; contradiction.
Qed.

Section Restart.
Context {E : Externals}.

(** One commit, as [plugin_child_quit_update_dns] runs it. *)
Lemma child_quit_update e w :
  asserts_hold w ->
  exists w' evs,
    plugin_child_quit_update_dns e w = Some w'
    /\ log w' = log w ++ evs
    /\ commits evs = 1%nat
    /\ timeouts evs = 0%nat
    /\ ts (plugin_ratelimit (priv w')) = ts (plugin_ratelimit (priv w))
    /\ num_restarts (plugin_ratelimit (priv w')) = num_restarts (plugin_ratelimit (priv w))
    /\ asserts_hold w'.
Proof.
  intros Hw. destruct (update_dns_returns e false Hw) as (r & w' & Hu).
  destruct (update_dns_hands _ _ _ Hu) as (rc & evs & _ & Hlog & Hcar & _).
  destruct (update_dns_priv _ _ _ Hu) as (Hp & _ & _ & _ & Hg).
  exists w', (EvUpdateDns false :: evs).
  unfold plugin_child_quit_update_dns. rewrite Hu.
  split; [reflexivity|]. split; [exact Hlog|].
  split; [unfold commits; simpl; fold (commits evs);
          now rewrite (carries_no_commit Hcar)|].
  split; [unfold timeouts; simpl; fold (timeouts evs);
          now rewrite (carries_no_timeout Hcar)|].
  rewrite Hp. split; [reflexivity|]. split; [reflexivity|].
  destruct Hw as [H1 H2]. split; [rewrite Hp; exact H1 | now rewrite Hg].
Qed.

(** A death that opens a window: none was open, or the open one is
    more than thirty whole seconds old. *)
Lemma child_quit_opens e now w :
  asserts_hold w ->
  0 <= now < 2 ^ 64 ->
  ts (plugin_ratelimit (priv w)) = 0
  \/ PLUGIN_RATELIMIT_INTERVAL < guint64 (now - ts (plugin_ratelimit (priv w))) / 1000 ->
  exists w' evs,
    plugin_child_quit e now w = Some w'
    /\ log w' = log w ++ evs
    /\ commits evs = 1%nat
    /\ timeouts evs = 0%nat
    /\ ts (plugin_ratelimit (priv w')) = now
    /\ num_restarts (plugin_ratelimit (priv w')) = 0
    /\ asserts_hold w'.
Proof.
  intros Hw Hnow Hopen. unfold plugin_child_quit.
  assert (Hc : (ts (plugin_ratelimit (priv w)) =? 0)
               || (PLUGIN_RATELIMIT_INTERVAL
                   <? guint64 (now - ts (plugin_ratelimit (priv w))) / 1000) = true).
  { apply orb_true_iff. destruct Hopen as [H | H].
    - left. now apply Z.eqb_eq.
    - right. now apply Z.ltb_lt. }
  rewrite Hc.
  match goal with
  | |- context [plugin_child_quit_update_dns e ?w1] =>
      destruct (@child_quit_update e w1 Hw) as (w' & evs & H1 & H2 & H3 & H4 & H5 & H6 & H7)
  end.
  exists w', evs. simpl in *.
  split; [exact H1|]. split; [exact H2|]. split; [exact H3|]. split; [exact H4|].
  split; [|split; [exact H6 | exact H7]].
  rewrite H5. unfold guint64. apply Z.mod_small. lia.
Qed.

(** A death inside the window with the burst not yet used up. *)
Lemma child_quit_inside e now w :
  asserts_hold w ->
  0 < ts (plugin_ratelimit (priv w)) ->
  ts (plugin_ratelimit (priv w)) <= now < ts (plugin_ratelimit (priv w)) + 31000 ->
  0 <= num_restarts (plugin_ratelimit (priv w)) < PLUGIN_RATELIMIT_BURST ->
  exists w' evs,
    plugin_child_quit e now w = Some w'
    /\ log w' = log w ++ evs
    /\ commits evs = 1%nat
    /\ timeouts evs = 0%nat
    /\ ts (plugin_ratelimit (priv w')) = ts (plugin_ratelimit (priv w))
    /\ num_restarts (plugin_ratelimit (priv w'))
       = num_restarts (plugin_ratelimit (priv w)) + 1
    /\ asserts_hold w'.
Proof.
  intros Hw Hts Hnow Hn. unfold plugin_child_quit, PLUGIN_RATELIMIT_BURST in *.
  assert (Hdiff : guint64 (now - ts (plugin_ratelimit (priv w))) / 1000 <= 30).
  { unfold guint64. rewrite Z.mod_small by lia.
    apply Z.lt_succ_r. apply Z.div_lt_upper_bound; lia. }
  assert (Hc : (ts (plugin_ratelimit (priv w)) =? 0)
               || (PLUGIN_RATELIMIT_INTERVAL
                   <? guint64 (now - ts (plugin_ratelimit (priv w))) / 1000) = false).
  { apply orb_false_iff. split; [apply Z.eqb_neq; lia | apply Z.ltb_ge; exact Hdiff]. }
  rewrite Hc.
  assert (Hg : guint (num_restarts (plugin_ratelimit (priv w)) + 1)
               = num_restarts (plugin_ratelimit (priv w)) + 1).
  { unfold guint. apply Z.mod_small. lia. }
  rewrite Hg.
  assert (Hb : (5 <? num_restarts (plugin_ratelimit (priv w)) + 1) = false)
    by (apply Z.ltb_ge; lia).
  rewrite Hb.
  match goal with
  | |- context [plugin_child_quit_update_dns e ?w1] =>
      destruct (@child_quit_update e w1 Hw) as (w' & evs & H1 & H2 & H3 & H4 & H5 & H6 & H7)
  end.
  exists w', evs. simpl in *.
  split; [exact H1|]. split; [exact H2|]. split; [exact H3|]. split; [exact H4|].
  split; [exact H5|]. split; [exact H6 | exact H7].
Qed.

(** A death inside the window with the burst used up. *)
Lemma child_quit_over e now w :
  0 < ts (plugin_ratelimit (priv w)) ->
  ts (plugin_ratelimit (priv w)) <= now < ts (plugin_ratelimit (priv w)) + 31000 ->
  PLUGIN_RATELIMIT_BURST <= num_restarts (plugin_ratelimit (priv w)) < 2 ^ 32 - 1 ->
  exists w',
    plugin_child_quit e now w = Some w'
    /\ log w' = log w ++ [EvTimeoutAddSeconds PLUGIN_RATELIMIT_DELAY (timeout_source_id e)]
    /\ timer (plugin_ratelimit (priv w')) = timeout_source_id e
    /\ ts (plugin_ratelimit (priv w')) = ts (plugin_ratelimit (priv w))
    /\ num_restarts (plugin_ratelimit (priv w'))
       = num_restarts (plugin_ratelimit (priv w)) + 1.
Proof.
  intros Hts Hnow Hn. unfold plugin_child_quit, PLUGIN_RATELIMIT_BURST in *.
  assert (Hdiff : guint64 (now - ts (plugin_ratelimit (priv w))) / 1000 <= 30).
  { unfold guint64. rewrite Z.mod_small by lia.
    apply Z.lt_succ_r. apply Z.div_lt_upper_bound; lia. }
  assert (Hc : (ts (plugin_ratelimit (priv w)) =? 0)
               || (PLUGIN_RATELIMIT_INTERVAL
                   <? guint64 (now - ts (plugin_ratelimit (priv w))) / 1000) = false).
  { apply orb_false_iff. split; [apply Z.eqb_neq; lia | apply Z.ltb_ge; exact Hdiff]. }
  rewrite Hc.
  assert (Hg : guint (num_restarts (plugin_ratelimit (priv w)) + 1)
               = num_restarts (plugin_ratelimit (priv w)) + 1).
  { unfold guint. apply Z.mod_small. lia. }
  rewrite Hg.
  assert (Hb : (5 <? num_restarts (plugin_ratelimit (priv w)) + 1) = true)
    by (apply Z.ltb_lt; lia).
  rewrite Hb. eexists. split; [reflexivity|]. simpl. repeat split.
Qed.

(** Deaths inside the window, as long as the burst lasts: each one
    commits at once. *)
Lemma deaths_inside (deaths : list (Env * Z)) :
  forall w,
    asserts_hold w ->
    0 < ts (plugin_ratelimit (priv w)) ->
    in_window (ts (plugin_ratelimit (priv w))) deaths ->
    0 <= num_restarts (plugin_ratelimit (priv w)) ->
    num_restarts (plugin_ratelimit (priv w)) + Z.of_nat (List.length deaths)
    <= PLUGIN_RATELIMIT_BURST ->
    exists w' evs,
      child_deaths deaths w = Some w'
      /\ log w' = log w ++ evs
      /\ commits evs = List.length deaths
      /\ timeouts evs = 0%nat
      /\ ts (plugin_ratelimit (priv w')) = ts (plugin_ratelimit (priv w))
      /\ num_restarts (plugin_ratelimit (priv w'))
         = num_restarts (plugin_ratelimit (priv w)) + Z.of_nat (List.length deaths)
      /\ asserts_hold w'.
Proof.
  induction deaths as [|[e now] deaths IH]; intros w Hw Hts Hwin Hn0 Hn.
  - exists w, []. simpl. rewrite app_nil_r, Z.add_0_r. repeat split; try reflexivity.
    + apply Hw.
    + apply Hw.
  - inversion Hwin as [|d ds Hd Hds]; subst. simpl in Hd.
    simpl List.length in *. rewrite Nat2Z.inj_succ in *.
    destruct (@child_quit_inside e now w Hw Hts Hd)
      as (w1 & evs1 & Hq & Hlog1 & Hc1 & Ht1 & Hts1 & Hn1 & Hw1);
      [unfold PLUGIN_RATELIMIT_BURST in *; lia|].
    destruct (IH w1 Hw1) as (w2 & evs2 & Hq2 & Hlog2 & Hc2 & Ht2 & Hts2 & Hn2 & Hw2).
    + rewrite Hts1. exact Hts.
    + rewrite Hts1. exact Hds.
    + lia.
    + lia.
    + exists w2, (evs1 ++ evs2). simpl. rewrite Hq.
      split; [exact Hq2|].
      split; [rewrite Hlog2, Hlog1; symmetry; apply app_assoc|].
      rewrite commits_app, timeouts_app, Hc1, Hc2, Ht1, Ht2, Hts2, Hts1, Hn2, Hn1.
      split; [reflexivity|]. split; [reflexivity|]. split; [reflexivity|].
      split; [lia | exact Hw2].
Qed.

(** C4, amended.  A death that finds no window open, or one opened
    31 seconds or more before (more than 30 whole seconds), opens a
    window and commits at once.  Inside the window the five deaths
    that follow commit at once as well, so six deaths in a row mean
    six immediate commits and no deferred retry; it is the seventh
    death inside the window that commits nothing and schedules one
    retry, 300 seconds later. *)
Theorem restart_rate_limit (w : World) (e0 : Env) (t0 : Z) (more : list (Env * Z))
    (e7 : Env) (t7 : Z) :
  asserts_hold w ->
  ts (plugin_ratelimit (priv w)) = 0
  \/ PLUGIN_RATELIMIT_INTERVAL < guint64 (t0 - ts (plugin_ratelimit (priv w))) / 1000 ->
  0 < t0 < 2 ^ 64 ->
  List.length more = 5%nat ->
  in_window t0 more ->
  t0 <= t7 < t0 + 31000 ->
  (exists w6 evs6 w7,
     child_deaths ((e0, t0) :: more) w = Some w6
     /\ log w6 = log w ++ evs6
     /\ commits evs6 = 6%nat
     /\ timeouts evs6 = 0%nat
     /\ plugin_child_quit e7 t7 w6 = Some w7
     /\ log w7 = log w6 ++ [EvTimeoutAddSeconds 300 (timeout_source_id e7)]
     /\ timer (plugin_ratelimit (priv w7)) = timeout_source_id e7)
  /\ (forall w0 e now,
        asserts_hold w0 ->
        0 < ts (plugin_ratelimit (priv w0)) ->
        ts (plugin_ratelimit (priv w0)) + 31000 <= now < 2 ^ 64 ->
        exists w' evs,
          plugin_child_quit e now w0 = Some w'
          /\ log w' = log w0 ++ evs
          /\ commits evs = 1%nat
          /\ timeouts evs = 0%nat
          /\ ts (plugin_ratelimit (priv w')) = now
          /\ num_restarts (plugin_ratelimit (priv w')) = 0).
Proof.
  intros Hw Hopen Ht0 Hlen Hwin Ht7. split.
  - destruct (@child_quit_opens e0 t0 w Hw ltac:(lia) Hopen)
      as (w1 & evs1 & Hq1 & Hlog1 & Hc1 & Hto1 & Hts1 & Hn1 & Hw1).
    destruct (@deaths_inside more w1 Hw1) as (w6 & evs & Hq & Hlog & Hc & Hto & Hts & Hn & Hw6).
    + rewrite Hts1. lia.
    + rewrite Hts1. exact Hwin.
    + rewrite Hn1. lia.
    + rewrite Hn1, Hlen. unfold PLUGIN_RATELIMIT_BURST. lia.
    + destruct (@child_quit_over e7 t7 w6) as (w7 & Hq7 & Hlog7 & Htimer & _).
      * rewrite Hts, Hts1. lia.
      * rewrite Hts, Hts1. exact Ht7.
      * rewrite Hn, Hn1, Hlen. unfold PLUGIN_RATELIMIT_BURST. simpl. lia.
      * exists w6, (evs1 ++ evs), w7. simpl. rewrite Hq1.
        split; [exact Hq|].
        split; [rewrite Hlog, Hlog1; symmetry; apply app_assoc|].
        rewrite commits_app, timeouts_app, Hc1, Hc, Hto1, Hto, Hlen.
        split; [reflexivity|]. split; [reflexivity|].
        split; [exact Hq7|]. split; [exact Hlog7 | exact Htimer].
  - intros w0 e now Hw0 Hts0 Hnow.
    destruct (@child_quit_opens e now w0 Hw0 ltac:(lia))
      as (w' & evs & H1 & H2 & H3 & H4 & H5 & H6 & _).
    + right. unfold guint64, PLUGIN_RATELIMIT_INTERVAL. rewrite Z.mod_small by lia.
      apply Z.lt_le_trans with (m := 31); [lia|].
      apply Z.div_le_lower_bound; lia.
    + exists w', evs. repeat split; assumption.
Qed.

End Restart.

(** Witness of [restart_rate_limit]: dnsmasq's child dies every
    second from second 1 to second 7. *)
Lemma restart_rate_limit_witness :
  @asserts_hold (Examples.fresh_dnsmasq Examples.E_soup)
  /\ ts (plugin_ratelimit (priv (Examples.fresh_dnsmasq Examples.E_soup))) = 0
  /\ in_window 1000 (tl RestartExample.six_deaths)
  /\ exists w6 w7,
       @child_deaths Examples.E_soup RestartExample.six_deaths
         (Examples.fresh_dnsmasq Examples.E_soup) = Some w6
       /\ commits (new_events (Examples.fresh_dnsmasq Examples.E_soup) w6) = 6%nat
       /\ @plugin_child_quit Examples.E_soup Concrete.env_ok 7000 w6 = Some w7
       /\ new_events w6 w7 = [EvTimeoutAddSeconds 300 77].
Proof.
  assert (Hw : @asserts_hold (Examples.fresh_dnsmasq Examples.E_soup)).
  { split; [discriminate | intros g Hg; discriminate Hg]. }
  assert (Hwin : in_window 1000 (tl RestartExample.six_deaths)).
  { repeat constructor; simpl; lia. }
  split; [exact Hw|]. split; [reflexivity|]. split; [exact Hwin|].
  destruct (@restart_rate_limit Examples.E_soup (Examples.fresh_dnsmasq Examples.E_soup)
              Concrete.env_ok 1000 (tl RestartExample.six_deaths) Concrete.env_ok 7000
              Hw (or_introl eq_refl) ltac:(lia) eq_refl Hwin ltac:(lia))
    as [(w6 & evs6 & w7 & Hq & Hlog & Hc & _ & Hq7 & Hlog7 & _) _].
  exists w6, w7. split; [exact Hq|].
  split; [rewrite (new_events_app _ _ _ Hlog); exact Hc|].
  split; [exact Hq7|]. exact (new_events_app _ _ _ Hlog7).
Defined.

(** Counterexample to C4 as stated: dnsmasq's child dies six times,
    one second apart; the manager commits six times and schedules no
    retry. *)
Lemma six_deaths_respawn : ~ @six_deaths_defer Examples.E_soup.
Proof.
  intros H.
  assert (Hw : @asserts_hold (Examples.fresh_dnsmasq Examples.E_soup)).
  { split; [discriminate | intros g Hg; discriminate Hg]. }
  destruct (@child_deaths Examples.E_soup RestartExample.six_deaths
              (Examples.fresh_dnsmasq Examples.E_soup)) as [w'|] eqn:Hd;
    [|vm_compute in Hd; discriminate Hd].
  assert (Hin : Forall (fun d : Env * Z => 1000 <= snd d < 1000 + 10000)
                       RestartExample.six_deaths).
  { repeat constructor; simpl; lia. }
  destruct (H (Examples.fresh_dnsmasq Examples.E_soup) RestartExample.six_deaths w' 1000
              Hw eq_refl eq_refl ltac:(lia) Hin Hd) as [Ht _].
  vm_compute in Hd. inversion Hd; subst w'; clear Hd.
  vm_compute in Ht. discriminate Ht.
Qed.

(** ** Transactions *)

Ltac inside_add :=
  match goal with
  | |- context [if g_slist_find ?eqb ?l ?x then _ else _] =>
      destruct (g_slist_find eqb l x)
  end.

Section Transactions.
Context {E : Externals}.

Lemma new_events_same (w w' : World) : log w' = log w -> new_events w w' = [].
Proof.
  intros H. apply new_events_app. now rewrite app_nil_r.
Qed.

Lemma commit_unless_queued_inside e w :
  updates_queue (priv w) <> 0 -> commit_unless_queued e w = Some w.
Proof.
  intros H. unfold commit_unless_queued. apply Z.eqb_neq in H. now rewrite H.
Qed.

Lemma same_transaction_asserts w w' :
  same_transaction w w' -> asserts_hold w -> asserts_hold w'.
Proof.
  intros (_ & _ & Hr & Hg) [H1 H2]. split; [now rewrite Hr | now rewrite Hg].
Qed.

(** Inside a transaction the mutating calls commit nothing and leave
    the counter and the saved fingerprint alone. *)
Lemma mutation_inside (c : call) (w w' : World) :
  0 < updates_queue (priv w) ->
  match c with
  | BeginUpdates | EndUpdates _ => False
  | _ => True
  end ->
  do_call c w = Some w' ->
  same_transaction w w' /\ updates_queue (priv w') = updates_queue (priv w).
Proof.
  intros Hq Hc H. unfold same_transaction.
  destruct c; try contradiction; simpl in H.
  - unfold nm_dns_manager_add_ip4_config in H.
    rewrite commit_unless_queued_inside in H
      by (destruct cfg_type; simpl; repeat inside_add; simpl; lia).
    inversion H; subst; clear H.
    destruct cfg_type; simpl; repeat inside_add; simpl; auto.
  - unfold nm_dns_manager_remove_ip4_config in H.
    destruct (g_slist_find gpointer_eqb (configs (priv w)) (Ref4 config)).
    + rewrite commit_unless_queued_inside in H
        by (simpl; destruct (ip4_device_config (priv w)) as [d|];
            [destruct (Nat.eqb config d)|]; simpl; lia).
      inversion H; subst; clear H.
      simpl; destruct (ip4_device_config (priv w)) as [d|];
        [destruct (Nat.eqb config d)|]; simpl; auto.
    + destruct (g_slist_find Nat.eqb (ip4_vpn_configs (priv w)) config).
      * rewrite commit_unless_queued_inside in H by (simpl; lia).
        inversion H; subst; clear H. simpl. auto.
      * inversion H; subst; clear H. auto.
  - unfold nm_dns_manager_add_ip6_config in H.
    rewrite commit_unless_queued_inside in H
      by (destruct cfg_type; simpl; repeat inside_add; simpl; lia).
    inversion H; subst; clear H.
    destruct cfg_type; simpl; repeat inside_add; simpl; auto.
  - unfold nm_dns_manager_remove_ip6_config in H.
    destruct (g_slist_find gpointer_eqb (configs (priv w)) (Ref6 config)).
    + rewrite commit_unless_queued_inside in H
        by (simpl; destruct (ip6_device_config (priv w)) as [d|];
            [destruct (Nat.eqb config d)|]; simpl; lia).
      inversion H; subst; clear H.
      simpl; destruct (ip6_device_config (priv w)) as [d|];
        [destruct (Nat.eqb config d)|]; simpl; auto.
    + destruct (g_slist_find Nat.eqb (ip6_vpn_configs (priv w)) config).
      * rewrite commit_unless_queued_inside in H by (simpl; lia).
        inversion H; subst; clear H. simpl. auto.
      * inversion H; subst; clear H. auto.
  - unfold nm_dns_manager_set_hostname in H.
    destruct (match hostname (priv w) with Some _ => _ | None => _ end).
    + inversion H; subst; clear H. auto.
    + rewrite commit_unless_queued_inside in H by (simpl; lia).
      inversion H; subst; clear H. simpl. auto.
  - inversion H; subst; clear H. simpl. auto.
Qed.

Lemma begin_inside (w : World) :
  0 < updates_queue (priv w) ->
  same_transaction w (nm_dns_manager_begin_updates w)
  /\ updates_queue (priv (nm_dns_manager_begin_updates w))
     = guint (updates_queue (priv w) + 1).
Proof.
  intros Hq. unfold nm_dns_manager_begin_updates, same_transaction.
  assert (H : (updates_queue (priv w) =? 0) = false) by (apply Z.eqb_neq; lia).
  rewrite H. simpl. auto.
Qed.

Lemma begin_outside (w : World) :
  updates_queue (priv w) = 0 ->
  log (nm_dns_manager_begin_updates w) = log w
  /\ prev_hash (priv (nm_dns_manager_begin_updates w)) = hash (priv w)
  /\ updates_queue (priv (nm_dns_manager_begin_updates w)) = 1
  /\ rc_manager (priv (nm_dns_manager_begin_updates w)) = rc_manager (priv w)
  /\ global_dns_config (nm_dns_manager_begin_updates w) = global_dns_config w.
Proof.
  intros Hq. unfold nm_dns_manager_begin_updates. rewrite Hq. simpl.
  rewrite Hq. repeat split.
Qed.

(** [end_updates] with the counter above zero: a commit exactly when
    the call closes the transaction with a change. *)
Lemma end_inside (e : Env) (w : World) :
  0 < updates_queue (priv w) ->
  asserts_hold w ->
  exists w',
    nm_dns_manager_end_updates e w = Some w'
    /\ updates_queue (priv w') = updates_queue (priv w) - 1
    /\ if closes_changed (EndUpdates e) w
       then commits (new_events w w') = 1%nat
            /\ prev_hash (priv w') = zero_hash
            /\ exists r wc,
                 update_dns e false
                   (set_priv w (set_updates_queue (priv w) (updates_queue (priv w) - 1)))
                 = Some (r, wc)
                 /\ w' = set_priv wc (set_prev_hash (priv wc) zero_hash)
       else same_transaction w w'.
Proof.
  intros Hq Hw. unfold nm_dns_manager_end_updates, closes_changed.
  assert (H : negb (0 <? updates_queue (priv w)) = false)
    by (apply negb_false_iff, Z.ltb_lt; exact Hq).
  rewrite H. cbv zeta.
  set (changed := hash_differs _ _).
  set (w1 := set_priv w (set_updates_queue (priv w) (updates_queue (priv w) - 1))).
  change (updates_queue (priv w1)) with (updates_queue (priv w) - 1).
  destruct (updates_queue (priv w) =? 1) eqn:Hone.
  - apply Z.eqb_eq in Hone.
    replace (0 <? updates_queue (priv w) - 1) with false
      by (symmetry; apply Z.ltb_ge; lia).
    destruct changed; simpl.
    + assert (Hw1 : asserts_hold w1) by exact Hw.
      destruct (update_dns_returns e false Hw1) as (r & wc & Hu). rewrite Hu.
      eexists. split; [reflexivity|]. split.
      * simpl. destruct (update_dns_priv _ _ _ Hu) as [-> _]. reflexivity.
      * split; [|split; [reflexivity | eauto]].
        pose proof (update_dns_commits _ _ _ Hu) as Hc.
        unfold new_events in *. exact Hc.
    + exists w1. repeat split.
  - apply Z.eqb_neq in Hone.
    replace (0 <? updates_queue (priv w) - 1) with true
      by (symmetry; apply Z.ltb_lt; lia).
    simpl. exists w1. repeat split.
Qed.

Lemma run_app (a b : list call) (w : World) :
  run (a ++ b) w = match run a w with
                   | Some w' => run b w'
                   | None => None
                   end.
Proof.
  revert w. induction a as [|c a IH]; intros w; simpl; [reflexivity|].
  destruct (do_call c w); [apply IH | reflexivity].
Qed.

Lemma same_transaction_trans w1 w2 w3 :
  same_transaction w1 w2 -> same_transaction w2 w3 -> same_transaction w1 w3.
Proof.
  unfold same_transaction. intros (A1 & A2 & A3 & A4) (B1 & B2 & B3 & B4).
  repeat split; congruence.
Qed.

(** A call that leaves the counter above zero commits nothing. *)
Lemma call_inside (c : call) (w w' : World) :
  0 < updates_queue (priv w) ->
  asserts_hold w ->
  do_call c w = Some w' ->
  0 < updates_queue (priv w') ->
  same_transaction w w'.
Proof.
  intros Hq Hw H Hq'. destruct c;
    try (refine (proj1 (mutation_inside _ w Hq _ H)); exact I).
  - simpl in H. inversion H; subst. apply (begin_inside _ Hq).
  - simpl in H. destruct (end_inside e Hq Hw) as (w2 & Hend & Hq2 & Hcase).
    rewrite Hend in H. inversion H; subst w2; clear H.
    unfold closes_changed in Hcase.
    destruct (updates_queue (priv w) =? 1) eqn:Hone; simpl in Hcase.
    + apply Z.eqb_eq in Hone.
      destruct (hash_differs _ _); [lia | exact Hcase].
    + exact Hcase.
Qed.

Lemma run_inside (cs : list call) :
  forall w wN,
    0 < updates_queue (priv w) ->
    asserts_hold w ->
    run cs w = Some wN ->
    stays_inside cs w ->
    same_transaction w wN.
Proof.
  induction cs as [|c cs IH]; intros w wN Hq Hw Hrun Hin; simpl in *.
  - inversion Hrun; subst. repeat split.
  - destruct (do_call c w) as [w1|] eqn:Hc; [|discriminate].
    destruct Hin as [Hq1 Hin].
    pose proof (@call_inside c w w1 Hq Hw Hc Hq1) as Hs.
    eapply same_transaction_trans; [exact Hs|].
    apply IH; try assumption. exact (@same_transaction_asserts w w1 Hs Hw).
Qed.

Lemma hash_differs_refl (a : list Z) : hash_differs a a = false.
Proof. unfold hash_differs. destruct (list_eq_dec Z.eq_dec a a); congruence. Qed.

Lemma g_slist_find_true {A} (eqb : A -> A -> bool) (l : list A) (x : A) :
  (forall a b, eqb a b = true <-> a = b) ->
  g_slist_find eqb l x = true -> In x l.
Proof.
  intros Heqb H. unfold g_slist_find in H. apply existsb_exists in H.
  destruct H as [y [Hy Hxy]]. apply Heqb in Hxy. now subst.
Qed.

Lemma in_configs_in_walk (p : NMDnsManagerPrivate) (d : gpointer) :
  In d (configs p) -> In d (walk_order p).
Proof.
  intros H. unfold walk_order, other_configs. rewrite !in_app_iff.
  destruct (is_device_config p d) eqn:Hd.
  - destruct d as [a|a]; simpl in Hd.
    + destruct (ip4_device_config p) as [b|]; [|discriminate].
      apply Nat.eqb_eq in Hd. subst. right. left. simpl. auto.
    + destruct (ip6_device_config p) as [b|]; [|discriminate].
      apply Nat.eqb_eq in Hd. subst. right. right. right. left. simpl. auto.
  - right. right. right. right. apply filter_In. split; [exact H|].
    now rewrite Hd.
Qed.

Lemma add_ip4_inside_walk e iface c t w w_att :
  0 < updates_queue (priv w) ->
  nm_dns_manager_add_ip4_config e iface (Some c) t w = Some (true, w_att) ->
  In (Ref4 c) (walk_order (priv w_att)).
Proof.
  intros Hq H. unfold nm_dns_manager_add_ip4_config in H.
  rewrite commit_unless_queued_inside in H
    by (destruct t; simpl; repeat inside_add; simpl; lia).
  inversion H; subst; clear H. simpl.
  destruct t; simpl.
  - destruct (g_slist_find gpointer_eqb (configs (priv w)) (Ref4 c)) eqn:Hf.
    + apply in_configs_in_walk. simpl.
      apply (g_slist_find_true _ _ _ gpointer_eqb_eq Hf).
    + apply in_configs_in_walk. simpl. unfold g_slist_append.
      apply in_or_app. right. now left.
  - assert (Hdev : forall p, ip4_device_config p = Some c -> In (Ref4 c) (walk_order p)).
    { intros p Hp. unfold walk_order. rewrite Hp, !in_app_iff. right. left. simpl. auto. }
    destruct (g_slist_find gpointer_eqb (configs (priv w)) (Ref4 c)); apply Hdev; reflexivity.
  - assert (Hvpn : forall p, In c (ip4_vpn_configs p) -> In (Ref4 c) (walk_order p)).
    { intros p Hp. unfold walk_order. rewrite !in_app_iff. left. now apply in_map. }
    destruct (g_slist_find Nat.eqb (ip4_vpn_configs (priv w)) c) eqn:Hf; apply Hvpn; simpl.
    + apply (g_slist_find_true _ _ _ Nat.eqb_eq Hf).
    + unfold g_slist_append. apply in_or_app. right. now left.
Qed.

(** C1, amended.  Inside a transaction a call commits exactly when it
    is the [end_updates] that takes the counter from 1 to 0 and finds
    a fingerprint other than the saved one; the saved one is
    [priv->hash] as it stood at the outermost [begin_updates], the
    fingerprint of the last commit (of construction, before any).  So
    a whole transaction commits once if the fingerprint at its end
    differs from that, and not at all otherwise.  Begin, begin, end,
    end does nothing at all provided [priv->hash] is the fingerprint
    of the configuration when the transaction starts.  Begin, attach,
    end commits exactly once, from the world that holds the new
    config, provided the attach changes the fingerprint.  Every commit
    leaves in [priv->hash] the fingerprint of the configuration it
    applied; construction leaves there the fingerprint of the empty
    configuration, global configuration or not. *)
Theorem transaction_commits :
  (forall c w,
     0 < updates_queue (priv w) -> asserts_hold w ->
     exists w',
       do_call c w = Some w'
       /\ commits (new_events w w') = (if closes_changed c w then 1 else 0)%nat)
  /\ (forall w cs wN e,
        updates_queue (priv w) = 0 -> asserts_hold w ->
        run cs (nm_dns_manager_begin_updates w) = Some wN ->
        stays_inside cs (nm_dns_manager_begin_updates w) ->
        updates_queue (priv wN) = 1 ->
        exists w',
          run (BeginUpdates :: cs ++ [EndUpdates e]) w = Some w'
          /\ prev_hash (priv wN) = hash (priv w)
          /\ commits (new_events w w')
             = (if hash_differs (compute_hash wN (global_dns_config wN)) (hash (priv w))
                then 1 else 0)%nat)
  /\ (forall w e1 e2,
        updates_queue (priv w) = 0 ->
        hash (priv w) = compute_hash w (global_dns_config w) ->
        exists w',
          run [BeginUpdates; BeginUpdates; EndUpdates e1; EndUpdates e2] w = Some w'
          /\ new_events w w' = []
          /\ updates_queue (priv w') = 0)
  /\ (forall w ea iface c t e w_att,
        updates_queue (priv w) = 0 -> asserts_hold w ->
        nm_dns_manager_add_ip4_config ea iface (Some c) t (nm_dns_manager_begin_updates w)
        = Some (true, w_att) ->
        hash_differs (compute_hash w_att (global_dns_config w_att)) (hash (priv w)) = true ->
        exists w' r wc,
          run [BeginUpdates; AddIP4 ea iface c t; EndUpdates e] w = Some w'
          /\ commits (new_events w w') = 1%nat
          /\ In (Ref4 c) (walk_order (priv w_att))
          /\ update_dns e false (set_priv w_att (set_updates_queue (priv w_att) 0))
             = Some (r, wc)
          /\ w' = set_priv wc (set_prev_hash (priv wc) zero_hash))
  /\ (forall e no_caching w r w',
        update_dns e no_caching w = Some (r, w') ->
        hash (priv w') = compute_hash w' (global_dns_config w'))
  /\ (forall global mode man immutable ip4_at ip6_at,
        hash (priv (nm_dns_manager_init global mode man immutable ip4_at ip6_at))
        = g_checksum_get_digest g_checksum_new).
Proof.
  split; [|split; [|split; [|split; [|split]]]].
  - intros c w Hq Hw. destruct c.
    + eexists. split; [reflexivity|]. simpl.
      destruct (begin_inside _ Hq) as [[Hlog _] _].
      now rewrite (new_events_same _ _ Hlog).
    + destruct (end_inside e Hq Hw) as (w' & Hend & _ & Hcase).
      exists w'. split; [exact Hend|].
      destruct (closes_changed (EndUpdates e) w).
      * apply Hcase.
      * destruct Hcase as [Hlog _]. now rewrite (new_events_same _ _ Hlog).
    + destruct (do_call (AddIP4 e iface config cfg_type) w) as [w'|] eqn:Hc.
      * exists w'. split; [reflexivity|].
        match type of Hc with
        | do_call ?c0 _ = _ => destruct (mutation_inside c0 w Hq I Hc) as [[Hlog _] _]
        end.
        now rewrite (new_events_same _ _ Hlog).
      * exfalso. simpl in Hc. unfold nm_dns_manager_add_ip4_config in Hc.
        rewrite commit_unless_queued_inside in Hc
          by (destruct cfg_type; simpl; repeat inside_add; simpl; lia).
        discriminate Hc.
    + destruct (do_call (RemoveIP4 e config) w) as [w'|] eqn:Hc.
      * exists w'. split; [reflexivity|].
        match type of Hc with
        | do_call ?c0 _ = _ => destruct (mutation_inside c0 w Hq I Hc) as [[Hlog _] _]
        end.
        now rewrite (new_events_same _ _ Hlog).
      * exfalso. simpl in Hc. unfold nm_dns_manager_remove_ip4_config in Hc.
        destruct (g_slist_find gpointer_eqb (configs (priv w)) (Ref4 config));
          [|destruct (g_slist_find Nat.eqb (ip4_vpn_configs (priv w)) config)];
          try discriminate Hc;
          rewrite commit_unless_queued_inside in Hc
            by (simpl; try (destruct (ip4_device_config (priv w)) as [d|];
                            [destruct (Nat.eqb config d)|]); simpl; lia);
          discriminate Hc.
    + destruct (do_call (AddIP6 e iface config cfg_type) w) as [w'|] eqn:Hc.
      * exists w'. split; [reflexivity|].
        match type of Hc with
        | do_call ?c0 _ = _ => destruct (mutation_inside c0 w Hq I Hc) as [[Hlog _] _]
        end.
        now rewrite (new_events_same _ _ Hlog).
      * exfalso. simpl in Hc. unfold nm_dns_manager_add_ip6_config in Hc.
        rewrite commit_unless_queued_inside in Hc
          by (destruct cfg_type; simpl; repeat inside_add; simpl; lia).
        discriminate Hc.
    + destruct (do_call (RemoveIP6 e config) w) as [w'|] eqn:Hc.
      * exists w'. split; [reflexivity|].
        match type of Hc with
        | do_call ?c0 _ = _ => destruct (mutation_inside c0 w Hq I Hc) as [[Hlog _] _]
        end.
        now rewrite (new_events_same _ _ Hlog).
      * exfalso. simpl in Hc. unfold nm_dns_manager_remove_ip6_config in Hc.
        destruct (g_slist_find gpointer_eqb (configs (priv w)) (Ref6 config));
          [|destruct (g_slist_find Nat.eqb (ip6_vpn_configs (priv w)) config)];
          try discriminate Hc;
          rewrite commit_unless_queued_inside in Hc
            by (simpl; try (destruct (ip6_device_config (priv w)) as [d|];
                            [destruct (Nat.eqb config d)|]); simpl; lia);
          discriminate Hc.
    + destruct (do_call (SetHostname e name) w) as [w'|] eqn:Hc.
      * exists w'. split; [reflexivity|].
        match type of Hc with
        | do_call ?c0 _ = _ => destruct (mutation_inside c0 w Hq I Hc) as [[Hlog _] _]
        end.
        now rewrite (new_events_same _ _ Hlog).
      * exfalso. simpl in Hc. unfold nm_dns_manager_set_hostname in Hc.
        destruct (match hostname (priv w) with Some _ => _ | None => _ end);
          [discriminate Hc|].
        rewrite commit_unless_queued_inside in Hc by (simpl; lia).
        discriminate Hc.
    + eexists. split; [reflexivity|]. simpl. now rewrite new_events_same.
  - intros w cs wN e Hq Hw Hrun Hin HqN.
    destruct (begin_outside _ Hq) as (Hlog0 & Hprev0 & Hq0 & Hrc0 & Hg0).
    assert (Hw0 : asserts_hold (nm_dns_manager_begin_updates w)).
    { destruct Hw as [H1 H2]. split; [now rewrite Hrc0 | now rewrite Hg0]. }
    assert (Hs : same_transaction (nm_dns_manager_begin_updates w) wN).
    { apply (run_inside cs); try assumption. lia. }
    pose proof (@same_transaction_asserts _ _ Hs Hw0) as HwN.
    destruct Hs as (HlogN & HprevN & _ & _).
    destruct (@end_inside e wN ltac:(lia) HwN) as (w' & Hend & _ & Hcase).
    exists w'.
    change (BeginUpdates :: cs ++ [EndUpdates e]) with ((BeginUpdates :: cs) ++ [EndUpdates e]).
    rewrite run_app. simpl. rewrite Hrun, Hend.
    split; [reflexivity|]. split; [congruence|].
    assert (Hne : new_events w w' = new_events wN w').
    { unfold new_events. congruence. }
    rewrite Hne. unfold closes_changed in Hcase.
    rewrite HqN, HprevN, Hprev0 in Hcase. simpl in Hcase.
    destruct (hash_differs _ _).
    + apply Hcase.
    + destruct Hcase as [Hl _]. now rewrite (new_events_same _ _ Hl).
  - intros w e1 e2 Hq Hsync.
    destruct w as [p at4 at6 tag g lg]. destruct p. simpl in Hq, Hsync. subst.
    unfold run, do_call, nm_dns_manager_begin_updates. simpl.
    change (guint (0 + 1)) with 1. simpl. change (guint (1 + 1)) with 2.
    unfold nm_dns_manager_end_updates. simpl.
    match goal with
    | |- context [hash_differs ?a ?b] =>
        replace a with b by (etransitivity; [exact Hsync | reflexivity])
    end.
    rewrite hash_differs_refl. simpl.
    eexists. split; [reflexivity|]. split; [|reflexivity].
    apply new_events_same. reflexivity.
  - intros w ea iface c t e w_att Hq Hw Hadd Hdiff.
    destruct (begin_outside _ Hq) as (Hlog0 & Hprev0 & Hq0 & Hrc0 & Hg0).
    assert (Hw0 : asserts_hold (nm_dns_manager_begin_updates w)).
    { destruct Hw as [H1 H2]. split; [now rewrite Hrc0 | now rewrite Hg0]. }
    assert (Hcall : do_call (AddIP4 ea iface c t) (nm_dns_manager_begin_updates w)
                    = Some w_att) by (cbn [do_call]; now rewrite Hadd).
    assert (Hq1 : 0 < updates_queue (priv (nm_dns_manager_begin_updates w))) by lia.
    destruct (mutation_inside (AddIP4 ea iface c t) (nm_dns_manager_begin_updates w)
                Hq1 I Hcall) as [Hs Hqa].
    pose proof (@same_transaction_asserts _ _ Hs Hw0) as Hwa.
    destruct Hs as (Hloga & Hpreva & _ & _).
    destruct (@end_inside e w_att ltac:(lia) Hwa) as (w' & Hend & _ & Hcase).
    unfold closes_changed in Hcase.
    rewrite Hqa, Hq0, Hpreva, Hprev0, Hdiff in Hcase. simpl in Hcase.
    destruct Hcase as (Hc & _ & r & wc & Hu & Hw').
    exists w', r, wc. cbn [run do_call]. rewrite Hadd. cbn [drop_result run do_call].
    rewrite Hend.
    split; [reflexivity|]. split; [|split; [|split]].
    + assert (Hne : new_events w w' = new_events w_att w').
      { unfold new_events. congruence. }
      now rewrite Hne.
    + apply (add_ip4_inside_walk _ _ _ _ _ Hq1 Hadd).
    + exact Hu.
    + exact Hw'.
  - intros e nc w r w' Hu.
    destruct (update_dns_priv _ _ _ Hu) as (Hp & H4 & H6 & _ & Hg).
    rewrite Hg. unfold compute_hash, hash_one. rewrite H4, H6, Hp. reflexivity.
  - intros global mode man immutable ip4_at ip6_at.
    unfold nm_dns_manager_init, init_resolv_conf_mode. simpl.
    repeat break_if; reflexivity.
Qed.

End Transactions.

(** Witness of [transaction_commits]: begin, attach config 1, end on
    a fresh manager commits once. *)
Lemma transaction_commits_witness :
  updates_queue (priv (Examples.fresh Examples.E_soup)) = 0
  /\ @asserts_hold (Examples.fresh Examples.E_soup)
  /\ exists w',
       @run Examples.E_soup
         [BeginUpdates;
          AddIP4 Concrete.env_ok (Some "eth0") 1%nat NM_DNS_IP_CONFIG_TYPE_DEFAULT;
          EndUpdates Concrete.env_ok]
         (Examples.fresh Examples.E_soup) = Some w'
       /\ commits (new_events (Examples.fresh Examples.E_soup) w') = 1%nat.
Proof.
  assert (Hw : @asserts_hold (Examples.fresh Examples.E_soup)).
  { split; [discriminate | intros g Hg; discriminate Hg]. }
  split; [reflexivity|]. split; [exact Hw|].
  destruct (@transaction_commits Examples.E_soup) as (_ & _ & _ & H & _).
  destruct (H (Examples.fresh Examples.E_soup) Concrete.env_ok (Some "eth0") 1%nat
              NM_DNS_IP_CONFIG_TYPE_DEFAULT Concrete.env_ok TransactionExample.attached
              eq_refl Hw eq_refl eq_refl)
    as (w' & r & wc & Hrun & Hc & _).
  exists w'. split; [exact Hrun | exact Hc].
Defined.

(** Counterexample to C1 as stated: a manager constructed while a
    global configuration is in force holds the fingerprint of the
    empty configuration; begin, begin, end, end then finds the
    fingerprint changed and commits. *)
Lemma idle_transaction_commits : ~ @idle_transaction_is_silent Examples.E_soup.
Proof.
  intros H.
  destruct (@run Examples.E_soup
              [BeginUpdates; BeginUpdates; EndUpdates Concrete.env_ok;
               EndUpdates Concrete.env_ok]
              (Examples.fresh_global Examples.E_soup)) as [w'|] eqn:Hrun;
    [|vm_compute in Hrun; discriminate Hrun].
  specialize (H (Examples.fresh_global Examples.E_soup) Concrete.env_ok Concrete.env_ok w'
                eq_refl Hrun).
  vm_compute in Hrun. inversion Hrun; subst w'; clear Hrun.
  vm_compute in H. discriminate H.
Qed.

(** Witness of [search_list_limit]: of the eight searches the first
    six reach the backend. *)
Lemma search_list_limit_witness :
  @asserts_hold SearchExample.eight_searches
  /\ exists r w',
       @update_dns Examples.E_soup Concrete.env_ok false SearchExample.eight_searches
       = Some (r, w')
       /\ Forall (hands_searches
                    (Some ["a1.example.org"; "a2.example.org"; "a3.example.org";
                           "a4.example.org"; "a5.example.org"; "a6.example.org"]))
                 (new_events SearchExample.eight_searches w').
Proof.
  assert (Hw : @asserts_hold SearchExample.eight_searches).
  { split; [discriminate | intros g Hg; discriminate Hg]. }
  split; [exact Hw|].
  destruct (@search_list_limit Examples.E_soup Concrete.env_ok false
              SearchExample.eight_searches Hw) as (r & w' & rc & Hu & Hrc & H).
  cbv zeta in H. destruct H as (Hfor & _ & _ & _ & _ & _ & H8).
  exists r, w'. split; [exact Hu|].
  assert (Hc : @contributed_searches Examples.E_soup SearchExample.eight_searches
               = Examples.ip4_searches_of_eight) by reflexivity.
  rewrite Hc in H8. rewrite (H8 eq_refl) in Hfor.
  - exact Hfor.
  - unfold Examples.ip4_searches_of_eight.
    repeat (constructor; [simpl; intuition discriminate|]). constructor.
  - vm_compute. discriminate.
Defined.

(** ** The assertions as an invariant *)

Section Invariant.
Context {E : Externals}.

(** Construction leaves a known backend: [init_resolv_conf_mode]
    replaces an unknown one by the default. *)
Lemma rc_manager_eqb_eq (a b : NMDnsManagerResolvConfManager) :
  rc_manager_eqb a b = true -> a = b.
Proof. destruct a, b; simpl; intros H; try discriminate; reflexivity. Qed.

Lemma init_resolv_conf_mode_known mode man immutable w :
  rc_manager (priv (init_resolv_conf_mode mode man immutable w))
  <> NM_DNS_MANAGER_RESOLV_CONF_MAN_UNKNOWN
  /\ global_dns_config (init_resolv_conf_mode mode man immutable w) = global_dns_config w.
Proof.
  unfold init_resolv_conf_mode.
  match goal with
  | |- context [rc_manager_eqb (rc_manager (priv w)) ?r] => remember r as rcm eqn:Hrcm
  end.
  assert (Hr : rcm <> NM_DNS_MANAGER_RESOLV_CONF_MAN_UNKNOWN).
  { subst rcm. unfold _get_resolv_conf_manager_default.
    destruct (nm_streq0 mode "none"); [discriminate|].
    destruct immutable; [discriminate|].
    destruct (_get_resolv_conf_manager man);
      destruct RESOLVCONF_PATH_defined, NETCONFIG_PATH_defined; discriminate. }
  clear Hrcm.
  match goal with
  | |- context [let '(_, _) := ?x in _] => destruct x as [plug changed]
  end.
  destruct changed; simpl; [split; [exact Hr | reflexivity]|].
  destruct (rc_manager_eqb (rc_manager (priv w)) rcm) eqn:Heq; simpl;
    (split; [|reflexivity]); [|exact Hr].
  apply rc_manager_eqb_eq in Heq. now rewrite Heq.
Qed.

Lemma init_asserts_hold global mode man immutable ip4_at ip6_at :
  (forall g, global = Some g -> global_default_domain g <> None) ->
  asserts_hold (nm_dns_manager_init global mode man immutable ip4_at ip6_at).
Proof.
  intros Hg. unfold nm_dns_manager_init.
  match goal with
  | |- asserts_hold (init_resolv_conf_mode _ _ _ ?w0) =>
      destruct (init_resolv_conf_mode_known mode man immutable w0) as [H1 H2]
  end.
  split; [exact H1 | rewrite H2; exact Hg].
Qed.

Lemma commit_unless_queued_asserts e w :
  asserts_hold w ->
  exists w', commit_unless_queued e w = Some w' /\ asserts_hold w'.
Proof.
  intros Hw. unfold commit_unless_queued.
  destruct (updates_queue (priv w) =? 0); [|eauto].
  destruct (update_dns_returns e false Hw) as (r & w' & Hu). rewrite Hu.
  exists w'. split; [reflexivity|].
  destruct (update_dns_priv _ _ _ Hu) as (Hp & _ & _ & _ & Hg).
  destruct Hw as [H1 H2]. split; [rewrite Hp; exact H1 | now rewrite Hg].
Qed.

(** Under the assertions every entry point returns, and the
    assertions hold again afterwards. *)
Lemma do_call_asserts (c : call) (w : World) :
  asserts_hold w ->
  exists w', do_call c w = Some w' /\ asserts_hold w'.
Proof.
  intros Hw.
  assert (Hcommit : forall e w0, asserts_hold w0 ->
            exists w', commit_unless_queued e w0 = Some w' /\ asserts_hold w')
    by (intros; now apply commit_unless_queued_asserts).
  destruct c; simpl.
  - eexists. split; [reflexivity|]. unfold nm_dns_manager_begin_updates.
    destruct (updates_queue (priv w) =? 0); exact Hw.
  - unfold nm_dns_manager_end_updates.
    destruct (negb (0 <? updates_queue (priv w))); [eexists; split; [reflexivity | exact Hw]|].
    cbv zeta. destruct (_ || _); [eexists; split; [reflexivity | exact Hw]|].
    match goal with
    | |- context [update_dns e false ?w1] =>
        assert (Hw1 : asserts_hold w1) by exact Hw;
        destruct (update_dns_returns e false Hw1) as (r & w' & Hu); rewrite Hu;
        destruct (update_dns_priv _ _ _ Hu) as (Hp & _ & _ & _ & Hg)
    end.
    eexists. split; [reflexivity|].
    destruct Hw as [H1 H2]. split; [simpl; rewrite Hp; exact H1 | simpl; now rewrite Hg].
  - unfold nm_dns_manager_add_ip4_config.
    match goal with
    | |- context [commit_unless_queued e ?w1] =>
        destruct (Hcommit e w1) as (w' & Hc & Hw');
        [destruct cfg_type; simpl; repeat inside_add; exact Hw | rewrite Hc]
    end.
    eexists. split; [reflexivity | exact Hw'].
  - unfold nm_dns_manager_remove_ip4_config.
    destruct (g_slist_find gpointer_eqb (configs (priv w)) (Ref4 config));
      [|destruct (g_slist_find Nat.eqb (ip4_vpn_configs (priv w)) config)];
      try (eexists; split; [reflexivity | exact Hw]);
      match goal with
      | |- context [commit_unless_queued e ?w1] =>
          destruct (Hcommit e w1) as (w' & Hc & Hw');
          [simpl; try (destruct (ip4_device_config (priv w)) as [d|];
                       [destruct (Nat.eqb config d)|]); exact Hw | rewrite Hc]
      end;
      eexists; (split; [reflexivity | exact Hw']).
  - unfold nm_dns_manager_add_ip6_config.
    match goal with
    | |- context [commit_unless_queued e ?w1] =>
        destruct (Hcommit e w1) as (w' & Hc & Hw');
        [destruct cfg_type; simpl; repeat inside_add; exact Hw | rewrite Hc]
    end.
    eexists. split; [reflexivity | exact Hw'].
  - unfold nm_dns_manager_remove_ip6_config.
    destruct (g_slist_find gpointer_eqb (configs (priv w)) (Ref6 config));
      [|destruct (g_slist_find Nat.eqb (ip6_vpn_configs (priv w)) config)];
      try (eexists; split; [reflexivity | exact Hw]);
      match goal with
      | |- context [commit_unless_queued e ?w1] =>
          destruct (Hcommit e w1) as (w' & Hc & Hw');
          [simpl; try (destruct (ip6_device_config (priv w)) as [d|];
                       [destruct (Nat.eqb config d)|]); exact Hw | rewrite Hc]
      end;
      eexists; (split; [reflexivity | exact Hw']).
  - unfold nm_dns_manager_set_hostname.
    destruct (match hostname (priv w) with Some _ => _ | None => _ end);
      [eexists; split; [reflexivity | exact Hw]|].
    apply Hcommit. exact Hw.
  - eexists. split; [reflexivity | exact Hw].
Qed.

Lemma run_asserts (cs : list call) (w : World) :
  asserts_hold w ->
  exists w', run cs w = Some w' /\ asserts_hold w'.
Proof.
  revert w. induction cs as [|c cs IH]; intros w Hw; simpl.
  - eauto.
  - destruct (do_call_asserts c Hw) as (w1 & Hc & Hw1). rewrite Hc. apply IH, Hw1.
Qed.

End Invariant.

(** * Further properties of the code *)

(** ** String arrays and the merge *)

Lemma add_string_item_NoDup (array : list string) (str : string) :
  NoDup array -> NoDup (add_string_item array str).
Proof.
  intros Hn. unfold add_string_item. fold (mem_string array str).
  destruct (mem_string array str) eqn:Hm; [assumption|].
  apply NoDup_app; [assumption | repeat constructor; intros [] |].
  intros a Ha [<- | []]. apply mem_string_In in Ha. congruence.
Qed.

(** X1.  [add_string_item] never makes a duplicate: it leaves an array
    without duplicates so, the string is in the array afterwards, what
    was there keeps its place, and adding the same string again
    changes nothing. *)
Theorem add_string_item_set (array : list string) (str : string) :
  NoDup array ->
  NoDup (add_string_item array str)
  /\ In str (add_string_item array str)
  /\ firstn (List.length array) (add_string_item array str) = array
  /\ add_string_item (add_string_item array str) str = add_string_item array str
  /\ (In str array -> add_string_item array str = array).
Proof.
  intros Hn. split; [now apply add_string_item_NoDup|].
  assert (Hin : In str (add_string_item array str))
    by (apply add_string_item_In; now right).
  assert (Hid : forall a, In str a -> add_string_item a str = a).
  { intros a Ha. unfold add_string_item. fold (mem_string a str).
    apply mem_string_In in Ha. now rewrite Ha. }
  split; [exact Hin|]. split; [|split; [now apply Hid | apply Hid]].
  destruct (add_string_item_prefix array str) as [tail ->].
  rewrite firstn_app, Nat.sub_diag, firstn_all. simpl. apply app_nil_r.
Qed.

Lemma add_string_item_set_witness :
  NoDup ["example.org"]
  /\ add_string_item (add_string_item ["example.org"] "example.net") "example.net"
     = ["example.org"; "example.net"].
Proof.
  assert (Hn : NoDup ["example.org"]) by (repeat constructor; intros []).
  split; [exact Hn|].
  destruct (@add_string_item_set ["example.org"] "example.net" Hn) as (_ & _ & _ & H & _).
  rewrite H. reflexivity.
Defined.

Section MergedLists.
Context {E : Externals}.

Lemma fold_merge_one_nis_domain (w : World) (l : list gpointer) (rc : NMResolvConfData) :
  nis_domain (fold_left (merge_one w) l rc)
  = match nis_domain rc with
    | Some d => Some d
    | None => first_some (map (config_nis_domain w) l)
    end.
Proof.
  revert rc. induction l as [|d l IH]; intros rc; simpl.
  - now destruct (nis_domain rc).
  - rewrite IH. destruct d as [a|a]; simpl.
    + destruct (ip4_nis_domain (ip4_config_at w a)), (nis_domain rc); reflexivity.
    + reflexivity.
Qed.

Lemma fold_merge_one_nis_servers (w : World) (l : list gpointer) (rc : NMResolvConfData) :
  nis_servers (fold_left (merge_one w) l rc)
  = add_string_items (nis_servers rc) (flat_map (config_nis_servers w) l).
Proof.
  revert rc. induction l as [|d l IH]; intros rc; simpl; [reflexivity|].
  rewrite IH, add_string_items_app. f_equal. now destruct d.
Qed.

(** X2.  The NIS data of a merge.  Without a global configuration the NIS
    domain is that of the first config in walking order that has one
    (later ones are ignored), and the NIS servers are the first
    occurrences of what the IPv4 configs offer; IPv6 configs offer
    none.  With a global configuration there is no NIS data at all. *)
Theorem nis_first_domain_wins (w : World) (rc : NMResolvConfData) :
  merge_configs w = Some rc ->
  match global_dns_config w with
  | Some _ => nis_domain rc = None /\ nis_servers rc = []
  | None =>
      nis_domain rc = first_some (map (config_nis_domain w) (walk_order (priv w)))
      /\ nis_servers rc
         = first_occurrences (flat_map (config_nis_servers w) (walk_order (priv w)))
  end.
Proof.
  intros Hrc. destruct (global_dns_config w) as [g|] eqn:Hg.
  - destruct (global_default_domain g) as [servers|] eqn:Hd.
    + rewrite (merge_configs_global _ Hg Hd) in Hrc. inversion Hrc. now split.
    + unfold merge_configs, merge_global_dns_config in Hrc. rewrite Hg, Hd in Hrc.
      discriminate Hrc.
  - rewrite (merge_configs_walk _ Hg) in Hrc. inversion Hrc.
    rewrite fold_merge_one_nis_domain, fold_merge_one_nis_servers. simpl.
    now rewrite add_string_items_nil.
Qed.

Lemma limit_searches_NoDup (array : list string) :
  NoDup array -> NoDup (limit_searches array).
Proof.
  intros Hn. unfold limit_searches.
  rewrite <- (firstn_skipn (search_limit_loop array (Nat.min (List.length array) 6) 0 0) array)
    in Hn.
  now apply NoDup_app_remove_r in Hn.
Qed.

Lemma add_hostname_search_NoDup (h : option string) (array : list string) :
  NoDup array -> NoDup (add_hostname_search h array).
Proof.
  intros Hn. unfold add_hostname_search.
  repeat break_if; try assumption; now apply add_string_item_NoDup.
Qed.

Lemma merge_configs_NoDup (w : World) (rc : NMResolvConfData) :
  merge_configs w = Some rc -> NoDup (nameservers rc) /\ NoDup (searches rc).
Proof.
  intros Hrc. rewrite (merged_searches_contributed _ Hrc).
  split; [|apply first_occurrences_NoDup].
  destruct (global_dns_config w) as [g|] eqn:Hg.
  - destruct (global_default_domain g) as [servers|] eqn:Hd.
    + rewrite (merge_configs_global _ Hg Hd) in Hrc. inversion Hrc. simpl.
      apply first_occurrences_NoDup.
    + unfold merge_configs, merge_global_dns_config in Hrc. rewrite Hg, Hd in Hrc.
      discriminate Hrc.
  - destruct (merge_configs_first_occurrences _ Hg) as (rc' & Hrc' & Hn & _).
    rewrite Hrc in Hrc'. inversion Hrc'; subst rc'. rewrite Hn.
    apply first_occurrences_NoDup.
Qed.

(** X3.  No backend is ever handed a search list or a nameserver list that
    holds the same entry twice, whatever the configs, the global
    configuration, the hostname and the plugin. *)
Theorem backends_get_distinct_entries (e : Env) (no_caching : bool) (w w' : World) (r : bool) :
  update_dns e no_caching w = Some (r, w') ->
  Forall hands_distinct (new_events w w').
Proof.
  intros Hu.
  destruct (update_dns_lists _ _ _ Hu) as (rc & Hrc & Hs & Hn & _ & _).
  destruct (merge_configs_NoDup _ Hrc) as [Dn Ds].
  assert (Hsd : NoDup (of_strv (commit_searches w rc))).
  { unfold commit_searches.
    assert (H : NoDup (limit_searches (add_hostname_search (hostname (priv w)) (searches rc))))
      by now apply limit_searches_NoDup, add_hostname_search_NoDup.
    destruct (limit_searches _); simpl; [constructor | exact H]. }
  assert (Hnd : NoDup (of_strv (commit_nameservers e no_caching w rc))).
  { unfold commit_nameservers. destruct (snd _); simpl.
    - repeat constructor. intros [].
    - destruct (nameservers rc); simpl; [constructor | exact Dn]. }
  pose proof (Forall_and Hs Hn) as H.
  eapply Forall_impl; [|exact H].
  intros ev [H1 H2]. destruct ev; simpl in *; subst; auto.
Qed.

End MergedLists.

Lemma backends_get_distinct_entries_witness :
  exists r w',
    @update_dns Examples.E_soup Concrete.env_ok false SearchExample.eight_searches
    = Some (r, w')
    /\ Forall hands_distinct (new_events SearchExample.eight_searches w').
Proof.
  destruct (@update_dns Examples.E_soup Concrete.env_ok false SearchExample.eight_searches)
    as [[r w']|] eqn:Hu; [|discriminate Hu].
  exists r, w'. split; [reflexivity|].
  exact (@backends_get_distinct_entries Examples.E_soup _ _ _ _ _ Hu).
Defined.

Lemma nis_first_domain_wins_witness :
  exists rc,
    @merge_configs Examples.E_soup NisExample.lab_then_office = Some rc
    /\ nis_domain rc = Some "office"
    /\ nis_servers rc = ["1.1.1.1"; "8.8.8.8"].
Proof.
  assert (Hrc : exists rc, @merge_configs Examples.E_soup NisExample.lab_then_office = Some rc)
    by (eexists; vm_compute; reflexivity).
  destruct Hrc as [rc Hrc].
  exists rc. split; [exact Hrc|].
  pose proof (@nis_first_domain_wins Examples.E_soup _ _ Hrc) as H.
  vm_compute in H. exact H.
Defined.

(** ** Texts *)

Lemma string_app_assoc (a b c : string) : ((a ++ b) ++ c = a ++ (b ++ c))%string.
Proof. induction a as [|x a IH]; simpl; [reflexivity | now rewrite IH]. Qed.

Lemma string_length_app (a b : string) :
  String.length (a ++ b) = (String.length a + String.length b)%nat.
Proof. induction a as [|x a IH]; simpl; [reflexivity | now rewrite IH]. Qed.

Lemma substring_0_all (s : string) (n : nat) :
  (String.length s <= n)%nat -> substring 0 n s = s.
Proof.
  revert n. induction s as [|x s IH]; intros n Hn.
  - now destruct n.
  - destruct n as [|n]; simpl in *; [lia|]. rewrite IH; [reflexivity | lia].
Qed.

Lemma substring_0_length (s : string) (n : nat) :
  (String.length (substring 0 n s) <= n)%nat.
Proof.
  revert n. induction s as [|x s IH]; intros n.
  - destruct n; simpl; lia.
  - destruct n as [|n]; simpl; [lia|]. specialize (IH n). lia.
Qed.

Lemma g_strlcat_fits (dst src : string) (size : nat) :
  (String.length dst + String.length src <= size - 1)%nat ->
  g_strlcat dst src size = (dst ++ src)%string.
Proof.
  intros H. unfold g_strlcat.
  destruct (Nat.leb (String.length dst) (size - 1)) eqn:Hle.
  - apply substring_0_all. rewrite string_length_app. exact H.
  - apply Nat.leb_gt in Hle. lia.
Qed.

Lemma g_strlcat_bound (dst src : string) (size : nat) :
  (String.length dst <= size - 1)%nat ->
  (String.length (g_strlcat dst src size) <= size - 1)%nat.
Proof.
  intros H. unfold g_strlcat.
  destruct (Nat.leb (String.length dst) (size - 1)); [apply substring_0_length | exact H].
Qed.

Section AddressTexts.
Context {E : Externals}.

(** X4.  The text of an IPv6 nameserver.  A v4-mapped address is printed
    as the IPv4 address in its last word and gets no scope.  Any other
    address is printed by [nm_utils_inet6_ntop]; a link-local one of a
    config tagged with an interface gets [%] and the interface name
    appended, in full when the whole fits the 96-byte buffer, and the
    text never outgrows the buffer. *)
Theorem ip6_nameserver_scope (iface : option string) (addr : in6_addr) :
  (IN6_IS_ADDR_V4MAPPED addr = true ->
   ip6_nameserver_text iface addr = nm_utils_inet4_ntop (s6_addr32_3 addr))
  /\ (IN6_IS_ADDR_V4MAPPED addr = false ->
      (forall ifname,
         iface = Some ifname -> IN6_IS_ADDR_LINKLOCAL addr = true ->
         (String.length (nm_utils_inet6_ntop addr) + 1 + String.length ifname <= 95)%nat ->
         ip6_nameserver_text iface addr
         = (nm_utils_inet6_ntop addr ++ "%" ++ ifname)%string)
      /\ (iface = None \/ IN6_IS_ADDR_LINKLOCAL addr = false ->
          ip6_nameserver_text iface addr = nm_utils_inet6_ntop addr)
      /\ ((String.length (nm_utils_inet6_ntop addr) <= 95)%nat ->
          (String.length (ip6_nameserver_text iface addr) <= 95)%nat)).
Proof.
  unfold ip6_nameserver_text. split; [intros ->; reflexivity|].
  intros ->. change (NM_UTILS_INET_ADDRSTRLEN + 50)%nat with 96%nat.
  split; [|split].
  - intros ifname -> -> Hlen.
    rewrite (@g_strlcat_fits (nm_utils_inet6_ntop addr) "%" 96) by (simpl; lia).
    rewrite g_strlcat_fits.
    + apply string_app_assoc.
    + rewrite string_length_app. simpl. lia.
  - intros [-> | Hl]; [reflexivity|]. rewrite Hl. now destruct iface.
  - intros Hlen. destruct iface as [ifname|]; [|exact Hlen].
    destruct (IN6_IS_ADDR_LINKLOCAL addr); [|exact Hlen].
    change 95%nat with (96 - 1)%nat. apply g_strlcat_bound, g_strlcat_bound.
    simpl. exact Hlen.
Qed.

End AddressTexts.

Lemma ip6_nameserver_scope_witness :
  @ip6_nameserver_text Examples.E_soup (Some "eth0")
     [254; 128; 0; 0; 0; 0; 0; 0; 0; 0; 0; 0; 0; 0; 0; 1]
  = "254:128:0:0:0:0:0:0:0:0:0:0:0:0:0:1%eth0".
Proof.
  destruct (@ip6_nameserver_scope Examples.E_soup (Some "eth0")
              [254; 128; 0; 0; 0; 0; 0; 0; 0; 0; 0; 0; 0; 0; 0; 1]) as [_ H].
  destruct (H eq_refl) as [H1 _].
  rewrite (H1 "eth0" eq_refl eq_refl); [reflexivity|].
  apply Nat.leb_le. reflexivity.
Defined.

Lemma nameserver_lines_late (l : list string) (i : nat) :
  (3 < i)%nat -> nameserver_lines l i = lines_text (map nameserver_line l).
Proof.
  revert i. induction l as [|ns l IH]; intros i Hi; simpl; [reflexivity|].
  destruct (Nat.eqb_spec i 3) as [->|_]; [lia|].
  rewrite IH by lia. unfold nameserver_line. simpl.
  now rewrite string_app_assoc.
Qed.

Lemma nameserver_lines_early (l : list string) (i : nat) :
  (i <= 3)%nat ->
  nameserver_lines l i
  = (lines_text (map nameserver_line (firstn (3 - i) l))
     ++ (if Nat.ltb (3 - i) (List.length l)
         then resolver_note ++ lines_text (map nameserver_line (skipn (3 - i) l))
         else ""))%string.
Proof.
  revert i. induction l as [|ns l IH]; intros i Hi.
  - rewrite firstn_nil. simpl. now destruct (3 - i)%nat.
  - destruct (Nat.eqb_spec i 3) as [->|Hne].
    + cbn [nameserver_lines Nat.eqb]. rewrite nameserver_lines_late by lia.
      cbn. f_equal. unfold nameserver_line. now rewrite string_app_assoc.
    + cbn [nameserver_lines]. destruct (Nat.eqb_spec i 3) as [|_]; [contradiction|].
      rewrite IH by lia.
      replace (3 - i)%nat with (S (3 - S i)) by lia.
      cbn [firstn skipn map lines_text List.length].
      replace (Nat.ltb (S (3 - S i)) (S (List.length l)))
        with (Nat.ltb (3 - S i) (List.length l))
        by (destruct (Nat.ltb_spec (3 - S i) (List.length l)),
                     (Nat.ltb_spec (S (3 - S i)) (S (List.length l))); (reflexivity || lia)).
      change (nameserver_line ns) with ("nameserver " ++ ns ++ LF)%string.
      cbn [append]. rewrite !string_app_assoc. reflexivity.
Qed.

(** X5.  The text of [resolv.conf]: the header, the search line if there
    are searches, one line per nameserver, and the options line if
    there are options.  The remark about the resolver's limit is put
    once, before the fourth nameserver, exactly when there are more
    than three; with nothing to write the text is the header alone. *)
Theorem resolv_conf_text (s n o : option (list string)) :
  create_resolv_conf s n o
  = ("# Generated by NetworkManager" ++ LF
     ++ match s with
        | Some v => "search " ++ String.concat " " v ++ LF
        | None => ""
        end
     ++ lines_text (map nameserver_line (firstn 3 (of_strv n)))
     ++ (if Nat.ltb 3 (List.length (of_strv n))
         then resolver_note ++ lines_text (map nameserver_line (skipn 3 (of_strv n)))
         else "")
     ++ match o with
        | Some v => "options " ++ String.concat " " v ++ LF
        | None => ""
        end)%string
  /\ create_resolv_conf None None None = ("# Generated by NetworkManager" ++ LF)%string.
Proof.
  split; [|reflexivity].
  unfold create_resolv_conf, g_strjoinv. do 3 f_equal.
  destruct n as [l|]; simpl of_strv.
  - rewrite (@nameserver_lines_early l 0) by lia. simpl Nat.sub.
    now rewrite string_app_assoc.
  - reflexivity.
Qed.

(** ** The private copy and the symlink *)

Section ResolvConfFile.
Context {E : Externals}.

(** Unless the mode is symlink and the private copy is in place,
    nothing is done to [/etc/resolv.conf] outside file mode. *)
Lemma update_resolv_conf_leaves_resconf (e : Env) (s n o : option (list string))
    (rcm : NMDnsManagerResolvConfManager) :
  rcm <> NM_DNS_MANAGER_RESOLV_CONF_MAN_FILE ->
  rcm <> NM_DNS_MANAGER_RESOLV_CONF_MAN_SYMLINK \/ private_copy_written e = false ->
  Forall leaves_resconf (fst (update_resolv_conf e s n o rcm)).
Proof.
  intros Hf Hc. unfold update_resolv_conf, private_copy_written in *.
  remember (create_resolv_conf s n o) as content.
  destruct (update_resconf_symlink e) as [evl rl].
  destruct rcm; try (now elim Hf);
    destruct (fopen_tmp_ok e), (fprintf_tmp_ok e), (fclose_tmp_ok e), (rename_my_ok e);
    simpl in Hc; try (destruct Hc as [Hc | Hc]; [now elim Hc | discriminate Hc]);
    cbn [rc_manager_eqb andb negb]; repeat break_if; cbn [fst]; carry_list.
Qed.

(** X6.  The order of writing.  [update_resolv_conf] calls [rename]
    only when the temporary file in the run directory opened, took
    the whole text and closed without error, so the private copy is
    never replaced by a partial text.  Outside file mode nothing is
    done to [/etc/resolv.conf] (no [g_file_set_contents], no unlink,
    no symlink, no rename onto it) unless the mode is symlink and the
    private copy is in place.  File mode is the one mode in which
    [/etc/resolv.conf] is handed to [g_file_set_contents], and there
    it is, whatever becomes of the temporary file. *)
Theorem complete_write_precedes_replacement (e : Env) (s n o : option (list string))
    (rcm : NMDnsManagerResolvConfManager) :
  let run := update_resolv_conf e s n o rcm in
  (forall oldpath newpath ok,
     In (EvRename oldpath newpath ok) (fst run) ->
     fopen_tmp_ok e = true /\ fprintf_tmp_ok e = true /\ fclose_tmp_ok e = true
     /\ In (EvFprintf MY_RESOLV_CONF_TMP (create_resolv_conf s n o) true) (fst run))
  /\ (rcm <> NM_DNS_MANAGER_RESOLV_CONF_MAN_FILE ->
      forall ev, In ev (fst run) -> ~ leaves_resconf ev ->
        rcm = NM_DNS_MANAGER_RESOLV_CONF_MAN_SYMLINK /\ private_copy_written e = true)
  /\ (rcm = NM_DNS_MANAGER_RESOLV_CONF_MAN_FILE ->
      In (EvSetContents _PATH_RESCONF (create_resolv_conf s n o) (set_contents_resconf_ok e))
         (fst run))
  /\ (forall path content ok,
        In (EvSetContents path content ok) (fst run) ->
        rcm = NM_DNS_MANAGER_RESOLV_CONF_MAN_FILE).
Proof.
  cbv zeta. split; [|split; [|split]].
  - intros oldpath newpath ok.
    unfold update_resolv_conf, update_resconf_symlink, replace_resconf_symlink.
    remember (create_resolv_conf s n o) as content.
    destruct (fopen_tmp_ok e), (fprintf_tmp_ok e), (fclose_tmp_ok e);
      repeat break_if; try (simpl in *; congruence); simpl; intros H;
      repeat match goal with
             | H : _ \/ _ |- _ => destruct H as [H | H]
             | H : False |- _ => destruct H
             | H : _ = EvRename _ _ _ |- _ => try discriminate H; clear H
             | H : In _ (_ ++ _) |- _ => apply in_app_or in H
             | H : In _ [] |- _ => destruct H
             | H : In _ (_ :: _) |- _ => simpl in H
             end;
      repeat split; try reflexivity;
      repeat first [apply in_or_app; right; simpl; tauto
                   | apply in_or_app; left
                   | simpl; tauto].
  - intros Hf ev Hin Hnl.
    destruct (private_copy_written e) eqn:Hw.
    + split; [|reflexivity].
      destruct rcm; try reflexivity; exfalso; apply Hnl;
        refine (proj1 (Forall_forall _ _)
                  (@update_resolv_conf_leaves_resconf e s n o _ Hf _) ev Hin);
        left; discriminate.
    + exfalso. apply Hnl.
      refine (proj1 (Forall_forall _ _)
                (@update_resolv_conf_leaves_resconf e s n o rcm Hf _) ev Hin).
      now right.
  - intros ->. unfold update_resolv_conf. cbn [rc_manager_eqb andb].
    remember (create_resolv_conf s n o) as content.
    destruct (set_contents_resconf_ok e), (fopen_tmp_ok e), (fprintf_tmp_ok e),
      (fclose_tmp_ok e), (rename_my_ok e); simpl; tauto.
  - intros path content ok. unfold update_resolv_conf.
    destruct (update_resconf_symlink e) as [evl rl] eqn:Hl.
    assert (Hevl : forall pa co k, ~ In (EvSetContents pa co k) evl).
    { intros pa co k Hin. revert Hl.
      unfold update_resconf_symlink, replace_resconf_symlink.
      repeat break_if; intros Hl; inversion Hl; subst; simpl in Hin;
        repeat match goal with
               | H : _ \/ _ |- _ => destruct H as [H | H]
               | H : False |- _ => destruct H
               | H : _ = EvSetContents _ _ _ |- _ => discriminate H
               end. }
    destruct rcm; try reflexivity; cbn [rc_manager_eqb andb negb];
      repeat break_if; cbn [fst]; intros Hin;
      repeat match goal with
             | H : In _ (_ ++ _) |- _ => apply in_app_or in H; destruct H as [H | H]
             | H : In _ (_ :: _) |- _ => destruct H as [H | H]
             | H : In _ [] |- _ => destruct H
             | H : _ = EvSetContents _ _ _ |- _ => discriminate H
             | H : In (EvSetContents _ _ _) evl |- _ => now apply Hevl in H
             end.
Qed.

(** X7.  The one situation in which the private copy is not written: the
    mode is unmanaged and [/etc/resolv.conf] is a symlink to the
    private copy itself.  Then nothing at all is done and the result
    is success; in every other situation the temporary file is
    opened. *)
Theorem private_copy_skipped_only_for_own_link (e : Env) (s n o : option (list string))
    (rcm : NMDnsManagerResolvConfManager) :
  (rcm = NM_DNS_MANAGER_RESOLV_CONF_MAN_UNMANAGED ->
   read_link_resconf e = Some MY_RESOLV_CONF ->
   update_resolv_conf e s n o rcm = ([CallUpdateResolvConf s n o rcm], SR_SUCCESS))
  /\ (rcm <> NM_DNS_MANAGER_RESOLV_CONF_MAN_UNMANAGED
      \/ read_link_resconf e <> Some MY_RESOLV_CONF ->
      In (EvFopen MY_RESOLV_CONF_TMP (fopen_tmp_ok e)) (fst (update_resolv_conf e s n o rcm))).
Proof.
  split.
  - intros -> Hl. unfold update_resolv_conf. rewrite Hl, String.eqb_refl. reflexivity.
  - intros Hc. unfold update_resolv_conf.
    destruct (rc_manager_eqb rcm NM_DNS_MANAGER_RESOLV_CONF_MAN_UNMANAGED
              && match read_link_resconf e with
                 | Some path => String.eqb path MY_RESOLV_CONF
                 | None => false
                 end) eqn:Hown.
    + exfalso. apply andb_true_iff in Hown. destruct Hown as [Hm Hl].
      apply rc_manager_eqb_eq in Hm.
      destruct (read_link_resconf e) as [path|]; [|discriminate Hl].
      apply String.eqb_eq in Hl. subst path. destruct Hc as [Hc | Hc]; now apply Hc.
    + destruct (update_resconf_symlink e) as [evl rl].
      destruct (fopen_tmp_ok e); repeat break_if; try (simpl in *; congruence); simpl;
        repeat first [apply in_or_app; right; simpl; tauto
                     | apply in_or_app; left
                     | simpl; tauto].
Qed.

(** X8.  File mode.  [update_resolv_conf] first hands the text to
    [g_file_set_contents] for [/etc/resolv.conf], which replaces that
    file; whether or not this works it then opens the temporary file
    of the private copy; and nothing it does after that touches
    [/etc/resolv.conf]: no second [g_file_set_contents], no unlink,
    no symlink, and no rename other than that of the temporary file
    onto the private copy.  The result is success exactly when both
    the direct write and the writing of the private copy succeed. *)
Theorem file_mode_writes_both (e : Env) (s n o : option (list string)) :
  let run := update_resolv_conf e s n o NM_DNS_MANAGER_RESOLV_CONF_MAN_FILE in
  (exists rest,
     fst run
     = CallUpdateResolvConf s n o NM_DNS_MANAGER_RESOLV_CONF_MAN_FILE
       :: EvSetContents _PATH_RESCONF (create_resolv_conf s n o) (set_contents_resconf_ok e)
       :: EvFopen MY_RESOLV_CONF_TMP (fopen_tmp_ok e) :: rest
     /\ Forall leaves_resconf rest)
  /\ (snd run = SR_SUCCESS
      <-> set_contents_resconf_ok e = true /\ private_copy_written e = true).
Proof.
  unfold update_resolv_conf, private_copy_written. simpl rc_manager_eqb. simpl andb.
  remember (create_resolv_conf s n o) as content.
  destruct (set_contents_resconf_ok e), (fopen_tmp_ok e), (fprintf_tmp_ok e),
    (fclose_tmp_ok e), (rename_my_ok e); simpl;
    (split; [eexists; split; [reflexivity | carry_list]|]);
    (split; [intros H; try discriminate H; now split
            | intros [H1 H2]; try discriminate H1; try discriminate H2; reflexivity]).
Qed.

(** X9.  Symlink mode, with the private copy written.  When
    [/etc/resolv.conf] does not exist, is a regular file or is the
    manager's own symlink, it is replaced through a temporary symlink
    that is renamed onto it; the result is success exactly when
    removing a stale temporary symlink, making the new one and the
    rename all work, and then these are the last things done.  When
    [lstat] fails for another reason than the file missing, the result
    is an error and [/etc/resolv.conf] is left alone. *)
Theorem symlink_mode_installs_link (e : Env) (s n o : option (list string)) :
  private_copy_written e = true ->
  let run := update_resolv_conf e s n o NM_DNS_MANAGER_RESOLV_CONF_MAN_SYMLINK in
  (replaceable e ->
   (snd run = SR_SUCCESS
    <-> unlink_resconf_tmp e <> UnlinkError /\ symlink_ok e = true
        /\ rename_resconf_ok e = true)
   /\ (snd run = SR_SUCCESS ->
       exists before,
         fst run = before ++ [EvSymlink MY_RESOLV_CONF RESOLV_CONF_TMP true;
                              EvRename RESOLV_CONF_TMP _PATH_RESCONF true]))
  /\ (lstat_resconf e = LstatError ->
      snd run = SR_ERROR /\ Forall leaves_resconf (fst run)).
Proof.
  unfold private_copy_written. intros Hw.
  apply andb_true_iff in Hw. destruct Hw as [Hw Hr].
  apply andb_true_iff in Hw. destruct Hw as [Hw Hc].
  apply andb_true_iff in Hw. destruct Hw as [Ho Hp].
  unfold update_resolv_conf. simpl rc_manager_eqb. simpl andb.
  rewrite Ho, Hp, Hc, Hr. cbv beta iota zeta. simpl negb. cbv iota.
  remember (create_resolv_conf s n o) as content.
  assert (Hrep : update_resconf_symlink e = replace_resconf_symlink e \/ ~ replaceable e).
  { unfold update_resconf_symlink, replaceable.
    destruct (lstat_resconf e) as [[]| |]; auto.
    - destruct (stat_resconf_ok e).
      + destruct (read_link_resconf e) as [path|].
        * destruct (String.eqb path MY_RESOLV_CONF) eqn:Hpath; simpl; [now left|].
          right. intros [H | [H | (_ & _ & H)]]; try discriminate H.
          inversion H; subst. now rewrite String.eqb_refl in Hpath.
        * right. intros [H | [H | (_ & _ & H)]]; discriminate H.
      + right. intros [H | [H | (_ & H & _)]]; discriminate H.
    - right. intros [H | [H | (H & _)]]; discriminate H. }
  split.
  - intros Hok. destruct Hrep as [-> | Hn]; [|contradiction].
    unfold replace_resconf_symlink.
    destruct (unlink_resconf_tmp e), (symlink_ok e), (rename_resconf_ok e); simpl;
      (split; [split; [intros H; try discriminate H; repeat split; discriminate
                      | intros (H1 & H2 & H3);
                        try discriminate H2; try discriminate H3;
                        try (exfalso; now apply H1); reflexivity]|]);
      intros H; try discriminate H;
      match goal with
      | |- exists before, ?a :: ?b :: ?c :: ?d :: ?f :: ?g :: ?rest = _ =>
          exists [a; b; c; d; f; g]; reflexivity
      end.
  - intros Hl. unfold update_resconf_symlink. rewrite Hl. simpl.
    split; [reflexivity|]. carry_list.
Qed.

End ResolvConfFile.

Lemma complete_write_precedes_replacement_witness :
  (fopen_tmp_ok Concrete.env_ok = true /\ fprintf_tmp_ok Concrete.env_ok = true
   /\ fclose_tmp_ok Concrete.env_ok = true
   /\ In (EvFprintf (@MY_RESOLV_CONF_TMP Examples.E_soup)
                    (create_resolv_conf None (Some ["1.1.1.1"]) None) true)
         (fst (@update_resolv_conf Examples.E_soup Concrete.env_ok None (Some ["1.1.1.1"]) None
                 NM_DNS_MANAGER_RESOLV_CONF_MAN_SYMLINK)))
  /\ In (EvSetContents _PATH_RESCONF (create_resolv_conf None (Some ["1.1.1.1"]) None) true)
        (fst (@update_resolv_conf Examples.E_soup SymlinkExample.env_foreign_readonly
                None (Some ["1.1.1.1"]) None NM_DNS_MANAGER_RESOLV_CONF_MAN_FILE)).
Proof.
  split.
  - apply (proj1 (@complete_write_precedes_replacement Examples.E_soup Concrete.env_ok
                    None (Some ["1.1.1.1"]) None NM_DNS_MANAGER_RESOLV_CONF_MAN_SYMLINK)
             (@MY_RESOLV_CONF_TMP Examples.E_soup) (@MY_RESOLV_CONF Examples.E_soup) true).
    vm_compute. tauto.
  - apply (proj1 (proj2 (proj2 (@complete_write_precedes_replacement Examples.E_soup
                                  SymlinkExample.env_foreign_readonly
                                  None (Some ["1.1.1.1"]) None
                                  NM_DNS_MANAGER_RESOLV_CONF_MAN_FILE)))).
    reflexivity.
Defined.

Lemma private_copy_skipped_only_for_own_link_witness :
  @update_resolv_conf Examples.E_soup OwnLinkExample.env_own_link None (Some ["1.1.1.1"]) None
    NM_DNS_MANAGER_RESOLV_CONF_MAN_UNMANAGED
  = ([CallUpdateResolvConf None (Some ["1.1.1.1"]) None
        NM_DNS_MANAGER_RESOLV_CONF_MAN_UNMANAGED], SR_SUCCESS)
  /\ In (EvFopen (@MY_RESOLV_CONF_TMP Examples.E_soup) true)
        (fst (@update_resolv_conf Examples.E_soup OwnLinkExample.env_own_link
                None (Some ["1.1.1.1"]) None NM_DNS_MANAGER_RESOLV_CONF_MAN_SYMLINK)).
Proof.
  split.
  - apply (@private_copy_skipped_only_for_own_link Examples.E_soup
             OwnLinkExample.env_own_link None (Some ["1.1.1.1"]) None
             NM_DNS_MANAGER_RESOLV_CONF_MAN_UNMANAGED); reflexivity.
  - apply (@private_copy_skipped_only_for_own_link Examples.E_soup
             OwnLinkExample.env_own_link None (Some ["1.1.1.1"]) None
             NM_DNS_MANAGER_RESOLV_CONF_MAN_SYMLINK).
    left. discriminate.
Defined.

Lemma symlink_mode_installs_link_witness :
  snd (@update_resolv_conf Examples.E_soup OwnLinkExample.env_own_link
         None (Some ["1.1.1.1"]) None NM_DNS_MANAGER_RESOLV_CONF_MAN_SYMLINK)
  = SR_SUCCESS.
Proof.
  destruct (@symlink_mode_installs_link Examples.E_soup OwnLinkExample.env_own_link
              None (Some ["1.1.1.1"]) None eq_refl) as [H _].
  destruct H as [H _].
  - right. right. repeat split.
  - apply H. repeat split. discriminate.
Defined.

(** ** The shape of a commit *)

Ltac backend_list :=
  repeat first [apply Forall_nil | apply Forall_cons | apply Forall_app; split];
  simpl; auto.

Section CommitTrace.
Context {E : Externals}.

Lemma update_resolv_conf_from_backend e s n o rcm :
  Forall (fun ev => from_backend ev = true) (fst (update_resolv_conf e s n o rcm)).
Proof.
  assert (Hl : Forall (fun ev => from_backend ev = true) (fst (update_resconf_symlink e))).
  { unfold update_resconf_symlink, replace_resconf_symlink.
    repeat break_if; simpl; backend_list. }
  unfold update_resolv_conf.
  destruct (update_resconf_symlink e) as [l r]. simpl in Hl.
  repeat break_if; simpl; backend_list.
Qed.

Lemma dispatch_backend_from_backend e rcm s n o nd ns ev r upd :
  dispatch_backend e rcm s n o nd ns = Some (ev, r, upd) ->
  Forall (fun x => from_backend x = true) ev.
Proof.
  unfold dispatch_backend. intros H.
  pose proof (update_resolv_conf_from_backend e s n o NM_DNS_MANAGER_RESOLV_CONF_MAN_SYMLINK)
    as F1.
  pose proof (update_resolv_conf_from_backend e s n o NM_DNS_MANAGER_RESOLV_CONF_MAN_FILE)
    as F2.
  assert (F3 : Forall (fun x => from_backend x = true) (fst (dispatch_resolvconf e s n o))).
  { unfold dispatch_resolvconf. repeat break_if; simpl; backend_list. }
  assert (F4 : Forall (fun x => from_backend x = true)
                      (fst (dispatch_netconfig e s n nd ns))).
  { unfold dispatch_netconfig, netconfig_list. repeat break_if; simpl; backend_list. }
  destruct rcm; try discriminate;
    destruct (update_resolv_conf e s n o NM_DNS_MANAGER_RESOLV_CONF_MAN_SYMLINK);
    destruct (update_resolv_conf e s n o NM_DNS_MANAGER_RESOLV_CONF_MAN_FILE);
    destruct (dispatch_resolvconf e s n o);
    destruct (dispatch_netconfig e s n nd ns);
    simpl in *;
    match type of H with
    | context [SpawnResult_eqb ?x _] => destruct x; simpl in H
    end;
    inversion H; subst; clear H;
    try assumption; apply Forall_app; split; assumption.
Qed.

(** What a commit appends to the trace, in order: its mark, the
    removal of a pending retry timer, the plugin update, the events of
    the backends, and the change signal when [/etc/resolv.conf] is
    managed and the commit succeeded. *)
Lemma update_dns_trace e nc w r w' :
  update_dns e nc w = Some (r, w') ->
  exists evb,
    new_events w w'
    = EvUpdateDns nc
      :: (if timer (plugin_ratelimit (priv w)) =? 0 then []
          else [EvSourceRemove (timer (plugin_ratelimit (priv w)))])
      ++ fst (update_plugin e nc w) ++ evb
      ++ (if manages_resolv_conf (priv w) && r then [EvSignalConfigChanged] else [])
    /\ Forall (fun ev => from_backend ev = true) evb
    /\ (manages_resolv_conf (priv w) = false -> r = true).
Proof.
  unfold update_dns, manages_resolv_conf. intros H.
  destruct (merge_configs w) as [rc|]; [|discriminate].
  destruct (update_plugin e nc w) as [evp caching]. simpl fst.
  destruct (negb _) eqn:Hupd.
  - destruct (dispatch_backend _ _ _ _ _ _ _) as [[[evb res] upd]|] eqn:Hb; [|discriminate].
    apply dispatch_backend_from_backend in Hb.
    inversion H; subst; clear H.
    match goal with
    | |- context [if upd then [] else fst ?x] =>
        pose proof (update_resolv_conf_from_backend e
                      (strv (limit_searches (add_hostname_search (hostname (priv w))
                                                                 (searches rc))))
                      (if caching then Some ["127.0.0.1"] else strv (nameservers rc))
                      (strv (options rc)) NM_DNS_MANAGER_RESOLV_CONF_MAN_UNMANAGED) as Fp;
        exists (evb ++ (if upd then [] else fst x))
    end.
    split; [|split; [|discriminate]].
    + erewrite new_events_app; [|simpl; reflexivity]. simpl.
      now rewrite <- !app_assoc.
    + apply Forall_app. split; [assumption|]. destruct upd; [constructor | assumption].
  - inversion H; subst; clear H.
    match goal with
    | |- context [fst ?x ++ []] => exists (fst x)
    end.
    split; [|split; [|reflexivity]].
    + erewrite new_events_app; [|simpl; reflexivity]. simpl. reflexivity.
    + apply update_resolv_conf_from_backend.
Qed.

Lemma update_plugin_events e nc w ev :
  In ev (fst (update_plugin e nc w)) ->
  exists a b c g h ok, ev = EvPluginUpdate a b c g h ok.
Proof.
  unfold update_plugin. repeat break_if; simpl; intros H;
    repeat match type of H with
           | _ \/ _ => destruct H as [H | H]
           end; try contradiction; subst; eauto 7.
Qed.

(** The trace of a commit, split into what comes before the signal
    and the signal. *)
Lemma update_dns_trace_split e nc w r w' :
  update_dns e nc w = Some (r, w') ->
  exists evb,
    new_events w w'
    = (EvUpdateDns nc
       :: (if timer (plugin_ratelimit (priv w)) =? 0 then []
           else [EvSourceRemove (timer (plugin_ratelimit (priv w)))])
       ++ fst (update_plugin e nc w) ++ evb)
      ++ (if manages_resolv_conf (priv w) && r then [EvSignalConfigChanged] else [])
    /\ Forall (fun ev => from_backend ev = true) evb
    /\ (manages_resolv_conf (priv w) = false -> r = true).
Proof.
  intros Hu. destruct (update_dns_trace _ _ _ Hu) as (evb & Ht & Fb & Hr).
  exists evb. split; [|split; assumption].
  rewrite Ht. simpl. now rewrite <- !app_assoc.
Qed.

(** X10.  The change signal tells of a managed [/etc/resolv.conf] brought
    up to date.  It is emitted exactly when the manager manages the
    file and the commit returns TRUE, at most once, as the last thing
    the commit does; a manager that does not manage the file always
    returns TRUE and never emits it. *)
Theorem change_signal_follows_success (e : Env) (no_caching : bool) (w w' : World)
    (r : bool) :
  update_dns e no_caching w = Some (r, w') ->
  (In EvSignalConfigChanged (new_events w w')
   <-> manages_resolv_conf (priv w) = true /\ r = true)
  /\ (manages_resolv_conf (priv w) = false -> r = true)
  /\ (In EvSignalConfigChanged (new_events w w') ->
      exists before,
        new_events w w' = before ++ [EvSignalConfigChanged]
        /\ ~ In EvSignalConfigChanged before).
Proof.
  intros Hu. destruct (update_dns_trace_split _ _ _ Hu) as (evb & -> & Fb & Hr).
  match goal with
  | |- context [(?b ++ (if _ then _ else _))] =>
      assert (Hnot : ~ In EvSignalConfigChanged b)
  end.
  { intros [H | H]; [discriminate H|].
    apply in_app_or in H. destruct H as [H | H].
    - destruct (timer _ =? 0); simpl in H; [tauto|]. destruct H as [H | []]. discriminate H.
    - apply in_app_or in H. destruct H as [H | H].
      + apply update_plugin_events in H. destruct H as (a & b & c & g & h & ok & H).
        discriminate H.
      + rewrite Forall_forall in Fb. specialize (Fb _ H). discriminate Fb. }
  match goal with
  | |- context [(?b ++ (if _ then _ else _))] => remember b as before eqn:Hbefore
  end.
  clear Hbefore.
  split; [|split; [exact Hr|]].
  - rewrite in_app_iff.
    destruct (manages_resolv_conf (priv w)), r; simpl; intuition congruence.
  - rewrite in_app_iff. intros [H | H]; [contradiction|].
    destruct (manages_resolv_conf (priv w) && r); [|destruct H].
    eexists. split; [reflexivity | exact Hnot].
Qed.

(** X11.  A commit takes a pending retry with it.  Afterwards no retry
    timer is set; the source the commit removes is the pending timer,
    if there is one, and no other; the start of the rate-limit window
    and the count of restarts are left as they were. *)
Theorem commit_cancels_pending_retry (e : Env) (no_caching : bool) (w w' : World)
    (r : bool) :
  update_dns e no_caching w = Some (r, w') ->
  timer (plugin_ratelimit (priv w')) = 0
  /\ ts (plugin_ratelimit (priv w')) = ts (plugin_ratelimit (priv w))
  /\ num_restarts (plugin_ratelimit (priv w')) = num_restarts (plugin_ratelimit (priv w))
  /\ forall id,
       In (EvSourceRemove id) (new_events w w')
       <-> id = timer (plugin_ratelimit (priv w)) /\ id <> 0.
Proof.
  intros Hu. destruct (update_dns_priv _ _ _ Hu) as (Hp & _).
  rewrite Hp. simpl. split; [reflexivity|]. split; [reflexivity|]. split; [reflexivity|].
  intros id. destruct (update_dns_trace_split _ _ _ Hu) as (evb & -> & Fb & _).
  rewrite in_app_iff. simpl. rewrite !in_app_iff.
  assert (Hpl : ~ In (EvSourceRemove id) (fst (update_plugin e no_caching w))).
  { intros H. apply update_plugin_events in H.
    destruct H as (a & b & c & g & h & ok & H). discriminate H. }
  assert (Hb : ~ In (EvSourceRemove id) evb).
  { intros H. rewrite Forall_forall in Fb. specialize (Fb _ H). discriminate Fb. }
  assert (Hs : ~ In (EvSourceRemove id)
                 (if manages_resolv_conf (priv w) && r then [EvSignalConfigChanged] else [])).
  { destruct (_ && _); simpl; [intros [H | []]; discriminate H | tauto]. }
  destruct (timer (plugin_ratelimit (priv w)) =? 0) eqn:Ht0; simpl.
  - apply Z.eqb_eq in Ht0. split.
    + intros [[H | [[] | [H | H]]] | H]; try discriminate H; contradiction.
    + intros [-> Hne]. contradiction.
  - apply Z.eqb_neq in Ht0. split.
    + intros [[H | [[H | []] | [H | H]]] | H]; try discriminate H; try contradiction.
      inversion H; subst. now split.
    + intros [-> _]. left. right. left. now left.
Qed.

End CommitTrace.

Lemma change_signal_follows_success_witness :
  exists r w',
    @update_dns Examples.E_soup Concrete.env_ok false (Examples.fresh Examples.E_soup)
    = Some (r, w')
    /\ In EvSignalConfigChanged (new_events (Examples.fresh Examples.E_soup) w').
Proof.
  destruct (@update_dns Examples.E_soup Concrete.env_ok false (Examples.fresh Examples.E_soup))
    as [[r w']|] eqn:Hu; [|discriminate Hu].
  exists r, w'. split; [reflexivity|].
  destruct (@change_signal_follows_success Examples.E_soup _ _ _ _ _ Hu) as [H _].
  apply H. inversion Hu. split; reflexivity.
Defined.

Lemma commit_cancels_pending_retry_witness :
  timer (plugin_ratelimit (priv RetryExample.deferred)) = 77
  /\ exists r w',
       @update_dns Examples.E_soup Concrete.env_ok false RetryExample.deferred = Some (r, w')
       /\ timer (plugin_ratelimit (priv w')) = 0
       /\ In (EvSourceRemove 77) (new_events RetryExample.deferred w').
Proof.
  split; [reflexivity|].
  assert (Hw : asserts_hold RetryExample.deferred).
  { split; [vm_compute; discriminate | intros g Hg; vm_compute in Hg; discriminate Hg]. }
  destruct (@update_dns_returns Examples.E_soup Concrete.env_ok false RetryExample.deferred Hw)
    as (r & w' & Hu).
  exists r, w'. split; [exact Hu|].
  destruct (@commit_cancels_pending_retry Examples.E_soup _ _ _ _ _ Hu) as (H1 & _ & _ & H2).
  split; [exact H1|]. apply H2. split; [vm_compute; reflexivity | discriminate].
Defined.

(** ** Commits that do not reach the configured backend *)

Section OtherCommits.
Context {E : Externals}.

Lemma update_resolv_conf_private e s n o :
  Forall private_only
         (fst (update_resolv_conf e s n o NM_DNS_MANAGER_RESOLV_CONF_MAN_UNMANAGED)).
Proof.
  unfold update_resolv_conf. simpl rc_manager_eqb.
  repeat break_if; try (simpl in *; congruence); simpl; carry_list.
Qed.

Lemma update_resolv_conf_no_helper e s n o rcm :
  Forall runs_no_helper (fst (update_resolv_conf e s n o rcm)).
Proof.
  assert (Hl : Forall runs_no_helper (fst (update_resconf_symlink e))).
  { unfold update_resconf_symlink, replace_resconf_symlink.
    repeat break_if; simpl; carry_list. }
  unfold update_resolv_conf.
  destruct (update_resconf_symlink e) as [l r]. simpl in Hl.
  repeat break_if; simpl; carry_list.
Qed.

(** X12.  A manager that does not manage [/etc/resolv.conf] (unmanaged
    mode, or the file is immutable) still commits: it merges, updates
    the plugin and enters [update_resolv_conf] for the private copy,
    but it runs no helper, does nothing to [/etc/resolv.conf], emits
    no change signal, leaves [dns_touched] as it is, and returns TRUE
    whatever happens to the private copy. *)
Theorem unmanaged_commit_stays_private (e : Env) (no_caching : bool) (w : World) :
  manages_resolv_conf (priv w) = false ->
  (forall g, global_dns_config w = Some g -> global_default_domain g <> None) ->
  exists w',
    update_dns e no_caching w = Some (true, w')
    /\ dns_touched (priv w') = dns_touched (priv w)
    /\ Forall private_only (new_events w w')
    /\ Exists (fun ev => is_backend_call ev = true) (new_events w w').
Proof.
  intros Hm Hg.
  assert (Hw : asserts_hold w).
  { split; [|exact Hg]. intros Hk. unfold manages_resolv_conf in Hm.
    rewrite Hk in Hm. discriminate Hm. }
  destruct (merge_configs_some Hw) as [rc Hrc].
  pose proof (update_plugin_events e no_caching w) as Hpl.
  unfold update_dns. rewrite Hrc.
  destruct (update_plugin e no_caching w) as [evp caching]. simpl in Hpl.
  unfold manages_resolv_conf in Hm. rewrite Hm. cbv beta iota zeta.
  eexists. split; [reflexivity|]. split; [reflexivity|].
  erewrite new_events_app by (simpl; reflexivity).
  split.
  - constructor; [exact I|].
    apply Forall_app. split; [destruct (_ =? 0); carry_list|].
    apply Forall_app. split.
    + apply Forall_forall. intros ev H.
      destruct (Hpl ev H) as (a & b & c & g & h & ok & ->). exact I.
    + simpl. rewrite app_nil_r. apply update_resolv_conf_private.
  - apply Exists_cons_tl. apply Exists_app. right. apply Exists_app. right.
    simpl. rewrite app_nil_r. apply update_resolv_conf_carries.
Qed.

(** X13.  When the helper of the configured backend cannot be run
    ([resolvconf] is not executable, [netconfig] cannot be spawned),
    the commit falls back on writing the files itself: it enters
    [update_resolv_conf] in symlink mode with the same searches,
    nameservers and options, its return value is that of this write,
    and nothing is handed to a helper. *)
Theorem missing_helper_falls_back (e : Env) (no_caching : bool) (w : World) :
  asserts_hold w ->
  (rc_manager (priv w) = NM_DNS_MANAGER_RESOLV_CONF_MAN_RESOLVCONF
   /\ resolvconf_executable e = false)
  \/ (rc_manager (priv w) = NM_DNS_MANAGER_RESOLV_CONF_MAN_NETCONFIG
      /\ netconfig_pid e <= 0) ->
  exists rc w',
    merge_configs w = Some rc
    /\ let run := update_resolv_conf e (commit_searches w rc)
                    (commit_nameservers e no_caching w rc) (strv (options rc))
                    NM_DNS_MANAGER_RESOLV_CONF_MAN_SYMLINK in
       update_dns e no_caching w = Some (SpawnResult_eqb (snd run) SR_SUCCESS, w')
       /\ (exists before after, new_events w w' = before ++ fst run ++ after)
       /\ Forall runs_no_helper (new_events w w').
Proof.
  intros Hw Hc. destruct (merge_configs_some Hw) as [rc Hrc]. exists rc.
  pose proof (update_plugin_events e no_caching w) as Hpl.
  unfold update_dns, commit_searches, commit_nameservers. rewrite Hrc.
  destruct (update_plugin e no_caching w) as [evp caching]. simpl in Hpl. simpl snd.
  set (s := strv (limit_searches _)).
  set (n := if caching then _ else _).
  set (o := strv (options rc)).
  pose proof (update_resolv_conf_no_helper e s n o NM_DNS_MANAGER_RESOLV_CONF_MAN_SYMLINK)
    as Hn.
  assert (Hplug : Forall runs_no_helper evp).
  { apply Forall_forall. intros ev H.
    destruct (Hpl ev H) as (a & b & c & g & h & ok & ->). exact I. }
  assert (Ht : forall b id, Forall runs_no_helper (if b : bool then [] else [EvSourceRemove id]))
    by (intros [] id; carry_list).
  assert (Hs : forall b : bool, Forall runs_no_helper
                                  (if b then [EvSignalConfigChanged] else []))
    by (intros []; carry_list).
  destruct Hc as [[Hm Hx] | [Hm Hx]].
  - rewrite Hm. cbn [rc_manager_eqb orb negb].
    unfold dispatch_backend, dispatch_resolvconf. rewrite Hx.
    cbn [negb fst snd SpawnResult_eqb].
    destruct (update_resolv_conf e s n o NM_DNS_MANAGER_RESOLV_CONF_MAN_SYMLINK)
      as [evl rl].
    cbn [fst snd] in Hn |- *. cbn [andb].
    eexists. split; [reflexivity|]. split; [reflexivity|].
    erewrite new_events_app by (cbn [log add_log set_priv]; reflexivity).
    split.
    + match goal with
      | |- exists before after, ?a ++ ?t ++ evp ++ (?c ++ evl) ++ ?rest = _ =>
          exists (a ++ t ++ evp ++ c), rest
      end.
      rewrite <- !app_assoc. reflexivity.
    + repeat (apply Forall_app; split); auto; repeat constructor.
  - apply Z.leb_le in Hx. rewrite Hm. cbn [rc_manager_eqb orb negb].
    unfold dispatch_backend, dispatch_netconfig. rewrite Hx.
    cbn [negb fst snd SpawnResult_eqb].
    destruct (update_resolv_conf e s n o NM_DNS_MANAGER_RESOLV_CONF_MAN_SYMLINK)
      as [evl rl].
    cbn [fst snd] in Hn |- *. cbn [andb].
    eexists. split; [reflexivity|]. split; [reflexivity|].
    erewrite new_events_app by (cbn [log add_log set_priv]; reflexivity).
    split.
    + match goal with
      | |- exists before after, ?a ++ ?t ++ evp ++ (?c ++ evl) ++ ?rest = _ =>
          exists (a ++ t ++ evp ++ c), rest
      end.
      rewrite <- !app_assoc. reflexivity.
    + repeat (apply Forall_app; split); auto; repeat constructor.
Qed.

(** X14.  A failure reported by the plugin.  If the plugin is not a caching
    one nothing is done.  If it is, exactly one commit follows, with
    caching off: the plugin is not asked to update, every backend is
    handed the merged nameservers rather than the loopback address,
    and the plugin stays in place. *)
Theorem plugin_failure_turns_caching_off (e : Env) (plug : NMDnsPlugin) (w : World) :
  asserts_hold w ->
  plugin (priv w) = Some plug ->
  (nm_dns_plugin_is_caching plug = false -> plugin_failed e plug w = Some w)
  /\ (nm_dns_plugin_is_caching plug = true ->
      exists rc w',
        merge_configs w = Some rc
        /\ plugin_failed e plug w = Some w'
        /\ commits (new_events w w') = 1%nat
        /\ Forall (hands_nameservers (strv (nameservers rc))) (new_events w w')
        /\ (forall a b c g h ok, ~ In (EvPluginUpdate a b c g h ok) (new_events w w'))
        /\ plugin (priv w') = Some plug).
Proof.
  intros Hw Hp. unfold plugin_failed. split; [intros ->; reflexivity|].
  intros Hc. rewrite Hc. simpl.
  destruct (update_dns_returns e true Hw) as (r & w' & Hu). rewrite Hu.
  destruct (update_dns_lists _ _ _ Hu) as (rc & Hrc & _ & Hn & _ & _).
  assert (Hup : update_plugin e true w = ([], false)).
  { unfold update_plugin. rewrite Hp, Hc. reflexivity. }
  exists rc, w'. split; [exact Hrc|]. split; [reflexivity|].
  split; [exact (update_dns_commits _ _ _ Hu)|].
  split; [unfold commit_nameservers in Hn; rewrite Hup in Hn; exact Hn|].
  split; [|rewrite (update_dns_keeps_plugin _ _ _ Hu); exact Hp].
  intros a b c g h ok Hin.
  destruct (update_dns_trace_split _ _ _ Hu) as (evb & Ht & Fb & _).
  rewrite Ht, Hup in Hin. simpl in Hin.
  destruct Hin as [H | H]; [discriminate H|].
  apply in_app_or in H. destruct H as [H | H].
  - apply in_app_or in H. destruct H as [H | H].
    + destruct (_ =? 0); simpl in H; [tauto|]. destruct H as [H | []]. discriminate H.
    + rewrite Forall_forall in Fb. specialize (Fb _ H). discriminate Fb.
  - destruct (_ && _); simpl in H; [|tauto]. destruct H as [H | []]. discriminate H.
Qed.

End OtherCommits.

Lemma unmanaged_commit_stays_private_witness :
  exists w',
    @update_dns Examples.E_soup Concrete.env_ok false HelperExample.fresh_unmanaged
    = Some (true, w')
    /\ Forall (@private_only Examples.E_soup) (new_events HelperExample.fresh_unmanaged w').
Proof.
  destruct (@unmanaged_commit_stays_private Examples.E_soup Concrete.env_ok false
              HelperExample.fresh_unmanaged eq_refl) as (w' & H1 & _ & H2 & _).
  - intros g Hg. discriminate Hg.
  - exists w'. split; assumption.
Defined.

Lemma missing_helper_falls_back_witness :
  exists w',
    @update_dns Examples.E_soup HelperExample.env_no_helper false
       HelperExample.fresh_resolvconf
    = Some (true, w')
    /\ Forall runs_no_helper (new_events HelperExample.fresh_resolvconf w').
Proof.
  assert (Hw : asserts_hold HelperExample.fresh_resolvconf).
  { split; [discriminate | intros g Hg; discriminate Hg]. }
  destruct (@missing_helper_falls_back Examples.E_soup HelperExample.env_no_helper false
              HelperExample.fresh_resolvconf Hw) as (rc & w' & Hrc & Hu & _ & Hn).
  - left. split; reflexivity.
  - exists w'. split; [|exact Hn].
    rewrite Hu. inversion Hrc; subst rc. reflexivity.
Defined.

Lemma plugin_failure_turns_caching_off_witness :
  exists w',
    @plugin_failed Examples.E_soup Concrete.env_ok Examples.dnsmasq PluginExample.dnsmasq_lan
    = Some w'
    /\ Forall (hands_nameservers (Some ["1.1.1.1"; "8.8.8.8"]))
              (new_events PluginExample.dnsmasq_lan w').
Proof.
  assert (Hw : asserts_hold PluginExample.dnsmasq_lan).
  { split; [discriminate | intros g Hg; discriminate Hg]. }
  destruct (@plugin_failure_turns_caching_off Examples.E_soup Concrete.env_ok Examples.dnsmasq
              PluginExample.dnsmasq_lan Hw eq_refl) as [_ H].
  destruct (H eq_refl) as (rc & w' & Hrc & Hf & _ & Hn & _).
  exists w'. split; [exact Hf|].
  inversion Hrc; subst rc. exact Hn.
Defined.

(** ** Attaching and detaching *)

Lemma g_slist_remove_In {A} (eqb : A -> A -> bool) (l : list A) (x y : A) :
  In x (g_slist_remove eqb l y) -> In x l.
Proof.
  induction l as [|a l IH]; simpl; [tauto|].
  destruct (eqb a y); simpl; tauto.
Qed.

Lemma g_slist_remove_other {A} (eqb : A -> A -> bool) (l : list A) (x y : A) :
  (forall a b, eqb a b = true <-> a = b) ->
  In x l -> x <> y -> In x (g_slist_remove eqb l y).
Proof.
  intros Heqb. induction l as [|a l IH]; simpl; [tauto|].
  intros [-> | H] Hne.
  - destruct (eqb x y) eqn:Hxy; [apply Heqb in Hxy; contradiction | now left].
  - destruct (eqb a y); [assumption | right; now apply IH].
Qed.

Lemma g_slist_remove_NoDup {A} (eqb : A -> A -> bool) (l : list A) (y : A) :
  NoDup l -> NoDup (g_slist_remove eqb l y).
Proof.
  induction 1 as [|a l Ha Hl IH]; simpl; [constructor|].
  destruct (eqb a y); [assumption|].
  constructor; [|assumption]. intros H. apply Ha. now apply g_slist_remove_In in H.
Qed.

Lemma g_slist_remove_gone {A} (eqb : A -> A -> bool) (l : list A) (y : A) :
  (forall a b, eqb a b = true <-> a = b) ->
  NoDup l -> ~ In y (g_slist_remove eqb l y).
Proof.
  intros Heqb. induction 1 as [|a l Ha Hl IH]; simpl; [tauto|].
  destruct (eqb a y) eqn:Hay.
  - apply Heqb in Hay. now subst.
  - intros [-> | H]; [|contradiction].
    assert (Hyy : eqb y y = true) by now apply Heqb. congruence.
Qed.

Lemma g_slist_remove_appended {A} (eqb : A -> A -> bool) (l : list A) (x : A) :
  (forall a b, eqb a b = true <-> a = b) ->
  ~ In x l -> g_slist_remove eqb (g_slist_append l x) x = l.
Proof.
  intros Heqb. unfold g_slist_append. induction l as [|a l IH]; simpl; intros Hn.
  - assert (Hxx : eqb x x = true) by now apply Heqb. now rewrite Hxx.
  - destruct (eqb a x) eqn:Hax.
    + apply Heqb in Hax. tauto.
    + f_equal. apply IH. tauto.
Qed.

Lemma g_slist_find_iff {A} (eqb : A -> A -> bool) (l : list A) (x : A) :
  (forall a b, eqb a b = true <-> a = b) ->
  g_slist_find eqb l x = true <-> In x l.
Proof.
  intros Heqb. split; [now apply g_slist_find_true|].
  intros H. destruct (g_slist_find eqb l x) eqn:Hf; [reflexivity|].
  exfalso. unfold g_slist_find in Hf.
  assert (Ht : existsb (eqb x) l = true).
  { apply existsb_exists. exists x. split; [assumption | now apply Heqb]. }
  congruence.
Qed.

Lemma attachments_consistent_ext (p q : NMDnsManagerPrivate) :
  attachments q = attachments p -> attachments_consistent p -> attachments_consistent q.
Proof.
  unfold attachments, attachments_consistent. intros H.
  inversion H as [[H1 H2 H3 H4 H5]]. now rewrite H1, H2, H3, H4, H5.
Qed.

Section Attachments.
Context {E : Externals}.

Lemma update_dns_attachments e nc w r w' :
  update_dns e nc w = Some (r, w') ->
  attachments (priv w') = attachments (priv w)
  /\ iface_tag w' = iface_tag w
  /\ hostname (priv w') = hostname (priv w).
Proof.
  intros H. apply update_dns_priv in H. destruct H as (-> & _ & _ & -> & _).
  repeat split.
Qed.

Lemma commit_unless_queued_attachments e w w' :
  commit_unless_queued e w = Some w' ->
  attachments (priv w') = attachments (priv w)
  /\ iface_tag w' = iface_tag w
  /\ hostname (priv w') = hostname (priv w).
Proof.
  unfold commit_unless_queued. destruct (updates_queue (priv w) =? 0).
  - destruct (update_dns e false w) as [[r w1]|] eqn:Hu; [|discriminate].
    intros H. inversion H; subst. exact (update_dns_attachments _ _ _ Hu).
  - intros H. inversion H; subst. repeat split.
Qed.

(** The lists after [nm_dns_manager_add_ip4_config] and
    [nm_dns_manager_add_ip6_config]. *)
Lemma add_ip4_attachments e iface c t w r w' :
  nm_dns_manager_add_ip4_config e iface (Some c) t w = Some (r, w') ->
  let p := priv w in
  r = true
  /\ attachments (priv w')
     = match t with
       | NM_DNS_IP_CONFIG_TYPE_VPN =>
           (configs p,
            if g_slist_find Nat.eqb (ip4_vpn_configs p) c then ip4_vpn_configs p
            else g_slist_append (ip4_vpn_configs p) c,
            ip6_vpn_configs p, ip4_device_config p, ip6_device_config p)
       | NM_DNS_IP_CONFIG_TYPE_BEST_DEVICE =>
           (if g_slist_find gpointer_eqb (configs p) (Ref4 c) then configs p
            else g_slist_append (configs p) (Ref4 c),
            ip4_vpn_configs p, ip6_vpn_configs p, Some c, ip6_device_config p)
       | NM_DNS_IP_CONFIG_TYPE_DEFAULT =>
           (if g_slist_find gpointer_eqb (configs p) (Ref4 c) then configs p
            else g_slist_append (configs p) (Ref4 c),
            ip4_vpn_configs p, ip6_vpn_configs p, ip4_device_config p, ip6_device_config p)
       end.
Proof.
  unfold nm_dns_manager_add_ip4_config. intros H.
  destruct (commit_unless_queued e _) as [w2|] eqn:Hc; [|discriminate].
  inversion H; subst; clear H.
  apply commit_unless_queued_attachments in Hc. destruct Hc as (-> & _ & _).
  split; [reflexivity|].
  destruct t; simpl; repeat inside_add; reflexivity.
Qed.

Lemma add_ip6_attachments e iface c t w r w' :
  nm_dns_manager_add_ip6_config e iface (Some c) t w = Some (r, w') ->
  let p := priv w in
  r = true
  /\ attachments (priv w')
     = match t with
       | NM_DNS_IP_CONFIG_TYPE_VPN =>
           (configs p, ip4_vpn_configs p,
            if g_slist_find Nat.eqb (ip6_vpn_configs p) c then ip6_vpn_configs p
            else g_slist_append (ip6_vpn_configs p) c,
            ip4_device_config p, ip6_device_config p)
       | NM_DNS_IP_CONFIG_TYPE_BEST_DEVICE =>
           (if g_slist_find gpointer_eqb (configs p) (Ref6 c) then configs p
            else g_slist_append (configs p) (Ref6 c),
            ip4_vpn_configs p, ip6_vpn_configs p, ip4_device_config p, Some c)
       | NM_DNS_IP_CONFIG_TYPE_DEFAULT =>
           (if g_slist_find gpointer_eqb (configs p) (Ref6 c) then configs p
            else g_slist_append (configs p) (Ref6 c),
            ip4_vpn_configs p, ip6_vpn_configs p, ip4_device_config p, ip6_device_config p)
       end.
Proof.
  unfold nm_dns_manager_add_ip6_config. intros H.
  destruct (commit_unless_queued e _) as [w2|] eqn:Hc; [|discriminate].
  inversion H; subst; clear H.
  apply commit_unless_queued_attachments in Hc. destruct Hc as (-> & _ & _).
  split; [reflexivity|].
  destruct t; simpl; repeat inside_add; reflexivity.
Qed.

(** The lists after the two [remove] functions. *)
Lemma remove_ip4_attachments e c w r w' :
  nm_dns_manager_remove_ip4_config e (Some c) w = Some (r, w') ->
  let p := priv w in
  if g_slist_find gpointer_eqb (configs p) (Ref4 c)
  then r = true
       /\ attachments (priv w')
          = (g_slist_remove gpointer_eqb (configs p) (Ref4 c),
             ip4_vpn_configs p, ip6_vpn_configs p,
             match ip4_device_config p with
             | Some d => if Nat.eqb c d then None else Some d
             | None => None
             end,
             ip6_device_config p)
       /\ iface_tag w' (Ref4 c) = None
  else if g_slist_find Nat.eqb (ip4_vpn_configs p) c
  then r = true
       /\ attachments (priv w')
          = (configs p, g_slist_remove Nat.eqb (ip4_vpn_configs p) c,
             ip6_vpn_configs p, ip4_device_config p, ip6_device_config p)
       /\ iface_tag w' (Ref4 c) = None
  else r = false /\ w' = w.
Proof.
  unfold nm_dns_manager_remove_ip4_config. intros H. cbv zeta.
  destruct (g_slist_find gpointer_eqb (configs (priv w)) (Ref4 c));
    [|destruct (g_slist_find Nat.eqb (ip4_vpn_configs (priv w)) c)];
    try (inversion H; subst; now split);
    (destruct (commit_unless_queued e _) as [w2|] eqn:Hc; [|discriminate];
     inversion H; subst; clear H;
     apply commit_unless_queued_attachments in Hc; destruct Hc as (Hc & _ & _);
     split; [reflexivity|]; split;
     [cbn [priv set_iface_tag]; rewrite Hc; unfold attachments; cbn;
      destruct (ip4_device_config (priv w)) as [d|] eqn:Hd; cbn; rewrite ?Hd;
      [destruct (Nat.eqb c d); cbn; rewrite ?Hd|]; reflexivity
     | simpl; now rewrite Nat.eqb_refl]).
Qed.

Lemma remove_ip6_attachments e c w r w' :
  nm_dns_manager_remove_ip6_config e (Some c) w = Some (r, w') ->
  let p := priv w in
  if g_slist_find gpointer_eqb (configs p) (Ref6 c)
  then r = true
       /\ attachments (priv w')
          = (g_slist_remove gpointer_eqb (configs p) (Ref6 c),
             ip4_vpn_configs p, ip6_vpn_configs p, ip4_device_config p,
             match ip6_device_config p with
             | Some d => if Nat.eqb c d then None else Some d
             | None => None
             end)
       /\ iface_tag w' (Ref6 c) = None
  else if g_slist_find Nat.eqb (ip6_vpn_configs p) c
  then r = true
       /\ attachments (priv w')
          = (configs p, ip4_vpn_configs p,
             g_slist_remove Nat.eqb (ip6_vpn_configs p) c,
             ip4_device_config p, ip6_device_config p)
       /\ iface_tag w' (Ref6 c) = None
  else r = false /\ w' = w.
Proof.
  unfold nm_dns_manager_remove_ip6_config. intros H. cbv zeta.
  destruct (g_slist_find gpointer_eqb (configs (priv w)) (Ref6 c));
    [|destruct (g_slist_find Nat.eqb (ip6_vpn_configs (priv w)) c)];
    try (inversion H; subst; now split);
    (destruct (commit_unless_queued e _) as [w2|] eqn:Hc; [|discriminate];
     inversion H; subst; clear H;
     apply commit_unless_queued_attachments in Hc; destruct Hc as (Hc & _ & _);
     split; [reflexivity|]; split;
     [cbn [priv set_iface_tag]; rewrite Hc; unfold attachments; cbn;
      destruct (ip6_device_config (priv w)) as [d|] eqn:Hd; cbn; rewrite ?Hd;
      [destruct (Nat.eqb c d); cbn; rewrite ?Hd|]; reflexivity
     | simpl; now rewrite Nat.eqb_refl]).
Qed.

End Attachments.

Lemma g_slist_add_NoDup {A} (eqb : A -> A -> bool) (l : list A) (x : A) :
  (forall a b, eqb a b = true <-> a = b) ->
  NoDup l ->
  NoDup (if g_slist_find eqb l x then l else g_slist_append l x).
Proof.
  intros Heqb Hn. destruct (g_slist_find eqb l x) eqn:Hf; [assumption|].
  unfold g_slist_append. apply NoDup_app; [assumption | repeat constructor; intros [] |].
  intros a Ha [<- | []]. apply (g_slist_find_iff _ _ _ Heqb) in Ha. congruence.
Qed.

Lemma g_slist_add_In {A} (eqb : A -> A -> bool) (l : list A) (x y : A) :
  (forall a b, eqb a b = true <-> a = b) ->
  In y (if g_slist_find eqb l x then l else g_slist_append l x) <-> In y l \/ y = x.
Proof.
  intros Heqb. destruct (g_slist_find eqb l x) eqn:Hf.
  - apply (g_slist_find_iff _ _ _ Heqb) in Hf. split; [auto | intros [H | ->]; assumption].
  - unfold g_slist_append. rewrite in_app_iff. simpl. intuition congruence.
Qed.

Lemma attachments_consistent_tuple (p : NMDnsManagerPrivate) cfgs v4 v6 d4 d6 :
  attachments p = (cfgs, v4, v6, d4, d6) ->
  NoDup cfgs -> NoDup v4 -> NoDup v6 ->
  (forall d, d4 = Some d -> In (Ref4 d) cfgs) ->
  (forall d, d6 = Some d -> In (Ref6 d) cfgs) ->
  attachments_consistent p.
Proof.
  unfold attachments, attachments_consistent. intros H.
  inversion H; subst. auto.
Qed.

Lemma attachments_inv (p : NMDnsManagerPrivate) cfgs v4 v6 d4 d6 :
  attachments p = (cfgs, v4, v6, d4, d6) ->
  configs p = cfgs /\ ip4_vpn_configs p = v4 /\ ip6_vpn_configs p = v6
  /\ ip4_device_config p = d4 /\ ip6_device_config p = d6.
Proof. unfold attachments. intros H. inversion H. auto. Qed.

Lemma nat_eqb_iff (a b : nat) : Nat.eqb a b = true <-> a = b.
Proof. apply Nat.eqb_eq. Qed.

Section AttachmentInvariant.
Context {E : Externals}.

Lemma do_call_consistent (c : call) (w w' : World) :
  attachments_consistent (priv w) -> do_call c w = Some w' ->
  attachments_consistent (priv w').
Proof.
  intros Hc. pose proof Hc as (N0 & N4 & N6 & D4 & D6).
  destruct c as [|e|e iface c t|e c|e iface c t|e c|e name|name]; cbn [do_call].
  - intros H. inversion H; subst. revert Hc. apply attachments_consistent_ext.
    unfold nm_dns_manager_begin_updates. destruct (_ =? 0); reflexivity.
  - unfold nm_dns_manager_end_updates.
    destruct (negb _); [intros H; inversion H; subst; exact Hc|].
    cbv zeta. destruct (_ || _); [intros H; inversion H; subst; exact Hc|].
    destruct (update_dns e false _) as [[r w2]|] eqn:Hu; [|discriminate].
    intros H. inversion H; subst. apply update_dns_attachments in Hu.
    destruct Hu as (Hu & _). revert Hc. apply attachments_consistent_ext.
    simpl. exact Hu.
  - destruct (nm_dns_manager_add_ip4_config e iface (Some c) t w) as [[r w1]|] eqn:Ha;
      simpl; [|discriminate].
    intros H. inversion H; subst.
    apply add_ip4_attachments in Ha. destruct Ha as [_ Ha].
    destruct t; eapply attachments_consistent_tuple; try exact Ha; auto;
      try (apply g_slist_add_NoDup; [apply gpointer_eqb_eq || apply nat_eqb_iff | assumption]);
      intros d Hd; apply g_slist_add_In; try apply gpointer_eqb_eq; auto.
    inversion Hd; subst. now right.
  - destruct (nm_dns_manager_remove_ip4_config e (Some c) w) as [[r w1]|] eqn:Hr;
      simpl; [|discriminate].
    intros H. inversion H; subst.
    apply remove_ip4_attachments in Hr. cbv zeta in Hr.
    destruct (g_slist_find gpointer_eqb (configs (priv w)) (Ref4 c));
      [|destruct (g_slist_find Nat.eqb (ip4_vpn_configs (priv w)) c)].
    + destruct Hr as (_ & Hr & _).
      eapply attachments_consistent_tuple; try exact Hr; auto.
      * now apply g_slist_remove_NoDup.
      * intros d Hd. destruct (ip4_device_config (priv w)) as [d0|]; [|discriminate].
        destruct (Nat.eqb c d0) eqn:Hcd; [discriminate|]. inversion Hd; subst.
        apply g_slist_remove_other; [apply gpointer_eqb_eq | now apply D4 |].
        apply Nat.eqb_neq in Hcd. congruence.
      * intros d Hd. apply g_slist_remove_other;
          [apply gpointer_eqb_eq | now apply D6 | discriminate].
    + destruct Hr as (_ & Hr & _).
      eapply attachments_consistent_tuple; try exact Hr; auto.
      now apply g_slist_remove_NoDup.
    + destruct Hr as [_ ->]. exact Hc.
  - destruct (nm_dns_manager_add_ip6_config e iface (Some c) t w) as [[r w1]|] eqn:Ha;
      simpl; [|discriminate].
    intros H. inversion H; subst.
    apply add_ip6_attachments in Ha. destruct Ha as [_ Ha].
    destruct t; eapply attachments_consistent_tuple; try exact Ha; auto;
      try (apply g_slist_add_NoDup; [apply gpointer_eqb_eq || apply nat_eqb_iff | assumption]);
      intros d Hd; apply g_slist_add_In; try apply gpointer_eqb_eq; auto.
    inversion Hd; subst. now right.
  - destruct (nm_dns_manager_remove_ip6_config e (Some c) w) as [[r w1]|] eqn:Hr;
      simpl; [|discriminate].
    intros H. inversion H; subst.
    apply remove_ip6_attachments in Hr. cbv zeta in Hr.
    destruct (g_slist_find gpointer_eqb (configs (priv w)) (Ref6 c));
      [|destruct (g_slist_find Nat.eqb (ip6_vpn_configs (priv w)) c)].
    + destruct Hr as (_ & Hr & _).
      eapply attachments_consistent_tuple; try exact Hr; auto.
      * now apply g_slist_remove_NoDup.
      * intros d Hd. apply g_slist_remove_other;
          [apply gpointer_eqb_eq | now apply D4 | discriminate].
      * intros d Hd. destruct (ip6_device_config (priv w)) as [d0|]; [|discriminate].
        destruct (Nat.eqb c d0) eqn:Hcd; [discriminate|]. inversion Hd; subst.
        apply g_slist_remove_other; [apply gpointer_eqb_eq | now apply D6 |].
        apply Nat.eqb_neq in Hcd. congruence.
    + destruct Hr as (_ & Hr & _).
      eapply attachments_consistent_tuple; try exact Hr; auto.
      now apply g_slist_remove_NoDup.
    + destruct Hr as [_ ->]. exact Hc.
  - unfold nm_dns_manager_set_hostname.
    destruct (match hostname (priv w) with Some _ => _ | None => _ end);
      [intros H; inversion H; subst; exact Hc|].
    intros H. apply commit_unless_queued_attachments in H. destruct H as (H & _).
    revert Hc. apply attachments_consistent_ext. exact H.
  - intros H. inversion H; subst. exact Hc.
Qed.

(** X15.  The attachments stay consistent.  Whatever is called, in whatever
    order, no list ever holds a config twice and a best device is
    always one of the configs of [priv->configs]; a manager starts
    out that way. *)
Theorem attachments_stay_consistent (cs : list call) (w w' : World) :
  attachments_consistent (priv w) ->
  run cs w = Some w' ->
  attachments_consistent (priv w')
  /\ forall global mode man immutable ip4_at ip6_at,
       attachments_consistent
         (priv (nm_dns_manager_init global mode man immutable ip4_at ip6_at)).
Proof.
  intros Hc Hr. split.
  - revert w Hc Hr. induction cs as [|c cs IH]; intros w Hc Hr; simpl in Hr.
    + inversion Hr; subst. exact Hc.
    + destruct (do_call c w) as [w1|] eqn:Hd; [|discriminate].
      apply (IH w1); [|exact Hr]. exact (do_call_consistent _ _ Hc Hd).
  - intros global mode man immutable ip4_at ip6_at.
    unfold nm_dns_manager_init, init_resolv_conf_mode.
    match goal with
    | |- context [let '(_, _) := ?x in _] => destruct x as [plug changed]
    end.
    destruct (_ || _); simpl;
      (repeat split; try constructor; intros d Hd; discriminate Hd).
Qed.

(** X16.  Attach, then detach.  A config that is attached nowhere, once
    attached and detached again, leaves the lists as they were and
    its interface tag cleared.  The best device does not come back: a
    config attached as best device takes the place of the one before,
    and detaching it leaves no best device at all. *)
Theorem attach_detach_round_trip (e1 e2 : Env) (iface : option string) (c : ptr)
    (t : NMDnsIPConfigType) (w : World) :
  asserts_hold w ->
  attachments_consistent (priv w) ->
  (~ In (Ref4 c) (configs (priv w)) -> ~ In c (ip4_vpn_configs (priv w)) ->
   exists w',
     run [AddIP4 e1 iface c t; RemoveIP4 e2 c] w = Some w'
     /\ attachments (priv w')
        = (configs (priv w), ip4_vpn_configs (priv w), ip6_vpn_configs (priv w),
           match t with
           | NM_DNS_IP_CONFIG_TYPE_BEST_DEVICE => None
           | _ => ip4_device_config (priv w)
           end,
           ip6_device_config (priv w))
     /\ iface_tag w' (Ref4 c) = None)
  /\ (~ In (Ref6 c) (configs (priv w)) -> ~ In c (ip6_vpn_configs (priv w)) ->
      exists w',
        run [AddIP6 e1 iface c t; RemoveIP6 e2 c] w = Some w'
        /\ attachments (priv w')
           = (configs (priv w), ip4_vpn_configs (priv w), ip6_vpn_configs (priv w),
              ip4_device_config (priv w),
              match t with
              | NM_DNS_IP_CONFIG_TYPE_BEST_DEVICE => None
              | _ => ip6_device_config (priv w)
              end)
        /\ iface_tag w' (Ref6 c) = None).
Proof.
  intros Hw (_ & _ & _ & D4 & D6). split; intros Hn0 Hnv.
  - destruct (do_call_asserts (AddIP4 e1 iface c t) Hw) as (w1 & Hd1 & Hw1).
    destruct (do_call_asserts (RemoveIP4 e2 c) Hw1) as (w2 & Hd2 & _).
    exists w2. cbn [run]. rewrite Hd1, Hd2. split; [reflexivity|].
    cbn [do_call] in Hd1, Hd2.
    destruct (nm_dns_manager_add_ip4_config e1 iface (Some c) t w) as [[r1 w1']|] eqn:Ha;
      [|discriminate]. inversion Hd1; subst w1'.
    destruct (nm_dns_manager_remove_ip4_config e2 (Some c) w1) as [[r2 w2']|] eqn:Hr;
      [|discriminate]. inversion Hd2; subst w2'.
    apply add_ip4_attachments in Ha. destruct Ha as [_ Ha]. cbv zeta in Ha.
    apply remove_ip4_attachments in Hr. cbv zeta in Hr.
    rewrite (@g_slist_find_false _ Nat.eqb _ _ nat_eqb_iff Hnv) in Ha.
    rewrite (@g_slist_find_false _ gpointer_eqb _ _ gpointer_eqb_eq Hn0) in Ha.
    assert (Hdev : match ip4_device_config (priv w) with
                   | Some d => if Nat.eqb c d then None else Some d
                   | None => None
                   end = ip4_device_config (priv w)).
    { destruct (ip4_device_config (priv w)) as [d|] eqn:Hd; [|reflexivity].
      destruct (Nat.eqb c d) eqn:Hcd; [|reflexivity].
      apply Nat.eqb_eq in Hcd. subst d. exfalso. apply Hn0. now apply D4. }
    destruct t; apply attachments_inv in Ha; destruct Ha as (H1 & H2 & H3 & H4 & H5);
      rewrite H1, H2, H3, H4, H5 in Hr.
    + rewrite (proj2 (@g_slist_find_iff _ gpointer_eqb _ _ gpointer_eqb_eq)) in Hr
        by (apply in_or_app; right; now left).
      destruct Hr as (_ & Hr & Ht). split; [|exact Ht].
      now rewrite Hr, Hdev, (@g_slist_remove_appended _ gpointer_eqb _ _ gpointer_eqb_eq Hn0).
    + rewrite (proj2 (@g_slist_find_iff _ gpointer_eqb _ _ gpointer_eqb_eq)) in Hr
        by (apply in_or_app; right; now left).
      destruct Hr as (_ & Hr & Ht). split; [|exact Ht].
      now rewrite Hr, Nat.eqb_refl,
        (@g_slist_remove_appended _ gpointer_eqb _ _ gpointer_eqb_eq Hn0).
    + rewrite (@g_slist_find_false _ gpointer_eqb _ _ gpointer_eqb_eq Hn0) in Hr.
      rewrite (proj2 (@g_slist_find_iff _ Nat.eqb _ _ nat_eqb_iff)) in Hr
        by (apply in_or_app; right; now left).
      destruct Hr as (_ & Hr & Ht). split; [|exact Ht].
      rewrite Hr. repeat f_equal.
      exact (@g_slist_remove_appended ptr Nat.eqb _ _ nat_eqb_iff Hnv).
  - destruct (do_call_asserts (AddIP6 e1 iface c t) Hw) as (w1 & Hd1 & Hw1).
    destruct (do_call_asserts (RemoveIP6 e2 c) Hw1) as (w2 & Hd2 & _).
    exists w2. cbn [run]. rewrite Hd1, Hd2. split; [reflexivity|].
    cbn [do_call] in Hd1, Hd2.
    destruct (nm_dns_manager_add_ip6_config e1 iface (Some c) t w) as [[r1 w1']|] eqn:Ha;
      [|discriminate]. inversion Hd1; subst w1'.
    destruct (nm_dns_manager_remove_ip6_config e2 (Some c) w1) as [[r2 w2']|] eqn:Hr;
      [|discriminate]. inversion Hd2; subst w2'.
    apply add_ip6_attachments in Ha. destruct Ha as [_ Ha]. cbv zeta in Ha.
    apply remove_ip6_attachments in Hr. cbv zeta in Hr.
    rewrite (@g_slist_find_false _ Nat.eqb _ _ nat_eqb_iff Hnv) in Ha.
    rewrite (@g_slist_find_false _ gpointer_eqb _ _ gpointer_eqb_eq Hn0) in Ha.
    assert (Hdev : match ip6_device_config (priv w) with
                   | Some d => if Nat.eqb c d then None else Some d
                   | None => None
                   end = ip6_device_config (priv w)).
    { destruct (ip6_device_config (priv w)) as [d|] eqn:Hd; [|reflexivity].
      destruct (Nat.eqb c d) eqn:Hcd; [|reflexivity].
      apply Nat.eqb_eq in Hcd. subst d. exfalso. apply Hn0. now apply D6. }
    destruct t; apply attachments_inv in Ha; destruct Ha as (H1 & H2 & H3 & H4 & H5);
      rewrite H1, H2, H3, H4, H5 in Hr.
    + rewrite (proj2 (@g_slist_find_iff _ gpointer_eqb _ _ gpointer_eqb_eq)) in Hr
        by (apply in_or_app; right; now left).
      destruct Hr as (_ & Hr & Ht). split; [|exact Ht].
      now rewrite Hr, Hdev, (@g_slist_remove_appended _ gpointer_eqb _ _ gpointer_eqb_eq Hn0).
    + rewrite (proj2 (@g_slist_find_iff _ gpointer_eqb _ _ gpointer_eqb_eq)) in Hr
        by (apply in_or_app; right; now left).
      destruct Hr as (_ & Hr & Ht). split; [|exact Ht].
      now rewrite Hr, Nat.eqb_refl,
        (@g_slist_remove_appended _ gpointer_eqb _ _ gpointer_eqb_eq Hn0).
    + rewrite (@g_slist_find_false _ gpointer_eqb _ _ gpointer_eqb_eq Hn0) in Hr.
      rewrite (proj2 (@g_slist_find_iff _ Nat.eqb _ _ nat_eqb_iff)) in Hr
        by (apply in_or_app; right; now left).
      destruct Hr as (_ & Hr & Ht). split; [|exact Ht].
      rewrite Hr. repeat f_equal.
      exact (@g_slist_remove_appended ptr Nat.eqb _ _ nat_eqb_iff Hnv).
Qed.

End AttachmentInvariant.

Section DetachTwice.
Context {E : Externals}.

(** X17.  One detach takes a config out of one list only.  A config that is
    attached both as a VPN config and in [priv->configs] is, after one
    call of remove, gone from [priv->configs] but still a VPN config
    and still merged, now without its interface tag; a second call
    takes it out of the VPN list, and a third finds nothing and
    returns FALSE. *)
Theorem detach_takes_one_list_per_call (e1 e2 e3 : Env) (c : ptr) (w : World) :
  asserts_hold w ->
  attachments_consistent (priv w) ->
  In (Ref6 c) (configs (priv w)) ->
  In c (ip6_vpn_configs (priv w)) ->
  exists w1 w2,
    nm_dns_manager_remove_ip6_config e1 (Some c) w = Some (true, w1)
    /\ ~ In (Ref6 c) (configs (priv w1))
    /\ In c (ip6_vpn_configs (priv w1))
    /\ In (Ref6 c) (walk_order (priv w1))
    /\ iface_tag w1 (Ref6 c) = None
    /\ nm_dns_manager_remove_ip6_config e2 (Some c) w1 = Some (true, w2)
    /\ ~ In c (ip6_vpn_configs (priv w2))
    /\ nm_dns_manager_remove_ip6_config e3 (Some c) w2 = Some (false, w2).
Proof.
  intros Hw Hc H0 Hv. pose proof Hc as (N0 & _ & N6 & _).
  destruct (do_call_asserts (RemoveIP6 e1 c) Hw) as (w1 & Hd1 & Hw1).
  pose proof (do_call_consistent _ _ Hc Hd1) as Hc1.
  destruct (do_call_asserts (RemoveIP6 e2 c) Hw1) as (w2 & Hd2 & _).
  cbn [do_call] in Hd1, Hd2.
  destruct (nm_dns_manager_remove_ip6_config e1 (Some c) w) as [[r1 w1']|] eqn:Hr1;
    [|discriminate]. inversion Hd1; subst w1'. clear Hd1.
  destruct (nm_dns_manager_remove_ip6_config e2 (Some c) w1) as [[r2 w2']|] eqn:Hr2;
    [|discriminate]. inversion Hd2; subst w2'. clear Hd2.
  pose proof (remove_ip6_attachments _ _ _ Hr1) as A1. cbv zeta in A1.
  rewrite (proj2 (@g_slist_find_iff _ gpointer_eqb _ _ gpointer_eqb_eq) H0) in A1.
  destruct A1 as (-> & A1 & T1). apply attachments_inv in A1.
  destruct A1 as (C1 & _ & V1 & _ & _).
  assert (Hgone : ~ In (Ref6 c) (configs (priv w1))).
  { rewrite C1. now apply g_slist_remove_gone; [apply gpointer_eqb_eq|]. }
  assert (Hstill : In c (ip6_vpn_configs (priv w1))) by now rewrite V1.
  pose proof (remove_ip6_attachments _ _ _ Hr2) as A2. cbv zeta in A2.
  rewrite (@g_slist_find_false _ gpointer_eqb _ _ gpointer_eqb_eq Hgone) in A2.
  rewrite (proj2 (@g_slist_find_iff _ Nat.eqb _ _ nat_eqb_iff) Hstill) in A2.
  destruct A2 as (-> & A2 & _). apply attachments_inv in A2.
  destruct A2 as (C2 & _ & V2 & _ & _).
  assert (Hgone2 : ~ In c (ip6_vpn_configs (priv w2))).
  { rewrite V2, V1. now apply g_slist_remove_gone; [apply nat_eqb_iff|]. }
  assert (Hgone0 : ~ In (Ref6 c) (configs (priv w2))) by now rewrite C2.
  exists w1, w2.
  split; [first [reflexivity | exact Hr1]|]. split; [exact Hgone|]. split; [exact Hstill|].
  split; [unfold walk_order; rewrite !in_app_iff; right; right; left;
          now apply in_map|].
  split; [exact T1|]. split; [first [reflexivity | exact Hr2]|]. split; [exact Hgone2|].
  unfold nm_dns_manager_remove_ip6_config.
  rewrite (@g_slist_find_false _ gpointer_eqb _ _ gpointer_eqb_eq Hgone0).
  now rewrite (@g_slist_find_false _ Nat.eqb _ _ nat_eqb_iff Hgone2).
Qed.

End DetachTwice.

Lemma attachments_stay_consistent_witness :
  attachments_consistent (priv Examples.device_then_vpn).
Proof.
  assert (Hc : attachments_consistent (priv (Examples.fresh Examples.E_soup))).
  { vm_compute. repeat split; try constructor; intros d Hd; discriminate Hd. }
  assert (Hr : @run Examples.E_soup
                 [AddIP4 Concrete.env_ok (Some "eth0") 1%nat NM_DNS_IP_CONFIG_TYPE_BEST_DEVICE;
                  AddIP6 Concrete.env_ok (Some "tun0") 1%nat NM_DNS_IP_CONFIG_TYPE_VPN]
                 (Examples.fresh Examples.E_soup)
               = Some Examples.device_then_vpn)
    by (vm_compute; reflexivity).
  exact (proj1 (@attachments_stay_consistent Examples.E_soup _ _ _ Hc Hr)).
Defined.

Lemma attach_detach_round_trip_witness :
  exists w',
    @run Examples.E_soup
       [AddIP4 Concrete.env_ok (Some "eth0") 1%nat NM_DNS_IP_CONFIG_TYPE_BEST_DEVICE;
        RemoveIP4 Concrete.env_ok 1%nat]
       (Examples.fresh Examples.E_soup) = Some w'
    /\ attachments (priv w') = ([], [], [], None, None)
    /\ iface_tag w' (Ref4 1%nat) = None.
Proof.
  assert (Hw : asserts_hold (Examples.fresh Examples.E_soup)).
  { split; [discriminate | intros g Hg; discriminate Hg]. }
  assert (Hc : attachments_consistent (priv (Examples.fresh Examples.E_soup))).
  { vm_compute. repeat split; try constructor; intros d Hd; discriminate Hd. }
  destruct (@attach_detach_round_trip Examples.E_soup Concrete.env_ok Concrete.env_ok
              (Some "eth0") 1%nat NM_DNS_IP_CONFIG_TYPE_BEST_DEVICE
              (Examples.fresh Examples.E_soup) Hw Hc) as [H _].
  apply H; vm_compute; tauto.
Defined.

Lemma detach_takes_one_list_per_call_witness :
  exists w1 w2,
    @nm_dns_manager_remove_ip6_config Examples.E_soup Concrete.env_ok (Some 1%nat)
       DetachExample.vpn_and_default = Some (true, w1)
    /\ ~ In (Ref6 1%nat) (configs (priv w1))
    /\ In 1%nat (ip6_vpn_configs (priv w1))
    /\ In (Ref6 1%nat) (walk_order (priv w1))
    /\ iface_tag w1 (Ref6 1%nat) = None
    /\ @nm_dns_manager_remove_ip6_config Examples.E_soup Concrete.env_ok (Some 1%nat) w1
       = Some (true, w2)
    /\ ~ In 1%nat (ip6_vpn_configs (priv w2))
    /\ @nm_dns_manager_remove_ip6_config Examples.E_soup Concrete.env_ok (Some 1%nat) w2
       = Some (false, w2).
Proof.
  apply (@detach_takes_one_list_per_call Examples.E_soup Concrete.env_ok Concrete.env_ok
           Concrete.env_ok 1%nat DetachExample.vpn_and_default).
  - split; [vm_compute; discriminate | intros g Hg; vm_compute in Hg; discriminate Hg].
  - vm_compute. repeat split; try (repeat constructor; simpl; tauto);
      intros d Hd; discriminate Hd.
  - vm_compute. tauto.
  - vm_compute. tauto.
Defined.

(** ** The backend mode *)

Section BackendMode.
Context {E : Externals}.

(** X18.  The names of the backends.  Reading back the name
    [_rc_manager_to_string] gives a backend yields that backend,
    except for "immutable" and "unknown", which are no configuration
    values and read as unknown; no two backends share a name. *)
Theorem rc_manager_names_round_trip (m : NMDnsManagerResolvConfManager) :
  _get_resolv_conf_manager (Some (_rc_manager_to_string m))
  = match m with
    | NM_DNS_MANAGER_RESOLV_CONF_MAN_UNKNOWN
    | NM_DNS_MANAGER_RESOLV_CONF_MAN_IMMUTABLE => NM_DNS_MANAGER_RESOLV_CONF_MAN_UNKNOWN
    | _ => m
    end
  /\ forall m', _rc_manager_to_string m = _rc_manager_to_string m' -> m = m'.
Proof.
  split; [destruct m; reflexivity|].
  intros m'. destruct m, m'; simpl; intros H; try reflexivity; discriminate H.
Qed.

Lemma rc_manager_eqb_refl (m : NMDnsManagerResolvConfManager) : rc_manager_eqb m m = true.
Proof. destruct m; reflexivity. Qed.

Lemma init_resolv_conf_mode_priv mode man immutable w :
  exists plug,
    priv (init_resolv_conf_mode mode man immutable w)
    = set_rc_manager_plugin (priv w)
        (if nm_streq0 mode "none" then NM_DNS_MANAGER_RESOLV_CONF_MAN_UNMANAGED
         else if immutable then NM_DNS_MANAGER_RESOLV_CONF_MAN_IMMUTABLE
         else match _get_resolv_conf_manager man with
              | NM_DNS_MANAGER_RESOLV_CONF_MAN_UNKNOWN => _get_resolv_conf_manager_default
              | r => r
              end)
        plug
    /\ (nm_streq0 mode "dnsmasq" = false -> nm_streq0 mode "unbound" = false -> plug = None)
    /\ (nm_streq0 mode "dnsmasq" = true \/ nm_streq0 mode "unbound" = true -> plug <> None).
Proof.
  unfold init_resolv_conf_mode.
  match goal with
  | |- context [rc_manager_eqb (rc_manager (priv w)) ?r] => generalize r; intros rcm
  end.
  destruct (nm_streq0 mode "dnsmasq") eqn:Hd; [|destruct (nm_streq0 mode "unbound") eqn:Hu].
  - destruct (plugin (priv w)) as [[[] name caching]|] eqn:Hp; cbn;
      try (destruct (rc_manager_eqb (rc_manager (priv w)) rcm) eqn:Heq; cbn;
           [apply rc_manager_eqb_eq in Heq; rewrite Heq|]);
      eexists; (split; [reflexivity|]); (split; [discriminate|]); intros _;
      try rewrite Hp; discriminate.
  - destruct (plugin (priv w)) as [[[] name caching]|] eqn:Hp; cbn;
      try (destruct (rc_manager_eqb (rc_manager (priv w)) rcm) eqn:Heq; cbn;
           [apply rc_manager_eqb_eq in Heq; rewrite Heq|]);
      eexists; (split; [reflexivity|]); (split; [discriminate|]); intros _;
      try rewrite Hp; discriminate.
  - destruct (plugin (priv w)) as [plug|] eqn:Hp; cbn;
      try (destruct (rc_manager_eqb (rc_manager (priv w)) rcm) eqn:Heq; cbn;
           [apply rc_manager_eqb_eq in Heq; rewrite Heq|]);
      eexists; (split; [reflexivity|]); (split; [reflexivity|]);
      intros [H | H]; discriminate H.
Qed.

Lemma init_resolv_conf_mode_log mode man immutable w :
  log (init_resolv_conf_mode mode man immutable w) = log w.
Proof.
  unfold init_resolv_conf_mode.
  match goal with
  | |- context [let '(_, _) := ?x in _] => destruct x as [p0 changed]
  end.
  destruct (_ || _); reflexivity.
Qed.

(** X19.  The backend [init_resolv_conf_mode] settles on.  DNS mode "none"
    wins and means unmanaged; else an immutable [/etc/resolv.conf]
    wins; else it is the configured backend, or the build's default
    when none is configured or the name is not known.  The stored
    backend is never the unknown one.  Neither the attachments nor the
    hostname nor the trace are touched. *)
Theorem resolv_conf_mode_precedence (mode man : option string) (immutable : bool)
    (w : World) :
  let w' := init_resolv_conf_mode mode man immutable w in
  rc_manager (priv w')
  = (if nm_streq0 mode "none" then NM_DNS_MANAGER_RESOLV_CONF_MAN_UNMANAGED
     else if immutable then NM_DNS_MANAGER_RESOLV_CONF_MAN_IMMUTABLE
     else match _get_resolv_conf_manager man with
          | NM_DNS_MANAGER_RESOLV_CONF_MAN_UNKNOWN => _get_resolv_conf_manager_default
          | r => r
          end)
  /\ rc_manager (priv w') <> NM_DNS_MANAGER_RESOLV_CONF_MAN_UNKNOWN
  /\ attachments (priv w') = attachments (priv w)
  /\ hostname (priv w') = hostname (priv w)
  /\ log w' = log w.
Proof.
  cbv zeta. destruct (init_resolv_conf_mode_priv mode man immutable w) as (plug & Hp & _).
  split; [rewrite Hp; reflexivity|].
  split; [apply init_resolv_conf_mode_known|].
  split; [rewrite Hp; reflexivity|]. split; [rewrite Hp; reflexivity|].
  apply init_resolv_conf_mode_log.
Qed.

Lemma get_resolv_conf_manager_unmanaged (man : option string) :
  rc_manager_eqb
    match _get_resolv_conf_manager man with
    | NM_DNS_MANAGER_RESOLV_CONF_MAN_UNKNOWN => _get_resolv_conf_manager_default
    | r => r
    end NM_DNS_MANAGER_RESOLV_CONF_MAN_UNMANAGED
  = nm_streq0 man "unmanaged"
  /\ rc_manager_eqb
       match _get_resolv_conf_manager man with
       | NM_DNS_MANAGER_RESOLV_CONF_MAN_UNKNOWN => _get_resolv_conf_manager_default
       | r => r
       end NM_DNS_MANAGER_RESOLV_CONF_MAN_IMMUTABLE
     = false.
Proof.
  unfold _get_resolv_conf_manager, _get_resolv_conf_manager_default, nm_streq0.
  destruct man as [m|].
  - destruct (String.eqb m "unmanaged") eqn:Hm.
    + apply String.eqb_eq in Hm. subst m. split; reflexivity.
    + repeat break_if; split; reflexivity.
  - repeat break_if; split; reflexivity.
Qed.

(** X20.  Whether [/etc/resolv.conf] is written by the manager itself from
    what was merged, as [nm_dns_manager_get_resolv_conf_explicit]
    tells it after [init_resolv_conf_mode]: yes, unless the DNS mode
    is "none", "dnsmasq" or "unbound", the file is immutable, or the
    configured backend is "unmanaged". *)
Theorem resolv_conf_explicit_after_init (mode man : option string) (immutable : bool)
    (w : World) :
  nm_dns_manager_get_resolv_conf_explicit (init_resolv_conf_mode mode man immutable w)
  = negb (nm_streq0 mode "none" || immutable || nm_streq0 man "unmanaged"
          || nm_streq0 mode "dnsmasq" || nm_streq0 mode "unbound").
Proof.
  unfold nm_dns_manager_get_resolv_conf_explicit. cbv zeta.
  destruct (init_resolv_conf_mode_priv mode man immutable w) as (plug & -> & Hnone & Hsome).
  cbn [rc_manager plugin set_rc_manager_plugin].
  destruct (get_resolv_conf_manager_unmanaged man) as [Hu Hi].
  assert (Hmode : nm_streq0 mode "none" = true ->
                  nm_streq0 mode "dnsmasq" = false /\ nm_streq0 mode "unbound" = false).
  { unfold nm_streq0. destruct mode as [m|]; [|discriminate].
    intros H. apply String.eqb_eq in H. subst m. split; reflexivity. }
  destruct (nm_streq0 mode "none") eqn:Hn.
  - destruct (Hmode eq_refl) as [-> ->]. reflexivity.
  - destruct immutable.
    + cbn. destruct (nm_streq0 mode "dnsmasq"), (nm_streq0 mode "unbound");
        rewrite ?orb_true_r; reflexivity.
    + rewrite Hu, Hi. cbn [orb].
      destruct (nm_streq0 man "unmanaged"); [reflexivity|]. cbn [orb].
      destruct (nm_streq0 mode "dnsmasq") eqn:Hd.
      * destruct plug; [reflexivity|]. exfalso. now apply Hsome; [left|].
      * destruct (nm_streq0 mode "unbound") eqn:Hb.
        -- destruct plug; [reflexivity|]. exfalso. now apply Hsome; [right|].
        -- now rewrite (Hnone eq_refl eq_refl).
Qed.

(** X21.  Reloading the mode and the plugin in place.  When the DNS
    mode asks for dnsmasq and the plugin in place is a dnsmasq plugin
    (for unbound likewise), [init_resolv_conf_mode] leaves that very
    plugin in [priv->plugin], whichever plugin of the class it is: it
    is not cleared, and what the constructor returns does not take
    its place.  When the plugin in place is of the other class, or
    there is none, the plugin afterwards is the one the constructor
    returns; in every other mode there is none afterwards.  With
    constructors that return plugins of their own class, a second
    reload with the same configuration and the same state of
    [/etc/resolv.conf] changes nothing. *)
Theorem resolv_conf_mode_reload_keeps_plugin (mode man : option string) (immutable : bool)
    (w : World) :
  let w' := init_resolv_conf_mode mode man immutable w in
  (forall plug,
     plugin (priv w) = Some plug ->
     (nm_streq0 mode "dnsmasq" = true /\ plugin_type plug = NM_TYPE_DNS_DNSMASQ)
     \/ (nm_streq0 mode "unbound" = true /\ plugin_type plug = NM_TYPE_DNS_UNBOUND) ->
     plugin (priv w') = Some plug)
  /\ (nm_streq0 mode "dnsmasq" = true ->
      (forall plug, plugin (priv w) = Some plug ->
                    plugin_type plug <> NM_TYPE_DNS_DNSMASQ) ->
      plugin (priv w') = Some nm_dns_dnsmasq_new)
  /\ (nm_streq0 mode "unbound" = true ->
      (forall plug, plugin (priv w) = Some plug ->
                    plugin_type plug <> NM_TYPE_DNS_UNBOUND) ->
      plugin (priv w') = Some nm_dns_unbound_new)
  /\ (nm_streq0 mode "dnsmasq" = false -> nm_streq0 mode "unbound" = false ->
      plugin (priv w') = None)
  /\ (plugin_type nm_dns_dnsmasq_new = NM_TYPE_DNS_DNSMASQ ->
      plugin_type nm_dns_unbound_new = NM_TYPE_DNS_UNBOUND ->
      init_resolv_conf_mode mode man immutable w' = w').
Proof.
  cbv zeta.
  assert (Hmodes : nm_streq0 mode "unbound" = true -> nm_streq0 mode "dnsmasq" = false).
  { destruct mode as [m|]; simpl; [|discriminate].
    intros Hm. apply String.eqb_eq in Hm. now subst m. }
  split; [|split; [|split; [|split]]].
  - intros plug Hp [[Hm Ht] | [Hm Ht]]; unfold init_resolv_conf_mode.
    + rewrite Hm, Hp. destruct plug as [t name caching]. simpl in Ht. subst t.
      cbv beta iota zeta. cbn [orb]. now destruct (negb _).
    + rewrite (Hmodes Hm), Hm, Hp. destruct plug as [t name caching]. simpl in Ht. subst t.
      cbv beta iota zeta. cbn [orb]. now destruct (negb _).
  - intros Hm Hno. unfold init_resolv_conf_mode. rewrite Hm.
    destruct (plugin (priv w)) as [[t name caching]|] eqn:Hp; [|reflexivity].
    destruct t; [|reflexivity]. exfalso. now apply (Hno _ eq_refl).
  - intros Hm Hno. unfold init_resolv_conf_mode. rewrite (Hmodes Hm), Hm.
    destruct (plugin (priv w)) as [[t name caching]|] eqn:Hp; [|reflexivity].
    destruct t; [reflexivity|]. exfalso. now apply (Hno _ eq_refl).
  - intros Hq Hu. unfold init_resolv_conf_mode. rewrite Hq, Hu.
    destruct (plugin (priv w)); cbv beta iota zeta; cbn [orb];
      [reflexivity | now destruct (negb _)].
  - intros Hdq Hub. unfold init_resolv_conf_mode.
    match goal with
    | |- context [rc_manager_eqb (rc_manager (priv w)) ?r] => generalize r; intros rcm
    end.
    destruct nm_dns_dnsmasq_new as [tq nq cq]. destruct nm_dns_unbound_new as [tu nu cu].
    simpl in Hdq, Hub. subst tq tu.
    destruct w as [p a4 a6 tag g lg]. cbn [priv].
    destruct p as [v4 d4 v6 d6 cf hn uq h ph rc pl dt rl]. cbn.
    destruct (nm_streq0 mode "dnsmasq"); [|destruct (nm_streq0 mode "unbound")];
      destruct pl as [[[] name caching]|]; cbn;
      try (destruct (rc_manager_eqb rc rcm) eqn:Heq; cbn);
      rewrite ?rc_manager_eqb_refl, ?Heq; cbn; reflexivity.
Qed.

End BackendMode.

Lemma resolv_conf_mode_reload_keeps_plugin_witness :
  plugin (priv ReloadExample.with_running) = Some ReloadExample.dnsmasq_running
  /\ plugin (priv (@init_resolv_conf_mode Examples.E_soup (Some "dnsmasq") (Some "symlink")
                     false ReloadExample.with_running))
     = Some ReloadExample.dnsmasq_running
  /\ ReloadExample.dnsmasq_running <> @nm_dns_dnsmasq_new Examples.E_soup
  /\ @init_resolv_conf_mode Examples.E_soup (Some "dnsmasq") (Some "symlink") false
       (@init_resolv_conf_mode Examples.E_soup (Some "dnsmasq") (Some "symlink") false
          (Examples.fresh Examples.E_soup))
     = @init_resolv_conf_mode Examples.E_soup (Some "dnsmasq") (Some "symlink") false
         (Examples.fresh Examples.E_soup).
Proof.
  split; [reflexivity|]. split; [|split].
  - apply (proj1 (@resolv_conf_mode_reload_keeps_plugin Examples.E_soup (Some "dnsmasq")
                    (Some "symlink") false ReloadExample.with_running)
             ReloadExample.dnsmasq_running eq_refl).
    left. split; reflexivity.
  - discriminate.
  - exact (proj2 (proj2 (proj2 (proj2
             (@resolv_conf_mode_reload_keeps_plugin Examples.E_soup (Some "dnsmasq")
                (Some "symlink") false (Examples.fresh Examples.E_soup)))))
             eq_refl eq_refl).
Defined.

(** ** Assertions, reconfiguration and disposal *)

Section LifecycleFacts.
Context {E : Externals}.

(** X22.  A commit runs into an assertion exactly when the backend is the
    unknown one or a global configuration has no default domain; in
    every other world it returns. *)
Theorem commit_returns_iff (e : Env) (no_caching : bool) (w : World) :
  (exists r w', update_dns e no_caching w = Some (r, w')) <-> asserts_hold w.
Proof.
  split; [|apply update_dns_returns].
  intros (r & w' & Hu). split.
  - intros Hk. unfold update_dns in Hu. rewrite Hk in Hu.
    destruct (merge_configs w); [|discriminate Hu].
    destruct (update_plugin e no_caching w). simpl in Hu. discriminate Hu.
  - intros g Hg Hd. unfold update_dns, merge_configs, merge_global_dns_config in Hu.
    rewrite Hg, Hd in Hu. discriminate Hu.
Qed.

(** X23.  From construction on, no sequence of calls of the public
    functions runs into an assertion, provided a global configuration,
    if there is one, has its default domain. *)
Theorem api_calls_never_abort (global : option NMGlobalDnsConfig) (mode man : option string)
    (immutable : bool) (ip4_at : ptr -> NMIP4Config) (ip6_at : ptr -> NMIP6Config)
    (cs : list call) :
  (forall g, global = Some g -> global_default_domain g <> None) ->
  exists w',
    run cs (nm_dns_manager_init global mode man immutable ip4_at ip6_at) = Some w'
    /\ asserts_hold w'.
Proof.
  intros Hg. apply run_asserts. now apply init_asserts_hold.
Qed.

Lemma land_lor_zero (a b c : Z) :
  Z.land a (Z.lor b c) = 0 <-> Z.land a b = 0 /\ Z.land a c = 0.
Proof. rewrite Z.land_lor_distr_r. apply Z.lor_eq_0_iff. Qed.

(** X24.  A change of configuration.  When one of the five flags that
    matter is set, [config_changed_cb] commits exactly once, whether
    or not a transaction is open; when none is set it does nothing.
    The mode is reloaded only for a changed DNS mode, a changed
    backend, or SIGHUP: without these the backend and the plugin stay
    as they are. *)
Theorem config_change_commits (SIGHUP SIGUSR1 DNS_MODE RC_MANAGER GLOBAL_DNS_CONFIG : Z)
    (e : Env) (changes : Z) (mode man : option string) (immutable : bool) (w : World) :
  asserts_hold w ->
  let cb := config_changed_cb SIGHUP SIGUSR1 DNS_MODE RC_MANAGER GLOBAL_DNS_CONFIG
              e changes mode man immutable w in
  let relevant :=
    Z.lor (Z.lor (Z.lor (Z.lor SIGHUP SIGUSR1) DNS_MODE) RC_MANAGER) GLOBAL_DNS_CONFIG in
  (Z.land changes relevant = 0 -> cb = Some w)
  /\ (Z.land changes relevant <> 0 ->
      exists w', cb = Some w' /\ commits (new_events w w') = 1%nat)
  /\ (Z.land changes (Z.lor (Z.lor DNS_MODE RC_MANAGER) SIGHUP) = 0 ->
      forall w', cb = Some w' ->
                 rc_manager (priv w') = rc_manager (priv w)
                 /\ plugin (priv w') = plugin (priv w)).
Proof.
  intros Hw. cbv zeta. unfold config_changed_cb, NM_FLAGS_ANY.
  split; [|split].
  - intros H0. rewrite H0. simpl.
    apply land_lor_zero in H0. destruct H0 as [H0 _].
    apply land_lor_zero in H0. destruct H0 as [H0 Hr].
    apply land_lor_zero in H0. destruct H0 as [H0 Hd].
    apply land_lor_zero in H0. destruct H0 as [Hs _].
    assert (Hsub : Z.land changes (Z.lor (Z.lor DNS_MODE RC_MANAGER) SIGHUP) = 0).
    { apply land_lor_zero. split; [apply land_lor_zero; now split | assumption]. }
    rewrite Hsub. reflexivity.
  - intros Hne. apply Z.eqb_neq in Hne. rewrite Hne. simpl.
    match goal with
    | |- context [update_dns e false ?w1] => set (w1' := w1)
    end.
    assert (Hw1 : asserts_hold w1' /\ log w1' = log w).
    { subst w1'. destruct (negb _); [|now split].
      destruct (init_resolv_conf_mode_known mode man immutable w) as [H1 H2].
      split.
      - destruct Hw as [_ Hg]. split; [exact H1 | now rewrite H2].
      - apply init_resolv_conf_mode_log. }
    destruct Hw1 as [Hw1 Hlog].
    destruct (update_dns_returns e false Hw1) as (r & w' & Hu). rewrite Hu.
    exists w'. split; [reflexivity|].
    unfold new_events. rewrite <- Hlog. exact (update_dns_commits _ _ _ Hu).
  - intros Hsub w'. rewrite Hsub. simpl.
    destruct (negb _); [|intros H; inversion H; subst; now split].
    destruct (update_dns e false w) as [[r w1]|] eqn:Hu; simpl; [|discriminate].
    intros H. inversion H; subst.
    apply update_dns_priv in Hu. destruct Hu as (-> & _). now split.
Qed.

Lemma merge_configs_attachments (w1 w2 : World) :
  attachments (priv w1) = attachments (priv w2) ->
  ip4_config_at w1 = ip4_config_at w2 -> ip6_config_at w1 = ip6_config_at w2 ->
  iface_tag w1 = iface_tag w2 -> global_dns_config w1 = global_dns_config w2 ->
  merge_configs w1 = merge_configs w2.
Proof.
  unfold attachments. intros H H4 H6 Ht Hg. inversion H as [[C V4 V6 D4 D6]].
  unfold merge_configs, merge_one, is_device_config.
  now rewrite C, V4, V6, D4, D6, H4, H6, Ht, Hg.
Qed.

(** X25.  Disposal.  The plugin is dropped first.  If the manager never
    touched DNS nothing else happens; if it did, one last commit
    follows with caching off, so that what is left behind names the
    merged nameservers and not the loopback address of a plugin that
    is gone.  In the end the three lists are empty. *)
Theorem dispose_leaves_upstream_nameservers (e : Env) (w : World) :
  asserts_hold w ->
  exists w',
    dispose e w = Some w'
    /\ plugin (priv w') = None
    /\ configs (priv w') = []
    /\ ip4_vpn_configs (priv w') = []
    /\ ip6_vpn_configs (priv w') = []
    /\ (dns_touched (priv w) = false -> new_events w w' = [])
    /\ (dns_touched (priv w) = true ->
        exists rc,
          merge_configs w = Some rc
          /\ commits (new_events w w') = 1%nat
          /\ Forall (hands_nameservers (strv (nameservers rc))) (new_events w w')
          /\ forall a b c g h ok, ~ In (EvPluginUpdate a b c g h ok) (new_events w w')).
Proof.
  intros Hw. unfold dispose.
  set (w1 := set_priv w (snd (_clear_plugin (priv w)))).
  assert (Hp1 : plugin (priv w1) = None /\ dns_touched (priv w1) = dns_touched (priv w)
                /\ rc_manager (priv w1) = rc_manager (priv w)
                /\ attachments (priv w1) = attachments (priv w)).
  { subst w1. unfold _clear_plugin. destruct (plugin (priv w)) eqn:Hp; simpl; auto. }
  destruct Hp1 as (Hp1 & Ht1 & Hr1 & Ha1).
  assert (Hw1 : asserts_hold w1).
  { destruct Hw as [H1 H2]. split; [now rewrite Hr1 | exact H2]. }
  rewrite Ht1. destruct (dns_touched (priv w)) eqn:Ht.
  - destruct (update_dns_returns e true Hw1) as (r & w2 & Hu). rewrite Hu.
    destruct (update_dns_lists _ _ _ Hu) as (rc & Hrc & _ & Hn & _ & _).
    assert (Hup : update_plugin e true w1 = ([], false)).
    { unfold update_plugin. now rewrite Hp1. }
    unfold commit_nameservers in Hn. rewrite Hup in Hn. simpl in Hn.
    pose proof (update_dns_commits _ _ _ Hu) as Hc.
    pose proof (update_dns_keeps_plugin _ _ _ Hu) as Hk.
    destruct (update_dns_trace_split _ _ _ Hu) as (evb & Htr & Fb & _).
    rewrite Hup in Htr. simpl in Htr.
    assert (Hrc' : merge_configs w = Some rc).
    { rewrite <- Hrc. symmetry. now apply merge_configs_attachments. }
    assert (Hno : forall a b c g h ok, ~ In (EvPluginUpdate a b c g h ok) (new_events w1 w2)).
    { intros a b c g h ok Hin. rewrite Htr in Hin.
      destruct Hin as [H | H]; [discriminate H|].
      apply in_app_or in H. destruct H as [H | H].
      - apply in_app_or in H. destruct H as [H | H].
        + destruct (_ =? 0); simpl in H; [tauto|]. destruct H as [H | []]. discriminate H.
        + rewrite Forall_forall in Fb. specialize (Fb _ H). discriminate Fb.
      - destruct (_ && _); simpl in H; [|tauto]. destruct H as [H | []]. discriminate H. }
    destruct r; eexists; (split; [reflexivity|]); simpl;
      (split; [now rewrite Hk|]); repeat (split; [reflexivity|]);
      (split; [discriminate|]); intros _; exists rc;
      (split; [exact Hrc'|]); (split; [exact Hc|]); (split; [exact Hn | exact Hno]).
  - eexists. split; [reflexivity|]. simpl.
    split; [exact Hp1|]. repeat (split; [reflexivity|]).
    split; [|discriminate]. intros _. unfold new_events. simpl.
    apply skipn_all.
Qed.

Lemma compute_hash_attachments (w1 w2 : World) (g : option NMGlobalDnsConfig) :
  attachments (priv w1) = attachments (priv w2) ->
  ip4_config_at w1 = ip4_config_at w2 -> ip6_config_at w1 = ip6_config_at w2 ->
  compute_hash w1 g = compute_hash w2 g.
Proof.
  unfold attachments. intros H H4 H6. inversion H as [[C V4 V6 D4 D6]].
  unfold compute_hash, hash_one, is_device_config.
  now rewrite C, V4, V6, D4, D6, H4, H6.
Qed.

(** X26.  The fingerprint does not cover the hostname.  So a hostname that
    changes inside a transaction is stored, but the end of the
    transaction finds the fingerprint unchanged and commits nothing:
    the new hostname reaches [resolv.conf] only with a later
    commit. *)
Theorem hostname_change_is_not_fingerprinted (e1 e2 : Env) (name : option string)
    (w : World) :
  updates_queue (priv w) = 0 ->
  hash (priv w) = compute_hash w (global_dns_config w) ->
  (forall h, compute_hash (set_priv w (set_hostname (priv w) h)) (global_dns_config w)
             = compute_hash w (global_dns_config w))
  /\ exists w',
       run [BeginUpdates; SetHostname e1 name; EndUpdates e2] w = Some w'
       /\ hostname (priv w') = filter_hostname name
       /\ new_events w w' = []
       /\ updates_queue (priv w') = 0.
Proof.
  intros Hq Hh. split; [intros h; now apply compute_hash_attachments|].
  cbn [run do_call]. unfold nm_dns_manager_begin_updates. rewrite Hq. cbn.
  unfold nm_dns_manager_set_hostname, commit_unless_queued. cbn.
  rewrite Hq. cbn.
  destruct (match hostname (priv w) with
            | Some old => match filter_hostname name with
                          | Some new => String.eqb old new
                          | None => false
                          end
            | None => match filter_hostname name with
                      | Some _ => false
                      | None => true
                      end
            end) eqn:Hsm.
  - assert (Heq : hostname (priv w) = filter_hostname name).
    { destruct (hostname (priv w)) as [old|], (filter_hostname name) as [new|];
        try discriminate; [|reflexivity].
      apply String.eqb_eq in Hsm. now subst. }
    unfold nm_dns_manager_end_updates. cbn.
    match goal with
    | |- context [hash_differs ?a ?b] =>
        replace a with b by (rewrite Hh; symmetry; now apply compute_hash_attachments)
    end.
    rewrite hash_differs_refl. cbn.
    eexists. split; [reflexivity|]. cbn.
    split; [exact Heq|]. split; [|reflexivity].
    unfold new_events. cbn. apply skipn_all.
  - unfold nm_dns_manager_end_updates. cbn.
    match goal with
    | |- context [hash_differs ?a ?b] =>
        replace a with b by (rewrite Hh; symmetry; now apply compute_hash_attachments)
    end.
    rewrite hash_differs_refl. cbn.
    eexists. split; [reflexivity|]. cbn.
    split; [reflexivity|]. split; [|reflexivity].
    unfold new_events. cbn. apply skipn_all.
Qed.

End LifecycleFacts.

Lemma api_calls_never_abort_witness :
  exists w',
    @run Examples.E_soup
       [BeginUpdates;
        AddIP4 Concrete.env_ok (Some "eth0") 1%nat NM_DNS_IP_CONFIG_TYPE_BEST_DEVICE;
        SetHostname Concrete.env_ok (Some "host.example.com");
        EndUpdates Concrete.env_ok;
        RemoveIP4 Concrete.env_ok 1%nat]
       (Examples.fresh_global Examples.E_soup) = Some w'
    /\ asserts_hold w'.
Proof.
  apply (@api_calls_never_abort Examples.E_soup (Some Examples.global_corp) None
           (Some "symlink") false Examples.ip4_objects Examples.ip6_objects).
  intros g Hg. inversion Hg. discriminate.
Defined.

Lemma config_change_commits_witness :
  exists w',
    @config_changed_cb Examples.E_soup 1 2 4 8 16 Concrete.env_ok 1 None (Some "symlink") false
       (nm_dns_manager_begin_updates (Examples.fresh Examples.E_soup)) = Some w'
    /\ commits (new_events (nm_dns_manager_begin_updates (Examples.fresh Examples.E_soup)) w')
       = 1%nat.
Proof.
  assert (Hw : asserts_hold (nm_dns_manager_begin_updates (Examples.fresh Examples.E_soup))).
  { split; [discriminate | intros g Hg; discriminate Hg]. }
  destruct (@config_change_commits Examples.E_soup 1 2 4 8 16 Concrete.env_ok 1 None
              (Some "symlink") false _ Hw) as (_ & H & _).
  apply H. discriminate.
Defined.

Lemma dispose_leaves_upstream_nameservers_witness :
  exists w',
    @dispose Examples.E_soup Concrete.env_ok PluginExample.dnsmasq_lan = Some w'
    /\ plugin (priv w') = None
    /\ Forall (hands_nameservers (Some ["1.1.1.1"; "8.8.8.8"]))
              (new_events PluginExample.dnsmasq_lan w').
Proof.
  assert (Hw : asserts_hold PluginExample.dnsmasq_lan).
  { split; [discriminate | intros g Hg; discriminate Hg]. }
  destruct (@dispose_leaves_upstream_nameservers Examples.E_soup Concrete.env_ok
              PluginExample.dnsmasq_lan Hw) as (w' & Hd & Hp & _ & _ & _ & _ & H).
  exists w'. split; [exact Hd|]. split; [exact Hp|].
  destruct (H eq_refl) as (rc & Hrc & _ & Hn & _).
  inversion Hrc; subst rc. exact Hn.
Defined.

Lemma hostname_change_is_not_fingerprinted_witness :
  exists w',
    @run Examples.E_soup
       [BeginUpdates; SetHostname Concrete.env_ok (Some "host.example.com");
        EndUpdates Concrete.env_ok]
       (Examples.fresh Examples.E_soup) = Some w'
    /\ hostname (priv w') = Some "host.example.com"
    /\ new_events (Examples.fresh Examples.E_soup) w' = [].
Proof.
  destruct (@hostname_change_is_not_fingerprinted Examples.E_soup Concrete.env_ok
              Concrete.env_ok (Some "host.example.com") (Examples.fresh Examples.E_soup)
              eq_refl eq_refl) as (_ & w' & Hr & Hh & He & _).
  exists w'. split; [exact Hr|]. split; [exact Hh | exact He].
Defined.

(** ** The backends, one by one *)

Section BackendRuns.
Context {E : Externals}.

Lemma update_resolv_conf_enters_once e s n o m :
  filter is_update_resolv_conf (fst (update_resolv_conf e s n o m))
  = [CallUpdateResolvConf s n o m]
  /\ SpawnResult_eqb (snd (update_resolv_conf e s n o m)) SR_NOTFOUND = false.
Proof.
  assert (Hl : filter is_update_resolv_conf (fst (update_resconf_symlink e)) = []
               /\ SpawnResult_eqb (snd (update_resconf_symlink e)) SR_NOTFOUND = false).
  { unfold update_resconf_symlink, replace_resconf_symlink.
    repeat break_if; simpl; split; reflexivity. }
  unfold update_resolv_conf.
  destruct (update_resconf_symlink e) as [l r]. simpl in Hl. destruct Hl as [Hl Hr].
  repeat break_if; simpl; rewrite ?filter_app, ?Hl; simpl;
    try (split; [reflexivity | assumption || reflexivity]);
    match goal with
    | H : (_, _) = (_, _) |- _ => inversion H; subst; split; reflexivity
    end.
Qed.

Lemma dispatch_resolvconf_enters_none e s n o :
  filter is_update_resolv_conf (fst (dispatch_resolvconf e s n o)) = []
  /\ SpawnResult_eqb (snd (dispatch_resolvconf e s n o)) SR_NOTFOUND
     = negb (resolvconf_executable e).
Proof.
  unfold dispatch_resolvconf.
  destruct (resolvconf_executable e); simpl; [|split; reflexivity].
  repeat break_if; simpl; split; reflexivity.
Qed.

Lemma dispatch_netconfig_enters_none e s n nd ns :
  filter is_update_resolv_conf (fst (dispatch_netconfig e s n nd ns)) = []
  /\ SpawnResult_eqb (snd (dispatch_netconfig e s n nd ns)) SR_NOTFOUND
     = (netconfig_pid e <=? 0).
Proof.
  unfold dispatch_netconfig, netconfig_list.
  destruct (netconfig_pid e <=? 0); simpl; [split; reflexivity|].
  repeat break_if; simpl; split; reflexivity.
Qed.

(** X27.  Every commit enters [update_resolv_conf] exactly once, with the
    lists it computed, whatever the backend.  The mode it is entered
    in is symlink or file when that is the backend, symlink when the
    helper of the backend cannot be run, and unmanaged in every other
    case, where at most the private copy is written. *)
Theorem every_commit_enters_update_resolv_conf_once (e : Env) (no_caching : bool) (w w' : World)
    (r : bool) :
  update_dns e no_caching w = Some (r, w') ->
  exists rc,
    merge_configs w = Some rc
    /\ filter is_update_resolv_conf (new_events w w')
       = [CallUpdateResolvConf (commit_searches w rc) (commit_nameservers e no_caching w rc)
            (strv (options rc))
            match rc_manager (priv w) with
            | NM_DNS_MANAGER_RESOLV_CONF_MAN_SYMLINK => NM_DNS_MANAGER_RESOLV_CONF_MAN_SYMLINK
            | NM_DNS_MANAGER_RESOLV_CONF_MAN_FILE => NM_DNS_MANAGER_RESOLV_CONF_MAN_FILE
            | NM_DNS_MANAGER_RESOLV_CONF_MAN_RESOLVCONF =>
                if resolvconf_executable e then NM_DNS_MANAGER_RESOLV_CONF_MAN_UNMANAGED
                else NM_DNS_MANAGER_RESOLV_CONF_MAN_SYMLINK
            | NM_DNS_MANAGER_RESOLV_CONF_MAN_NETCONFIG =>
                if netconfig_pid e <=? 0 then NM_DNS_MANAGER_RESOLV_CONF_MAN_SYMLINK
                else NM_DNS_MANAGER_RESOLV_CONF_MAN_UNMANAGED
            | _ => NM_DNS_MANAGER_RESOLV_CONF_MAN_UNMANAGED
            end].
Proof.
  unfold update_dns, commit_searches, commit_nameservers. intros H.
  destruct (merge_configs w) as [rc|]; [|discriminate]. exists rc. split; [reflexivity|].
  pose proof (update_plugin_events e no_caching w) as Hpl.
  destruct (update_plugin e no_caching w) as [evp caching]. cbn [fst snd] in *.
  set (s := strv (limit_searches _)) in *.
  set (n := if caching then _ else _) in *.
  set (o := strv (options rc)) in *.
  assert (Fp : filter is_update_resolv_conf evp = []).
  { clear H. induction evp as [|ev evp IH]; [reflexivity|].
    destruct (Hpl ev (or_introl eq_refl)) as (a & b & c & g & h & ok & ->). simpl.
    apply IH. intros ev' Hin. apply Hpl. now right. }
  assert (Ft : forall (b : bool) id,
            filter is_update_resolv_conf (if b then [] else [EvSourceRemove id]) = [])
    by (intros [] id; reflexivity).
  assert (Fs : forall b : bool,
            filter is_update_resolv_conf (if b then [EvSignalConfigChanged] else []) = [])
    by (intros []; reflexivity).
  pose proof (fun m => update_resolv_conf_enters_once e s n o m) as U.
  pose proof (dispatch_resolvconf_enters_none e s n o) as [R Rn].
  pose proof (dispatch_netconfig_enters_none e s n (nis_domain rc) (strv (nis_servers rc)))
    as [N Nn].
  destruct (rc_manager (priv w)) eqn:Hm; cbn [rc_manager_eqb orb negb] in H;
    unfold dispatch_backend in H.
  - discriminate H.
  - inversion H; subst; clear H.
    erewrite new_events_app by (cbn [log add_log set_priv]; reflexivity).
    cbn [app filter is_update_resolv_conf].
    rewrite !filter_app, ?Ft, ?Fp, ?Fs, ?(proj1 (U _)). reflexivity.
  - inversion H; subst; clear H.
    erewrite new_events_app by (cbn [log add_log set_priv]; reflexivity).
    cbn [app filter is_update_resolv_conf].
    rewrite !filter_app, ?Ft, ?Fp, ?Fs, ?(proj1 (U _)). reflexivity.
  - destruct (U NM_DNS_MANAGER_RESOLV_CONF_MAN_SYMLINK) as [U1 U2].
    destruct (update_resolv_conf e s n o NM_DNS_MANAGER_RESOLV_CONF_MAN_SYMLINK)
      as [ev res]. cbn [fst snd] in *. rewrite U2 in H.
    inversion H; subst; clear H.
    erewrite new_events_app by (cbn [log add_log set_priv]; reflexivity).
    cbn [app filter is_update_resolv_conf].
    rewrite !filter_app, ?Ft, ?Fp, ?Fs, ?U1. reflexivity.
  - destruct (U NM_DNS_MANAGER_RESOLV_CONF_MAN_FILE) as [U1 U2].
    destruct (update_resolv_conf e s n o NM_DNS_MANAGER_RESOLV_CONF_MAN_FILE)
      as [ev res]. cbn [fst snd] in *. rewrite U2 in H.
    inversion H; subst; clear H.
    erewrite new_events_app by (cbn [log add_log set_priv]; reflexivity).
    cbn [app filter is_update_resolv_conf].
    rewrite !filter_app, ?Ft, ?Fp, ?Fs, ?U1. reflexivity.
  - destruct (dispatch_resolvconf e s n o) as [ev res]. cbn [fst snd] in *.
    rewrite Rn in H.
    destruct (U NM_DNS_MANAGER_RESOLV_CONF_MAN_SYMLINK) as [U1 _].
    destruct (update_resolv_conf e s n o NM_DNS_MANAGER_RESOLV_CONF_MAN_SYMLINK)
      as [ev' res']. cbn [fst snd] in *.
    destruct (resolvconf_executable e); cbn [negb] in H;
      inversion H; subst; clear H;
      (erewrite new_events_app by (cbn [log add_log set_priv]; reflexivity));
      cbn [app filter is_update_resolv_conf];
      rewrite !filter_app, ?Ft, ?Fp, ?Fs, ?R, ?U1, ?(proj1 (U _)); reflexivity.
  - destruct (dispatch_netconfig e s n (nis_domain rc) (strv (nis_servers rc)))
      as [ev res]. cbn [fst snd] in *.
    rewrite Nn in H.
    destruct (U NM_DNS_MANAGER_RESOLV_CONF_MAN_SYMLINK) as [U1 _].
    destruct (update_resolv_conf e s n o NM_DNS_MANAGER_RESOLV_CONF_MAN_SYMLINK)
      as [ev' res']. cbn [fst snd] in *.
    destruct (netconfig_pid e <=? 0);
      inversion H; subst; clear H;
      (erewrite new_events_app by (cbn [log add_log set_priv]; reflexivity));
      cbn [app filter is_update_resolv_conf];
      rewrite !filter_app, ?Ft, ?Fp, ?Fs, ?N, ?U1, ?(proj1 (U _)); reflexivity.
Qed.

(** X28.  The [resolvconf] helper, when it can be run.  With neither
    searches nor nameservers the record of NetworkManager is deleted
    ([-d]) and nothing is written, options or not; the result is
    success exactly when the command exits with 0.  Otherwise the text
    of [resolv.conf] is piped to [-a]; the result is success exactly
    when the pipe opens, takes the text and the helper exits with 0. *)
Theorem resolvconf_dispatch_outcome (e : Env) (s n o : option (list string)) :
  resolvconf_executable e = true ->
  let run := dispatch_resolvconf e s n o in
  (s = None -> n = None ->
   fst run = [CallDispatchResolvconf None None o;
              EvSpawn (RESOLVCONF_PATH ++ " -d " ++ "NetworkManager")%string
                      (spawn_resolvconf_status e)]
   /\ (snd run = SR_SUCCESS <-> spawn_resolvconf_status e = 0))
  /\ (s <> None \/ n <> None ->
      In (EvPopen (RESOLVCONF_PATH ++ " -a " ++ "NetworkManager")%string
                  (popen_resolvconf_ok e)) (fst run)
      /\ (popen_resolvconf_ok e = true ->
          In (EvFprintf (RESOLVCONF_PATH ++ " -a " ++ "NetworkManager")%string
                        (create_resolv_conf s n o) (fprintf_pipe_ok e)) (fst run))
      /\ (snd run = SR_SUCCESS
          <-> popen_resolvconf_ok e = true /\ fprintf_pipe_ok e = true
              /\ pclose_status e = 0)
      /\ forall cmd status, ~ In (EvSpawn cmd status) (fst run))
  /\ snd run <> SR_NOTFOUND.
Proof.
  intros Hx. cbv zeta. unfold dispatch_resolvconf. rewrite Hx. cbn [negb].
  remember (create_resolv_conf s n o) as content.
  split; [|split].
  - intros -> ->. split; [reflexivity|]. cbn [snd].
    destruct (spawn_resolvconf_status e =? 0) eqn:H0.
    + apply Z.eqb_eq in H0. tauto.
    + apply Z.eqb_neq in H0. split; [discriminate | contradiction].
  - intros Hsn.
    assert (Hcase : match s, n with None, None => False | _, _ => True end).
    { destruct s, n; try exact I. destruct Hsn as [H | H]; now apply H. }
    destruct s as [sv|], n as [nv|]; try contradiction;
      (destruct (popen_resolvconf_ok e); cbn [negb fst snd];
       [destruct (pclose_status e <? 0) eqn:Hlt;
        [|destruct (0 <? pclose_status e) eqn:Hgt];
        cbn [fst snd];
        (split; [simpl; tauto|]); (split; [intros _; simpl; tauto|]);
        (split;
         [try apply Z.ltb_lt in Hlt; try apply Z.ltb_ge in Hlt;
          try apply Z.ltb_lt in Hgt; try apply Z.ltb_ge in Hgt;
          destruct (fprintf_pipe_ok e);
          (split; [intros H; try discriminate H; repeat split; lia
                  | intros (_ & H1 & H2); try discriminate H1; try lia; reflexivity])
         | intros cmd status Hin; simpl in Hin;
           repeat (destruct Hin as [Hin | Hin]; try discriminate Hin); exact Hin])
       | (split; [simpl; tauto|]); (split; [discriminate|]);
         (split; [split; [discriminate | intros (H & _); discriminate H]
                 | intros cmd status Hin; simpl in Hin;
                   repeat (destruct Hin as [Hin | Hin]; try discriminate Hin); exact Hin])]).
  - destruct s, n; repeat break_if; cbn [snd]; discriminate.
Qed.

End BackendRuns.

Lemma every_commit_enters_update_resolv_conf_once_witness :
  exists r w',
    @update_dns Examples.E_soup Concrete.env_ok false HelperExample.fresh_resolvconf
    = Some (r, w')
    /\ filter is_update_resolv_conf (new_events HelperExample.fresh_resolvconf w')
       = [CallUpdateResolvConf None None None NM_DNS_MANAGER_RESOLV_CONF_MAN_UNMANAGED].
Proof.
  assert (Hw : asserts_hold HelperExample.fresh_resolvconf).
  { split; [discriminate | intros g Hg; discriminate Hg]. }
  destruct (@update_dns_returns Examples.E_soup Concrete.env_ok false
              HelperExample.fresh_resolvconf Hw) as (r & w' & Hu).
  exists r, w'. split; [exact Hu|].
  destruct (@every_commit_enters_update_resolv_conf_once Examples.E_soup _ _ _ _ _ Hu)
    as (rc & Hrc & H).
  inversion Hrc; subst rc. exact H.
Defined.

Lemma resolvconf_dispatch_outcome_witness :
  @dispatch_resolvconf Examples.E_soup Concrete.env_ok None None (Some ["rotate"])
  = ([CallDispatchResolvconf None None (Some ["rotate"]);
      EvSpawn "/sbin/resolvconf -d NetworkManager" 0], SR_SUCCESS).
Proof.
  destruct (@resolvconf_dispatch_outcome Examples.E_soup Concrete.env_ok None None
              (Some ["rotate"]) eq_refl) as (H & _ & _).
  destruct (H eq_refl eq_refl) as [H1 H2].
  rewrite (surjective_pairing (@dispatch_resolvconf Examples.E_soup Concrete.env_ok None None
                                 (Some ["rotate"]))).
  rewrite H1, (proj2 H2 eq_refl). reflexivity.
Defined.

(** ** What the plugin and netconfig are handed *)

Lemma fold_append_filter {A} (keep : A -> bool) (l out : list A) :
  fold_left (fun out data => if keep data then g_slist_append out data else out) l out
  = out ++ filter keep l.
Proof.
  revert out. induction l as [|x l IH]; intros out; simpl.
  - now rewrite app_nil_r.
  - destruct (keep x); rewrite IH; [|reflexivity].
    unfold g_slist_append. now rewrite <- app_assoc.
Qed.

Lemma device_list_In (p : NMDnsManagerPrivate) (x : gpointer) :
  In x (map Ref4 (opt_list (ip4_device_config p)) ++ map Ref6 (opt_list (ip6_device_config p)))
  <-> is_device_config p x = true.
Proof.
  rewrite in_app_iff. unfold is_device_config.
  destruct (ip4_device_config p) as [d4|], (ip6_device_config p) as [d6|], x as [a|a];
    simpl; rewrite ?Nat.eqb_eq; split; intros H;
    repeat match goal with
           | H : _ \/ _ |- _ => destruct H as [H | H]
           | H : False |- _ => destruct H
           | H : Ref4 _ = Ref4 _ |- _ => inversion H; subst; clear H
           | H : Ref6 _ = Ref6 _ |- _ => inversion H; subst; clear H
           end;
    try discriminate; subst; auto.
Qed.

Section PluginLists.
Context {E : Externals}.

(** X29.  What the plugin is handed.  Without a global configuration: the
    VPN configs of both families, none twice; and the device configs
    and the other configs, which together hold every config of
    [priv->configs] exactly once, a device config never among the
    others.  With a global configuration: the global configuration and
    three empty lists.  In both cases the hostname as stored. *)
Theorem plugin_is_handed_every_config_once (e : Env) (no_caching : bool) (w : World)
    (vpn dev other : list gpointer) (g : option NMGlobalDnsConfig) (h : option string)
    (ok : bool) :
  attachments_consistent (priv w) ->
  In (EvPluginUpdate vpn dev other g h ok) (fst (update_plugin e no_caching w)) ->
  g = global_dns_config w /\ h = hostname (priv w)
  /\ match global_dns_config w with
     | Some _ => vpn = [] /\ dev = [] /\ other = []
     | None =>
         vpn = map Ref4 (ip4_vpn_configs (priv w)) ++ map Ref6 (ip6_vpn_configs (priv w))
         /\ NoDup vpn
         /\ NoDup (dev ++ other)
         /\ (forall x, In x (dev ++ other) <-> In x (configs (priv w)))
         /\ (forall x, In x dev -> ~ In x other)
     end.
Proof.
  intros (N0 & N4 & N6 & D4 & D6) Hin.
  assert (Hev : g = global_dns_config w /\ h = hostname (priv w)
                /\ (vpn, dev, other)
                   = match global_dns_config w with
                     | None => build_plugin_config_lists (priv w)
                     | Some _ => ([], [], [])
                     end).
  { unfold update_plugin in Hin. destruct (plugin (priv w)); [|destruct Hin].
    destruct (_ && _); [destruct Hin|].
    destruct (match global_dns_config w with
              | Some _ => _
              | None => _
              end) as [[a b] c].
    simpl in Hin. destruct Hin as [Hin | []]. inversion Hin; subst. auto. }
  destruct Hev as (-> & -> & Hl). split; [reflexivity|]. split; [reflexivity|].
  destruct (global_dns_config w); [inversion Hl; auto|].
  unfold build_plugin_config_lists in Hl. rewrite fold_append_filter in Hl.
  simpl app in Hl. inversion Hl; subst; clear Hl.
  assert (Hdev : forall x,
            In x (map Ref4 (opt_list (ip4_device_config (priv w)))
                  ++ map Ref6 (opt_list (ip6_device_config (priv w))))
            -> In x (configs (priv w))).
  { intros x Hx. apply in_app_or in Hx.
    destruct Hx as [Hx | Hx]; apply in_map_iff in Hx; destruct Hx as (d & <- & Hd).
    - apply D4. destruct (ip4_device_config (priv w)); simpl in Hd; [|destruct Hd].
      destruct Hd as [-> | []]. reflexivity.
    - apply D6. destruct (ip6_device_config (priv w)); simpl in Hd; [|destruct Hd].
      destruct Hd as [-> | []]. reflexivity. }
  split; [reflexivity|]. split; [|split; [|split]].
  - apply NoDup_app.
    + apply NoDup_map_NoDup_ForallPairs; [|assumption]. intros a b _ _ H. now inversion H.
    + apply NoDup_map_NoDup_ForallPairs; [|assumption]. intros a b _ _ H. now inversion H.
    + intros x H4 H6. apply in_map_iff in H4. apply in_map_iff in H6.
      destruct H4 as (a & <- & _). destruct H6 as (b & Hb & _). discriminate Hb.
  - apply NoDup_app.
    + destruct (ip4_device_config (priv w)), (ip6_device_config (priv w)); simpl;
        repeat constructor; simpl; intuition discriminate.
    + now apply NoDup_filter.
    + intros x Hd Ho. apply device_list_In in Hd. apply filter_In in Ho.
      destruct Ho as [_ Ho]. rewrite Hd in Ho. discriminate Ho.
  - intros x. rewrite in_app_iff, filter_In. split.
    + intros [H | [H _]]; [now apply Hdev | assumption].
    + intros H. destruct (is_device_config (priv w) x) eqn:Hd.
      * left. now apply device_list_In.
      * right. split; [assumption | reflexivity].
  - intros x Hd Ho. apply device_list_In in Hd. apply filter_In in Ho.
    destruct Ho as [_ Ho]. rewrite Hd in Ho. discriminate Ho.
Qed.

(** X30.  A commit through [netconfig], when it can be spawned.  The helper
    is handed the searches and nameservers of the commit and the NIS
    domain and NIS servers of the merge; what is written to it has no
    other keys than INTERFACE, DNSSEARCH, DNSSERVERS, NISDOMAIN and
    NISSERVERS, so options never reach it; and the commit returns TRUE
    exactly when the helper can be waited for and exits with 0,
    whatever happens to the private copy. *)
Theorem netconfig_commit (e : Env) (no_caching : bool) (w : World) :
  asserts_hold w ->
  rc_manager (priv w) = NM_DNS_MANAGER_RESOLV_CONF_MAN_NETCONFIG ->
  0 < netconfig_pid e ->
  exists rc r w',
    merge_configs w = Some rc
    /\ update_dns e no_caching w = Some (r, w')
    /\ In (CallDispatchNetconfig (commit_searches w rc) (commit_nameservers e no_caching w rc)
             (nis_domain rc) (strv (nis_servers rc)))
          (new_events w w')
    /\ (r = true <-> kill_child_sync_ok e = true /\ netconfig_wifexited e = true
                     /\ netconfig_wexitstatus e = 0)
    /\ forall key value,
         In (EvNetconfigWrite key value) (new_events w w') ->
         In key ["INTERFACE"; "DNSSEARCH"; "DNSSERVERS"; "NISDOMAIN"; "NISSERVERS"].
Proof.
  intros Hw Hm Hpid. destruct (merge_configs_some Hw) as [rc Hrc]. exists rc.
  pose proof (update_plugin_events e no_caching w) as Hpl.
  unfold update_dns, commit_searches, commit_nameservers. rewrite Hrc.
  destruct (update_plugin e no_caching w) as [evp caching]. cbn [fst snd] in *.
  set (s := strv (limit_searches _)).
  set (n := if caching then _ else _).
  set (o := strv (options rc)).
  pose proof (update_resolv_conf_from_backend e s n o
                NM_DNS_MANAGER_RESOLV_CONF_MAN_UNMANAGED) as Fp.
  assert (Hnw : forall key value,
            ~ In (EvNetconfigWrite key value)
                 (fst (update_resolv_conf e s n o NM_DNS_MANAGER_RESOLV_CONF_MAN_UNMANAGED))).
  { intros key value Hin.
    pose proof (update_resolv_conf_no_helper e s n o
                  NM_DNS_MANAGER_RESOLV_CONF_MAN_UNMANAGED) as Hn.
    rewrite Forall_forall in Hn. exact (Hn _ Hin). }
  rewrite Hm. cbn [rc_manager_eqb orb negb].
  unfold dispatch_backend, dispatch_netconfig.
  assert (Hle : (netconfig_pid e <=? 0) = false) by (apply Z.leb_gt; exact Hpid).
  rewrite Hle.
  set (evn := [CallDispatchNetconfig s n (nis_domain rc) (strv (nis_servers rc));
               EvNetconfigSpawn (netconfig_pid e)]
              ++ [EvNetconfigWrite "INTERFACE" "NetworkManager"]
              ++ netconfig_list "DNSSEARCH" s
              ++ netconfig_list "DNSSERVERS" n
              ++ match nis_domain rc with
                 | Some d => [EvNetconfigWrite "NISDOMAIN" d]
                 | None => []
                 end
              ++ netconfig_list "NISSERVERS" (strv (nis_servers rc))).
  assert (Hkeys : forall key value,
            In (EvNetconfigWrite key value) evn ->
            In key ["INTERFACE"; "DNSSEARCH"; "DNSSERVERS"; "NISDOMAIN"; "NISSERVERS"]).
  { intros key value Hin. subst evn. unfold netconfig_list in Hin.
    destruct s, n, (nis_domain rc), (strv (nis_servers rc)); simpl in Hin;
      repeat (destruct Hin as [Hin | Hin]; [try discriminate Hin; inversion Hin; subst;
                                            simpl; tauto|]);
      destruct Hin. }
  assert (Hfirst : In (CallDispatchNetconfig s n (nis_domain rc) (strv (nis_servers rc))) evn)
    by (subst evn; now left).
  clearbody evn.
  assert (Hres : exists res,
            (if negb (kill_child_sync_ok e) then (evn, SR_ERROR)
             else if negb (netconfig_wifexited e) || negb (netconfig_wexitstatus e =? 0)
                  then (evn, SR_ERROR) else (evn, SR_SUCCESS)) = (evn, res)
            /\ SpawnResult_eqb res SR_NOTFOUND = false
            /\ (SpawnResult_eqb res SR_SUCCESS = true
                <-> kill_child_sync_ok e = true /\ netconfig_wifexited e = true
                    /\ netconfig_wexitstatus e = 0)).
  { destruct (kill_child_sync_ok e), (netconfig_wifexited e);
      destruct (Z.eqb_spec (netconfig_wexitstatus e) 0) as [Hst | Hst]; simpl;
      eexists; (split; [reflexivity|]); (split; [reflexivity|]);
      simpl; split; intros H; try discriminate H; try tauto;
      destruct H as (H1 & H2 & H3); try discriminate; contradiction. }
  destruct Hres as (res & -> & Hnf & Hok). cbn [fst snd]. rewrite Hnf.
  eexists _, _. split; [reflexivity|]. split; [reflexivity|].
  erewrite new_events_app by (cbn [log add_log set_priv]; reflexivity).
  cbn [andb app]. split; [|split].
  - right. apply in_or_app. right. apply in_or_app. right. apply in_or_app. now left.
  - exact Hok.
  - intros key value Hin. destruct Hin as [Hin | Hin]; [discriminate Hin|].
    apply in_app_or in Hin. destruct Hin as [Hin | Hin].
    { destruct (_ =? 0); simpl in Hin; [destruct Hin|]. destruct Hin as [Hin | []].
      discriminate Hin. }
    apply in_app_or in Hin. destruct Hin as [Hin | Hin].
    { destruct (Hpl _ Hin) as (a & b & c & g & h & ok & Hc). discriminate Hc. }
    apply in_app_or in Hin. destruct Hin as [Hin | Hin]; [now apply (Hkeys key value)|].
    apply in_app_or in Hin. destruct Hin as [Hin | Hin]; [now apply Hnw in Hin|].
    destruct (SpawnResult_eqb res SR_SUCCESS); simpl in Hin; [|destruct Hin].
    destruct Hin as [Hin | []]. discriminate Hin.
Qed.

End PluginLists.

Lemma plugin_is_handed_every_config_once_witness :
  attachments_consistent (priv PluginExample.dnsmasq_lan)
  /\ In (EvPluginUpdate [] [Ref4 1%nat] [] None None true)
        (fst (update_plugin Concrete.env_ok false PluginExample.dnsmasq_lan))
  /\ NoDup ([Ref4 1%nat] ++ [] : list gpointer)
  /\ (In (Ref4 1%nat) ([Ref4 1%nat] ++ [])
      <-> In (Ref4 1%nat) (configs (priv PluginExample.dnsmasq_lan))).
Proof.
  assert (Hc : attachments_consistent (priv PluginExample.dnsmasq_lan)).
  { vm_compute. repeat split; try (repeat constructor; simpl; tauto);
      intros d Hd; inversion Hd; subst; simpl; tauto. }
  assert (Hin : In (EvPluginUpdate [] [Ref4 1%nat] [] None None true)
                   (fst (update_plugin Concrete.env_ok false PluginExample.dnsmasq_lan)))
    by (vm_compute; tauto).
  destruct (@plugin_is_handed_every_config_once Concrete.env_ok false
              PluginExample.dnsmasq_lan _ _ _ _ _ _ Hc Hin) as (_ & _ & H).
  change (global_dns_config PluginExample.dnsmasq_lan) with (@None NMGlobalDnsConfig) in H.
  destruct H as (_ & _ & Hnd & H & _).
  split; [exact Hc|]. split; [exact Hin|]. split; [exact Hnd|]. exact (H (Ref4 1%nat)).
Defined.

Lemma netconfig_commit_witness :
  exists w',
    @update_dns Examples.E_soup Concrete.env_ok false NisExample.lab_then_office
    = Some (true, w')
    /\ In (CallDispatchNetconfig None (Some ["1.1.1.1"; "8.8.8.8"]) (Some "office")
             (Some ["1.1.1.1"; "8.8.8.8"]))
          (new_events NisExample.lab_then_office w').
Proof.
  assert (Hw : asserts_hold NisExample.lab_then_office).
  { split; [vm_compute; discriminate | intros g Hg; vm_compute in Hg; discriminate Hg]. }
  assert (Hm : rc_manager (priv NisExample.lab_then_office)
               = NM_DNS_MANAGER_RESOLV_CONF_MAN_NETCONFIG) by (vm_compute; reflexivity).
  assert (Hpid : 0 < netconfig_pid Concrete.env_ok) by reflexivity.
  destruct (@netconfig_commit Examples.E_soup Concrete.env_ok false
              NisExample.lab_then_office Hw Hm Hpid)
    as (rc & r & w' & Hrc & Hu & Hin & Hr & _).
  exists w'.
  assert (Hrt : r = true) by (apply Hr; repeat split).
  subst r. split; [exact Hu|].
  assert (Hrc' : @merge_configs Examples.E_soup NisExample.lab_then_office
                 = Some {| nameservers := ["1.1.1.1"; "8.8.8.8"]; searches := [];
                           options := []; nis_domain := Some "office";
                           nis_servers := ["1.1.1.1"; "8.8.8.8"] |})
    by (vm_compute; reflexivity).
  rewrite Hrc' in Hrc. inversion Hrc; subst rc. exact Hin.
Defined.
